(** * Uplink monitor: identity resolver, ISP change detector, metrics
      aggregator and broadcaster

    A shallow embedding of the server module (the TypeScript source that
    defines [checkAndLogIspChange], [logGatewayStatus], the four provider
    clients, [getPublicIpInfo], [getMetricsWithRetry], [getNetworkMetrics],
    [startContinuousMonitoring] and the WebSocket connection handler).

    The module-level variables of the source are the fields of [World].
    An [async] function is a state-passing computation that either returns
    or throws; a state change made before a [throw] is kept, as in
    JavaScript.  Everything the outside world decides (what [Date.now()]
    reads, what an HTTP request, a SQL statement, a ping or a system probe
    answers) is an explicit argument of the function that asks for it. *)

(** The query routes, the start-up sequence and the handlers of the
    dashboard (the React client: [formatThaiTime], [updateHistory] and the
    WebSocket handlers) are embedded in the same way; the state the
    dashboard's handlers touch is the record [Dashboard]. *)

From Stdlib Require Import ZArith List String Bool Lia QArith Qround Sorted.
From Stdlib Require Import Ascii Permutation.
Import ListNotations.
Local Close Scope Q_scope.
Local Open Scope string_scope.
Local Open Scope list_scope.
Local Open Scope Z_scope.

(** ** Data model *)

(** The object every provider client returns, and the mock record of
    [getPublicIpInfo].  The ten fields are those of the mock record; the
    provider-specific extras ([countryCode], [asn], [isProxy], ...) are not
    read anywhere in the server and are left out.  A text field the provider
    did not send is the empty string, which is falsy as [undefined] is. *)
Record IdentityRecord := mkIdentity {
  ip : string;
  country : string;
  region : string;
  city : string;
  isp : string;
  latitude : Q;
  longitude : Q;
  organization : string;
  timezone : string;
  source : string
}.

(** [cachedIpInfo = { data, timestamp }] *)
Record CacheEntry := mkCache {
  data : IdentityRecord;
  cache_timestamp : Z
}.

(** A row of [dbo.swap].  The IDENTITY column [id] is read by no statement
    of the program; the table is kept as the list of its rows in insertion
    order, oldest first. *)
Module Swap.
Record row := mk {
  isp : string;
  ip : string;
  timestamp : Z;
  uplink : Z
}.
End Swap.

(** A row of [dbo.gateway_log]. *)
Module GatewayLog.
Record row := mk {
  status : string;
  timestamp : Z
}.
End GatewayLog.

Record SystemMetrics := mkSystemMetrics {
  cpuLoad : string;
  memoryUsed : string;
  uptime : Z
}.

Record NetworkMetrics := mkNetworkMetrics {
  downloadSpeed : string;
  uploadSpeed : string;
  totalDownload : string;
  totalUpload : string;
  latency : string
}.

(** The object [getNetworkMetrics] returns.  [publicIpInfo] is whatever
    the retry wrapper handed back, which is [undefined] ([None]) when its
    loop runs no iteration. *)
Record Snapshot := mkSnapshot {
  timestamp : string;
  publicIpInfo : option IdentityRecord;
  systemMetrics : SystemMetrics;
  networkMetrics : NetworkMetrics
}.

(** ** What the providers and the system probes answer *)

(** [response.data] of ip-api.com. *)
Module IpApi.
Record data := mk {
  status : string;
  query : string;
  country : string;
  regionName : string;
  city : string;
  isp : string;
  lat : Q;
  lon : Q;
  org : string;
  timezone : string
}.
End IpApi.

(** [response.data] of freeipapi.com; [timeZones] may be missing. *)
Module FreeIpApi.
Record data := mk {
  ipAddress : string;
  countryName : string;
  regionName : string;
  cityName : string;
  asnOrganization : string;
  latitude : Q;
  longitude : Q;
  timeZones : option (list string)
}.
End FreeIpApi.

(** [response.data] of ipwho.is; [connection] and [timezone] are nested
    objects that may be missing (they are when the service answers
    [success: false]). *)
Module IpWhoIs.
Record connection_data := mkConnection {
  conn_isp : string;
  conn_org : string
}.
Record data := mk {
  ip : string;
  country : string;
  region : string;
  city : string;
  connection : option connection_data;
  latitude : Q;
  longitude : Q;
  timezone_id : option string
}.
End IpWhoIs.

(** [response.data] of ipapi.co, asked for the address api.ipify.org gave. *)
Module IpapiCo.
Record data := mk {
  ip : string;
  country_name : string;
  region : string;
  city : string;
  org : string;
  latitude : Q;
  longitude : Q;
  timezone : string
}.
End IpapiCo.

(** The parts of the systeminformation results that are read. *)
Module Si.
Record NetworkStatsData := mkNetworkStats {
  rx_sec : Q;
  tx_sec : Q;
  rx_bytes : Q;
  tx_bytes : Q
}.
Record CurrentLoadData := mkCurrentLoad { currentLoad : Q }.
Record MemData := mkMem { used : Q; total : Q }.
Record TimeData := mkTime { uptime : Q }.
End Si.

(** ** What the query routes answer *)

(** An entry of the array [/api/swap-logs] answers with: the four columns
    of its SELECT, [timestamp] being the text FORMAT makes of the column. *)
Module SwapLog.
Record entry := mk {
  isp : string;
  ip : string;
  timestamp : string;
  uplink : Z
}.
End SwapLog.

(** An entry of the array [/api/active-isps] answers with. *)
Module ActiveISP.
Record entry := mk {
  isp : string;
  ip : string;
  timestamp : string;
  is_active : Z
}.
End ActiveISP.

(** The body of [/api/internet-uptime-7d]: the one row of the query, or the
    error object. *)
Inductive InternetUptime7d :=
| UptimeCounts (upCount totalCount : Z)
| UptimeError (error : string).

(** What a route hands to [res]: [res.json(body)], or
    [res.status(500).json({ error })]. *)
Inductive Response (A : Type) : Type :=
| Json (body : A)
| Status500 (error : string).
Arguments Json {A} body.
Arguments Status500 {A} error.

(** ** The state of the dashboard (the React client) *)

(** A point of a chart: [{ time, value }]. *)
Module History.
Record point := mk {
  time : string;
  value : Q
}.
End History.

(** The requests the message handler starts. *)
Inductive Fetch := FetchSwapLogs | FetchActiveIsps.

(** The state of [App] that the WebSocket handlers touch: the [useState]
    values and [lastIpRef]; [fetches] is the history of the requests the
    handlers started, newest last. *)
Record Dashboard := mkDashboard {
  metrics : option Snapshot;
  latencyHistory : list History.point;
  cpuHistory : list History.point;
  memoryHistory : list History.point;
  isConnected : bool;
  lastIpRef : option string;
  fetches : list Fetch
}.

(** ** What the program does to the outside world *)

Inductive Url :=
| UrlIpApi        (* https://ip-api.com/json/?fields=... *)
| UrlFreeIpApi    (* https://freeipapi.com/api/json *)
| UrlIpWhoIs      (* https://ipwho.is *)
| UrlIpify        (* https://api.ipify.org?format=json *)
| UrlIpapiCo.     (* https://ipapi.co/<ip>/json/ *)

Inductive Sql :=
| SelectLastSwap                       (* SELECT TOP 1 isp, ip FROM swap ORDER BY timestamp DESC *)
| DeactivateIsp (oldIsp : string)      (* UPDATE swap SET uplink = 0 WHERE isp = @oldIsp AND uplink = 1 *)
| InsertSwap (isp ip : string)         (* INSERT INTO swap (isp, ip, uplink) VALUES (@isp, @ip, 1) *)
| InsertGatewayLog (status : string)   (* INSERT INTO dbo.gateway_log (status) VALUES (@status) *)
| SelectNow.                           (* SELECT FORMAT(SYSDATETIMEOFFSET() ...) as timestamp *)

(** The observable actions, in the order they are issued.  [Get u t] is an
    [axios.get] of [u] issued at time [t]; [Timeout ms] is a
    [setTimeout(resolve, ms)] that the caller awaits; [ConsoleError] is a
    [console.error] with the given prefix ([console.log] is not recorded);
    [WsSend c s] is [ws.send(JSON.stringify(s))] on the socket of client
    [c]. *)
Inductive Event :=
| Query (q : Sql)
| Get (u : Url) (sentAt : Z)
| Timeout (ms : Z)
| Ping
| ConsoleError (prefix : string)
| WsSend (client : nat) (payload : Snapshot).

Inductive Err :=
| PoolNotInitialized     (* new Error('Database connection not initialized') *)
| SqlError               (* a rejected pool.request().query(...) *)
| AxiosError             (* transport error, timeout or non-2xx status *)
| IpApiRequestFailed     (* new Error('IP API request failed') *)
| TypeError              (* a property read on undefined or null *)
| PingError              (* a rejected ping.promise.probe *)
| ProbeError.            (* a rejected systeminformation call *)

(** The module-level variables.  [pool] is [true] once a connection pool
    has been assigned ([let pool: any] stays [undefined] when the connect
    fails, since [initializePool] swallows the error).  [swap] and
    [gateway_log] are the two tables behind the pool.  [trace] is the
    history of actions, newest last. *)
Record World := mkWorld {
  pool : bool;
  swap : list Swap.row;
  gateway_log : list GatewayLog.row;
  lastIpApiCall : Z;
  lastFreeIpApiCall : Z;
  lastIpWhoIsCall : Z;
  lastIpifyCall : Z;
  cachedIpInfo : option CacheEntry;
  lastIspCheck : Z;
  currentMetrics : option Snapshot;
  trace : list Event
}.

Definition set_swap (v : list Swap.row) (w : World) : World :=
  mkWorld (pool w) v (gateway_log w) (lastIpApiCall w) (lastFreeIpApiCall w)
    (lastIpWhoIsCall w) (lastIpifyCall w) (cachedIpInfo w) (lastIspCheck w)
    (currentMetrics w) (trace w).

Definition set_gateway_log (v : list GatewayLog.row) (w : World) : World :=
  mkWorld (pool w) (swap w) v (lastIpApiCall w) (lastFreeIpApiCall w)
    (lastIpWhoIsCall w) (lastIpifyCall w) (cachedIpInfo w) (lastIspCheck w)
    (currentMetrics w) (trace w).

Definition set_lastIpApiCall (v : Z) (w : World) : World :=
  mkWorld (pool w) (swap w) (gateway_log w) v (lastFreeIpApiCall w)
    (lastIpWhoIsCall w) (lastIpifyCall w) (cachedIpInfo w) (lastIspCheck w)
    (currentMetrics w) (trace w).

Definition set_lastFreeIpApiCall (v : Z) (w : World) : World :=
  mkWorld (pool w) (swap w) (gateway_log w) (lastIpApiCall w) v
    (lastIpWhoIsCall w) (lastIpifyCall w) (cachedIpInfo w) (lastIspCheck w)
    (currentMetrics w) (trace w).

Definition set_lastIpWhoIsCall (v : Z) (w : World) : World :=
  mkWorld (pool w) (swap w) (gateway_log w) (lastIpApiCall w)
    (lastFreeIpApiCall w) v (lastIpifyCall w) (cachedIpInfo w) (lastIspCheck w)
    (currentMetrics w) (trace w).

Definition set_lastIpifyCall (v : Z) (w : World) : World :=
  mkWorld (pool w) (swap w) (gateway_log w) (lastIpApiCall w)
    (lastFreeIpApiCall w) (lastIpWhoIsCall w) v (cachedIpInfo w) (lastIspCheck w)
    (currentMetrics w) (trace w).

Definition set_cachedIpInfo (v : option CacheEntry) (w : World) : World :=
  mkWorld (pool w) (swap w) (gateway_log w) (lastIpApiCall w)
    (lastFreeIpApiCall w) (lastIpWhoIsCall w) (lastIpifyCall w) v (lastIspCheck w)
    (currentMetrics w) (trace w).

Definition set_lastIspCheck (v : Z) (w : World) : World :=
  mkWorld (pool w) (swap w) (gateway_log w) (lastIpApiCall w)
    (lastFreeIpApiCall w) (lastIpWhoIsCall w) (lastIpifyCall w) (cachedIpInfo w) v
    (currentMetrics w) (trace w).

Definition set_currentMetrics (v : option Snapshot) (w : World) : World :=
  mkWorld (pool w) (swap w) (gateway_log w) (lastIpApiCall w)
    (lastFreeIpApiCall w) (lastIpWhoIsCall w) (lastIpifyCall w) (cachedIpInfo w)
    (lastIspCheck w) v (trace w).

Definition emit (e : Event) (w : World) : World :=
  mkWorld (pool w) (swap w) (gateway_log w) (lastIpApiCall w)
    (lastFreeIpApiCall w) (lastIpWhoIsCall w) (lastIpifyCall w) (cachedIpInfo w)
    (lastIspCheck w) (currentMetrics w) (trace w ++ [e]).

Definition set_pool (v : bool) (w : World) : World :=
  mkWorld v (swap w) (gateway_log w) (lastIpApiCall w) (lastFreeIpApiCall w)
    (lastIpWhoIsCall w) (lastIpifyCall w) (cachedIpInfo w) (lastIspCheck w)
    (currentMetrics w) (trace w).

(** ** Computations that return or throw *)

Inductive Result (A : Type) : Type :=
| Ok (a : A)
| Throw (e : Err).
Arguments Ok {A} a.
Arguments Throw {A} e.

Definition M (A : Type) : Type := World -> Result A * World.

Definition ret {A} (a : A) : M A := fun w => (Ok a, w).

Definition throw {A} (e : Err) : M A := fun w => (Throw e, w).

Definition bind {A B} (m : M A) (k : A -> M B) : M B :=
  fun w =>
    match m w with
    | (Ok a, w') => k a w'
    | (Throw e, w') => (Throw e, w')
    end.

(** [try { m } catch (e) { h e }] *)
Definition try_catch {A} (m : M A) (h : Err -> M A) : M A :=
  fun w =>
    match m w with
    | (Ok a, w') => (Ok a, w')
    | (Throw e, w') => h e w'
    end.

Definition gets {A} (f : World -> A) : M A := fun w => (Ok (f w), w).

Definition modify (f : World -> World) : M unit := fun w => (Ok tt, f w).

Definition when (b : bool) (m : M unit) : M unit := if b then m else ret tt.

Declare Scope js_scope.
Delimit Scope js_scope with js.
Notation "x <- m ;; k" := (bind m (fun x => k))
  (at level 61, m at next level, right associativity) : js_scope.
Notation "m ;; k" := (bind m (fun _ => k))
  (at level 61, right associativity) : js_scope.
Local Open Scope js_scope.

(** What the outside world answers to an awaited call. *)
Definition settle {A} (r : Result A) : M A := fun w => (r, w).

Definition console_error (prefix : string) : M unit :=
  modify (emit (ConsoleError prefix)).

(** [await new Promise(resolve => setTimeout(resolve, ms))] *)
Definition setTimeout (ms : Z) : M unit := modify (emit (Timeout ms)).

Section Program.

(** Configuration read from the environment at start-up
    ([parseInt(process.env.X || '30000')]), and the two operations the
    embedding leaves to the platform: the equality SQL Server's collation
    gives [isp = @oldIsp], and [Number.prototype.toFixed(2)]. *)
Variable CACHE_DURATION : Z.
Variable ISP_CHECK_INTERVAL : Z.
Variable sql_eq : string -> string -> bool.
Variable toFixed2 : Q -> string.

(** ** The store *)

(** [SELECT TOP 1 ... ORDER BY timestamp DESC]: a row with the greatest
    timestamp (the later-inserted one of two rows with the same
    timestamp). *)
Fixpoint top1_by_timestamp (rows : list Swap.row) : option Swap.row :=
  match rows with
  | [] => None
  | r :: rest =>
      match top1_by_timestamp rest with
      | None => Some r
      | Some m => if Swap.timestamp m <? Swap.timestamp r then Some r else Some m
      end
  end.

(** [UPDATE swap SET uplink = 0 WHERE isp = @oldIsp AND uplink = 1] *)
Definition deactivate (oldIsp : string) (rows : list Swap.row) : list Swap.row :=
  map (fun r =>
         if sql_eq (Swap.isp r) oldIsp && (Swap.uplink r =? 1)
         then Swap.mk (Swap.isp r) (Swap.ip r) (Swap.timestamp r) 0
         else r)
      rows.

(** One awaited [pool.request()...query(q)].  With no pool the property read
    [pool.request] throws before anything is sent.  Otherwise the statement
    is sent; when the server runs it ([ok]) its [effect] is applied and its
    [result] returned, and when it is rejected nothing changes. *)
Definition query {A} (q : Sql) (ok : bool)
    (effect : World -> World) (result : World -> A) : M A :=
  fun w =>
    if pool w then
      let w1 := emit (Query q) w in
      if ok then (Ok (result w1), effect w1) else (Throw SqlError, w1)
    else (Throw TypeError, w).

(** ** ChangeDetector *)

(** What the store answers during one [checkAndLogIspChange]: whether each
    of its three statements runs, and the [SYSDATETIMEOFFSET()] the insert
    gets as its default [timestamp]. *)
Record IspDb := mkIspDb {
  select_ok : bool;
  update_ok : bool;
  insert_ok : bool;
  insert_time : Z
}.

Definition checkAndLogIspChange (db : IspDb) (newIsp newIp : string) : M unit :=
  try_catch
    (p <- gets pool ;;
     when (negb p) (throw PoolNotInitialized) ;;
     lastLog <- query SelectLastSwap (select_ok db) (fun w => w)
                  (fun w => match top1_by_timestamp (swap w) with
                            | Some r => [r]
                            | None => []
                            end) ;;
     if match lastLog with
        | [] => true
        | r :: _ => negb (Swap.isp r =? newIsp)%string
        end
     then
       match lastLog with
       | r :: _ =>
           query (DeactivateIsp (Swap.isp r)) (update_ok db)
             (fun w => set_swap (deactivate (Swap.isp r) (swap w)) w)
             (fun _ => tt)
       | [] => ret tt
       end ;;
       query (InsertSwap newIsp newIp) (insert_ok db)
         (fun w => set_swap (swap w ++ [Swap.mk newIsp newIp (insert_time db) 1]) w)
         (fun _ => tt)
     else ret tt)
    (fun _ => console_error "Error checking/logging ISP change:").

(** A sequence of observed identities, handed to the detector one call
    after the other. *)
Record Observation := mkObservation {
  obs_db : IspDb;
  obs_isp : string;
  obs_ip : string
}.

Fixpoint observeAll (calls : list Observation) : M unit :=
  match calls with
  | [] => ret tt
  | c :: rest =>
      checkAndLogIspChange (obs_db c) (obs_isp c) (obs_ip c) ;;
      observeAll rest
  end.

Definition is_swap_write (e : Event) : bool :=
  match e with
  | Query (DeactivateIsp _) => true
  | Query (InsertSwap _ _) => true
  | _ => false
  end.

Definition active (r : Swap.row) : bool := Swap.uplink r =? 1.

(** ** GatewayProbe *)

(** What the outside world answers during one [logGatewayStatus]:
    [probe] is what [ping.promise.probe(GATEWAY_IP, { timeout: 2 })] settles
    to, a result whose [alive] flag is [false] when the gateway did not
    answer in time, or a rejection; then whether each of the two possible
    inserts runs, and the default [timestamp] each would get. *)
Record GatewayEnv := mkGatewayEnv {
  probe : Result bool;
  insert_status_ok : bool;
  insert_status_time : Z;
  insert_down_ok : bool;
  insert_down_time : Z
}.

Definition ping_probe (r : Result bool) : M bool :=
  modify (emit Ping) ;; settle r.

Definition insert_gateway_log (status : string) (ok : bool) (time : Z) : M unit :=
  query (InsertGatewayLog status) ok
    (fun w => set_gateway_log (gateway_log w ++ [GatewayLog.mk status time]) w)
    (fun _ => tt).

Definition logGatewayStatus (g : GatewayEnv) : M unit :=
  p <- gets pool ;;
  if negb p then ret tt
  else
    try_catch
      (alive <- ping_probe (probe g) ;;
       let status := if alive then "up" else "down" in
       insert_gateway_log status (insert_status_ok g) (insert_status_time g))
      (fun _ =>
         try_catch
           (insert_gateway_log "down" (insert_down_ok g) (insert_down_time g))
           (fun _ => console_error "Error logging gateway status to DB:")).

(** [app.get('/api/gateway-status')]: the HTTP status code and the [status]
    field of the JSON body. *)
Definition gatewayStatusRoute (r : Result bool) : M (Z * string) :=
  try_catch
    (alive <- ping_probe r ;;
     ret (200, if alive then "up" else "down"))
    (fun _ => console_error "Ping failed:" ;; ret (500, "down")).

(** ** RateLimiter and ProviderClients *)

Record RateLimits := mkRateLimits {
  ipApi : Z;
  freeIpApi : Z;
  ipWhoIs : Z;
  ipify : Z
}.

Definition API_RATE_LIMITS : RateLimits :=
  {| ipApi := 1000; freeIpApi := 1000; ipWhoIs := 1000; ipify := 1000 |}.

(** What an awaited [axios.get] settles to, and what [Date.now()] reads
    once it has. *)
Record Reply (A : Type) := mkReply {
  answer : Result A;
  settledAt : Z
}.
Arguments mkReply {A} answer settledAt.
Arguments answer {A} r.
Arguments settledAt {A} r.

Definition axios_get {A} (u : Url) (sentAt : Z) (r : Reply A) : M A :=
  modify (emit (Get u sentAt)) ;; settle (answer r).

(** The gate at the head of each provider client:
    [if (timeSinceLastCall < LIMIT) await setTimeout(LIMIT - timeSinceLastCall)].
    It returns the time at which the caller goes on: [now], or [now] plus
    the delay it asked for. *)
Definition rateLimit (limit lastCall now : Z) : M Z :=
  let timeSinceLastCall := now - lastCall in
  if timeSinceLastCall <? limit
  then setTimeout (limit - timeSinceLastCall) ;;
       ret (now + (limit - timeSinceLastCall))
  else ret now.

Definition getIpApiInfo (now : Z) (r : Reply IpApi.data) : M IdentityRecord :=
  lastCall <- gets lastIpApiCall ;;
  t <- rateLimit (ipApi API_RATE_LIMITS) lastCall now ;;
  try_catch
    (d <- axios_get UrlIpApi t r ;;
     if (IpApi.status d =? "success")%string then
       modify (set_lastIpApiCall (settledAt r)) ;;
       ret {| ip := IpApi.query d;
              country := IpApi.country d;
              region := IpApi.regionName d;
              city := IpApi.city d;
              isp := IpApi.isp d;
              latitude := IpApi.lat d;
              longitude := IpApi.lon d;
              organization := IpApi.org d;
              timezone := IpApi.timezone d;
              source := "ip-api.com" |}
     else throw IpApiRequestFailed)
    (fun error =>
       console_error "Error getting IP info from ip-api.com:" ;; throw error).

(** [x || 'N/A'] on a text value *)
Definition or_NA (x : string) : string :=
  if (x =? "")%string then "N/A" else x.

Definition getFreeIpApiInfo (now : Z) (r : Reply FreeIpApi.data) : M IdentityRecord :=
  lastCall <- gets lastFreeIpApiCall ;;
  t <- rateLimit (freeIpApi API_RATE_LIMITS) lastCall now ;;
  try_catch
    (d <- axios_get UrlFreeIpApi t r ;;
     modify (set_lastFreeIpApiCall (settledAt r)) ;;
     match FreeIpApi.timeZones d with
     | None => throw TypeError
     | Some zones =>
         ret {| ip := FreeIpApi.ipAddress d;
                country := FreeIpApi.countryName d;
                region := FreeIpApi.regionName d;
                city := FreeIpApi.cityName d;
                isp := or_NA (FreeIpApi.asnOrganization d);
                latitude := FreeIpApi.latitude d;
                longitude := FreeIpApi.longitude d;
                organization := FreeIpApi.asnOrganization d;
                timezone := hd "" zones;
                source := "freeipapi.com" |}
     end)
    (fun error =>
       console_error "Error getting IP info from freeipapi.com:" ;; throw error).

Definition getIpWhoIsInfo (now : Z) (r : Reply IpWhoIs.data) : M IdentityRecord :=
  lastCall <- gets lastIpWhoIsCall ;;
  t <- rateLimit (ipWhoIs API_RATE_LIMITS) lastCall now ;;
  try_catch
    (d <- axios_get UrlIpWhoIs t r ;;
     modify (set_lastIpWhoIsCall (settledAt r)) ;;
     match IpWhoIs.connection d, IpWhoIs.timezone_id d with
     | Some c, Some tz =>
         ret {| ip := IpWhoIs.ip d;
                country := IpWhoIs.country d;
                region := IpWhoIs.region d;
                city := IpWhoIs.city d;
                isp := IpWhoIs.conn_isp c;
                latitude := IpWhoIs.latitude d;
                longitude := IpWhoIs.longitude d;
                organization := IpWhoIs.conn_org c;
                timezone := tz;
                source := "ipwho.is" |}
     | _, _ => throw TypeError
     end)
    (fun error =>
       console_error "Error getting IP info from ipwho.is:" ;; throw error).

(** The first request asks api.ipify.org for the address (a string), the
    second asks ipapi.co about it. *)
Definition getIpifyInfo (now : Z) (r1 : Reply string) (r2 : Reply IpapiCo.data)
    : M IdentityRecord :=
  lastCall <- gets lastIpifyCall ;;
  t <- rateLimit (ipify API_RATE_LIMITS) lastCall now ;;
  try_catch
    (_ <- axios_get UrlIpify t r1 ;;
     d <- axios_get UrlIpapiCo (settledAt r1) r2 ;;
     modify (set_lastIpifyCall (settledAt r2)) ;;
     ret {| ip := IpapiCo.ip d;
            country := IpapiCo.country_name d;
            region := IpapiCo.region d;
            city := IpapiCo.city d;
            isp := IpapiCo.org d;
            latitude := IpapiCo.latitude d;
            longitude := IpapiCo.longitude d;
            organization := IpapiCo.org d;
            timezone := IpapiCo.timezone d;
            source := "ipify.org + ipapi.co" |})
    (fun error =>
       console_error "Error getting IP info from ipify.org + ipapi.co:" ;;
       throw error).

(** ** IpResolver *)

(** What the outside world answers during one [getPublicIpInfo]: the
    reading of [Date.now()] at its head, and for each provider client the
    reading at the client's head and the replies to its requests.  The
    answers of a client that is not called are not looked at. *)
Record ResolveEnv := mkResolveEnv {
  resolve_now : Z;
  ipApi_now : Z;
  ipApi_reply : Reply IpApi.data;
  freeIpApi_now : Z;
  freeIpApi_reply : Reply FreeIpApi.data;
  ipWhoIs_now : Z;
  ipWhoIs_reply : Reply IpWhoIs.data;
  ipify_now : Z;
  ipify_reply : Reply string;
  ipapiCo_reply : Reply IpapiCo.data
}.

Definition apiServices (e : ResolveEnv) : list (string * M IdentityRecord) :=
  [ ("ip-api.com", getIpApiInfo (ipApi_now e) (ipApi_reply e));
    ("freeipapi.com", getFreeIpApiInfo (freeIpApi_now e) (freeIpApi_reply e));
    ("ipwho.is", getIpWhoIsInfo (ipWhoIs_now e) (ipWhoIs_reply e));
    ("ipify.org", getIpifyInfo (ipify_now e) (ipify_reply e) (ipapiCo_reply e)) ].

(** The [for (const service of apiServices)] loop: [Some data] is the
    [return data] of the first service that does not throw, [None] is
    falling out of the loop. *)
Fixpoint tryServices (now : Z) (services : list (string * M IdentityRecord))
    : M (option IdentityRecord) :=
  match services with
  | [] => ret None
  | (name, fn) :: rest =>
      r <- try_catch
             (data <- fn ;;
              modify (set_cachedIpInfo (Some (mkCache data now))) ;;
              ret (Some data))
             (fun _ => console_error (name ++ " failed:")%string ;; ret None) ;;
      match r with
      | Some data => ret (Some data)
      | None => tryServices now rest
      end
  end.

Definition mockIpInfo : IdentityRecord :=
  {| ip := "000.000.000.000";
     country := "Unknown";
     region := "Unknown";
     city := "Unknown";
     isp := "Unknown";
     latitude := 0%Q;
     longitude := 0%Q;
     organization := "Unknown";
     timezone := "Unknown";
     source := "mock" |}.

(** [cachedIpInfo && (now - cachedIpInfo.timestamp) < CACHE_DURATION] *)
Definition cacheFresh (c : option CacheEntry) (now : Z) : bool :=
  match c with
  | Some entry => now - cache_timestamp entry <? CACHE_DURATION
  | None => false
  end.

Definition getPublicIpInfo (e : ResolveEnv) : M IdentityRecord :=
  let now := resolve_now e in
  c <- gets cachedIpInfo ;;
  match (if cacheFresh c now then c else None) with
  | Some entry => ret (data entry)
  | None =>
      r <- tryServices now (apiServices e) ;;
      match r with
      | Some d => ret d
      | None =>
          c' <- gets cachedIpInfo ;;
          match c' with
          | Some entry => ret (data entry)
          | None =>
              console_error "All IP API services failed and no cache available" ;;
              ret mockIpInfo
          end
      end
  end.

(** ** MetricsAggregator *)

(** The [for] loop of [getMetricsWithRetry], entered at iteration [i] with
    [left] iterations to go.  [fn i] is the [i]-th call of the wrapped
    function (the outside world may answer each call differently).
    [Some v] is [return await fn()]; [None] is falling out of the loop,
    where the function returns [undefined].  [S i =? retries] is
    [i === retries - 1]. *)
Fixpoint retryLoop {A} (fn : nat -> M A) (retries i left : nat) : M (option A) :=
  match left with
  | O => ret None
  | S left' =>
      try_catch
        (v <- fn i ;; ret (Some v))
        (fun error =>
           if (S i =? retries)%nat then throw error
           else setTimeout (1000 * (Z.of_nat i + 1)) ;;
                retryLoop fn retries (S i) left')
  end.

Definition getMetricsWithRetry {A} (fn : nat -> M A) (retries : nat) : M (option A) :=
  retryLoop fn retries 0 retries.

(** Two of the promises handed to [Promise.all]: both are started, so both
    run whatever the other does; the pair is fulfilled when both are and
    rejected otherwise.  Of the six computations joined below only the
    identity lookup touches the module's variables, so running them one
    after the other gives the state their interleaving gives. *)
Definition both {A B} (ma : M A) (mb : M B) : M (A * B) :=
  fun w =>
    let (ra, w1) := ma w in
    let (rb, w2) := mb w1 in
    (match ra, rb with
     | Ok a, Ok b => Ok (a, b)
     | Throw e, _ => Throw e
     | Ok _, Throw e => Throw e
     end, w2).

(** A property read on a value that may be [undefined]. *)
Definition deref {A} (o : option A) : M A :=
  match o with
  | Some a => ret a
  | None => throw TypeError
  end.

(** What the outside world answers during one [getNetworkMetrics]: each
    call of each system probe, each call of the identity lookup, the
    reading of [Date.now()] after the join, the store's answers to the
    change detector, and the store's answer to the time query. *)
Record SampleEnv := mkSampleEnv {
  networkStats_call : nat -> Result (list Si.NetworkStatsData);
  inetLatency_call : nat -> Result (option Q);
  publicIp_call : nat -> ResolveEnv;
  currentLoad_call : nat -> Result Si.CurrentLoadData;
  mem_call : nat -> Result Si.MemData;
  time_call : nat -> Result Si.TimeData;
  check_now : Z;
  check_db : IspDb;
  now_ok : bool;
  now_text : string
}.

(** A text value is truthy when it is not empty. *)
Definition truthy (s : string) : bool := negb (s =? "")%string.

(** [publicIpInfo && publicIpInfo.isp && publicIpInfo.ip &&
     (now - lastIspCheck >= ISP_CHECK_INTERVAL)] *)
Definition ispCheckDue (info : option IdentityRecord) (now lastCheck : Z) : bool :=
  match info with
  | Some i => truthy (isp i) && truthy (ip i) && (ISP_CHECK_INTERVAL <=? now - lastCheck)
  | None => false
  end.

(** The [Promise.all([...])] of [getNetworkMetrics]: the six wrapped
    fetches, in the order of the array. *)
Definition subFetches (e : SampleEnv) :=
  both (getMetricsWithRetry (fun i => settle (networkStats_call e i)) 3)
 (both (getMetricsWithRetry (fun i => settle (inetLatency_call e i)) 3)
 (both (getMetricsWithRetry (fun i => getPublicIpInfo (publicIp_call e i)) 3)
 (both (getMetricsWithRetry (fun i => settle (currentLoad_call e i)) 3)
 (both (getMetricsWithRetry (fun i => settle (mem_call e i)) 3)
       (getMetricsWithRetry (fun i => settle (time_call e i)) 3))))).

(** The object literal [getNetworkMetrics] returns, [first] being
    [networkStats[0]].  [latency] is [undefined] (the wrapper ran no
    iteration), [null] or a number; the first two and zero are falsy. *)
Definition buildSnapshot (timestamp : string) (publicIpInfo : option IdentityRecord)
    (cpuLoad : Si.CurrentLoadData) (memory : Si.MemData) (uptime : Si.TimeData)
    (first : Si.NetworkStatsData) (latency : option (option Q)) : Snapshot :=
  {| timestamp := timestamp;
     publicIpInfo := publicIpInfo;
     systemMetrics :=
       {| cpuLoad := toFixed2 (Si.currentLoad cpuLoad);
          memoryUsed := toFixed2 (Si.used memory / Si.total memory * 100)%Q;
          uptime := Qfloor (Si.uptime uptime / 3600)%Q |};
     networkMetrics :=
       {| downloadSpeed := toFixed2 (Si.rx_sec first / 1024 / 1024)%Q;
          uploadSpeed := toFixed2 (Si.tx_sec first / 1024 / 1024)%Q;
          totalDownload := toFixed2 (Si.rx_bytes first / 1024 / 1024 / 1024)%Q;
          totalUpload := toFixed2 (Si.tx_bytes first / 1024 / 1024 / 1024)%Q;
          latency := match latency with
                     | Some (Some l) => if Qeq_bool l 0 then "N/A" else toFixed2 l
                     | _ => "N/A"
                     end |} |}.

Definition getNetworkMetrics (e : SampleEnv) : M (option Snapshot) :=
  try_catch
    (joined <- subFetches e ;;
     let '(networkStats, (latency, (publicIpInfo, (cpuLoad, (memory, uptime))))) := joined in
     let now := check_now e in
     lastCheck <- gets lastIspCheck ;;
     match publicIpInfo with
     | Some info =>
         if ispCheckDue publicIpInfo now lastCheck then
           checkAndLogIspChange (check_db e) (isp info) (ip info) ;;
           modify (set_lastIspCheck now)
         else ret tt
     | None => ret tt
     end ;;
     timestamp <- query SelectNow (now_ok e) (fun w => w) (fun _ => now_text e) ;;
     cpu <- deref cpuLoad ;;
     mem <- deref memory ;;
     up <- deref uptime ;;
     stats <- deref networkStats ;;
     first <- deref (hd_error stats) ;;
     ret (Some (buildSnapshot timestamp publicIpInfo cpu mem up first latency)))
    (fun _ => console_error "Error getting network metrics:" ;; ret None).

(** ** Scheduler and Broadcaster *)

(** The head of [startContinuousMonitoring]: the initial check. *)
Definition startContinuousMonitoring (e : SampleEnv) : M unit :=
  m <- getNetworkMetrics e ;;
  modify (set_currentMetrics m).

(** The callback [startContinuousMonitoring] hands to [setInterval]. *)
Definition monitoringTick (e : SampleEnv) : M unit :=
  try_catch
    (m <- getNetworkMetrics e ;;
     modify (set_currentMetrics m))
    (fun _ => console_error "Error in continuous monitoring:").

Definition ws_send (client : nat) (s : Snapshot) : M unit :=
  modify (emit (WsSend client s)).

(** The head of the ['connection'] handler. *)
Definition onConnection (client : nat) : M unit :=
  m <- gets currentMetrics ;;
  match m with
  | Some s => ws_send client s
  | None => ret tt
  end.

(** The callback the ['connection'] handler hands to [setInterval];
    [isOpen] is [ws.readyState === ws.OPEN]. *)
Definition pushTick (client : nat) (isOpen : bool) : M unit :=
  m <- gets currentMetrics ;;
  match m with
  | Some s => if isOpen then ws_send client s else ret tt
  | None => ret tt
  end.

(** ** Query routes *)

(** One awaited [pool.request().query(...)] of a route: a statement that
    only reads.  The history keeps no record of the routes' reads. *)
Definition select {A} (ok : bool) (result : World -> A) : M A :=
  fun w =>
    if pool w then
      if ok then (Ok (result w), w) else (Throw SqlError, w)
    else (Throw TypeError, w).

(** [ORDER BY timestamp DESC], by insertion; of two rows with the same
    timestamp the later-inserted one comes first, as in
    [top1_by_timestamp]. *)
Fixpoint insert_desc (r : Swap.row) (sorted : list Swap.row) : list Swap.row :=
  match sorted with
  | [] => [r]
  | x :: rest =>
      if Swap.timestamp x <? Swap.timestamp r then r :: x :: rest
      else x :: insert_desc r rest
  end.

Definition order_by_timestamp_desc (rows : list Swap.row) : list Swap.row :=
  fold_right insert_desc [] rows.

Section Formatting.

(** The text [FORMAT(timestamp AT TIME ZONE ..., 'yyyy-MM-dd HH:mm:ss')]
    makes of a timestamp. *)
Variable formatTimestamp : Z -> string.

Definition swapLogEntry (r : Swap.row) : SwapLog.entry :=
  SwapLog.mk (Swap.isp r) (Swap.ip r) (formatTimestamp (Swap.timestamp r))
    (Swap.uplink r).

(** [app.get('/api/swap-logs')] *)
Definition swapLogsRoute (ok : bool) : M (Response (list SwapLog.entry)) :=
  try_catch
    (p <- gets pool ;;
     when (negb p) (throw PoolNotInitialized) ;;
     recordset <- select ok
                    (fun w => map swapLogEntry (order_by_timestamp_desc (swap w))) ;;
     ret (Json recordset))
    (fun _ =>
       console_error "Error fetching swap logs:" ;;
       ret (Status500 "Failed to fetch swap logs")).

(** [ROW_NUMBER() OVER (PARTITION BY isp ORDER BY timestamp DESC) = 1]:
    [r], which stands in the table after the rows [before] and before the
    rows [after], is the first of its partition when no row with its ISP
    has a greater timestamp (or the same timestamp and a later place). *)
Definition first_of_partition (before after : list Swap.row) (r : Swap.row) : bool :=
  forallb (fun r' => negb (sql_eq (Swap.isp r') (Swap.isp r))
                     || (Swap.timestamp r' <=? Swap.timestamp r)) before
  && forallb (fun r' => negb (sql_eq (Swap.isp r') (Swap.isp r))
                        || (Swap.timestamp r' <? Swap.timestamp r)) after.

(** The rows of [LatestSwaps] with [rn = 1], in table order. *)
Fixpoint latestSwaps (before rows : list Swap.row) : list Swap.row :=
  match rows with
  | [] => []
  | r :: after =>
      if first_of_partition before after r
      then r :: latestSwaps (before ++ [r]) after
      else latestSwaps (before ++ [r]) after
  end.

Definition activeIspEntry (r : Swap.row) : ActiveISP.entry :=
  ActiveISP.mk (Swap.isp r) (Swap.ip r) (formatTimestamp (Swap.timestamp r))
    (Swap.uplink r).

(** [app.get('/api/active-isps')] *)
Definition activeIspsRoute (ok : bool) : M (Response (list ActiveISP.entry)) :=
  try_catch
    (p <- gets pool ;;
     when (negb p) (throw PoolNotInitialized) ;;
     recordset <- select ok
                    (fun w => map activeIspEntry
                                (order_by_timestamp_desc (latestSwaps [] (swap w)))) ;;
     ret (Json recordset))
    (fun _ =>
       console_error "Error fetching active ISPs:" ;;
       ret (Status500 "Failed to fetch active ISPs")).

End Formatting.

(** Seven days, in the unit of the timestamps (milliseconds). *)
Definition SEVEN_DAYS : Z := 7 * 24 * 60 * 60 * 1000.

(** [timestamp >= DATEADD(day, -7, now)] *)
Definition within7d (now timestamp : Z) : bool := now - SEVEN_DAYS <=? timestamp.

(** [SELECT COUNT( * ) FROM dbo.swap WHERE timestamp >= DATEADD(day, -7, now)] *)
Definition downtimeCount (now : Z) (rows : list Swap.row) : Z :=
  Z.of_nat (List.length (filter (fun r => within7d now (Swap.timestamp r)) rows)).

(** [app.get('/api/isp-downtime-7d')]; [now] is the store's clock when the
    query runs.  [count || 0] is the count. *)
Definition ispDowntime7dRoute (ok : bool) (now : Z) : M (Response Z) :=
  try_catch
    (p <- gets pool ;;
     when (negb p) (throw PoolNotInitialized) ;;
     count <- select ok (fun w => downtimeCount now (swap w)) ;;
     ret (Json (if count =? 0 then 0 else count)))
    (fun _ =>
       console_error "Error fetching 7-day ISP downtime:" ;;
       ret (Status500 "Failed to fetch 7-day ISP downtime")).

(** The two counts of [/api/internet-uptime-7d]; [status = 'up'] is the
    collation's equality. *)
Definition upCount7d (now : Z) (rows : list GatewayLog.row) : Z :=
  Z.of_nat (List.length
              (filter (fun r => sql_eq (GatewayLog.status r) "up"
                                && within7d now (GatewayLog.timestamp r)) rows)).

Definition totalCount7d (now : Z) (rows : list GatewayLog.row) : Z :=
  Z.of_nat (List.length
              (filter (fun r => within7d now (GatewayLog.timestamp r)) rows)).

(** [app.get('/api/internet-uptime-7d')]: both outcomes are JSON bodies,
    the second sent with status 500. *)
Definition internetUptime7dRoute (ok : bool) (now : Z) : M InternetUptime7d :=
  try_catch
    (p <- gets pool ;;
     when (negb p) (throw PoolNotInitialized) ;;
     select ok (fun w => UptimeCounts (upCount7d now (gateway_log w))
                                      (totalCount7d now (gateway_log w))))
    (fun _ =>
       console_error "Error fetching 7-day internet uptime:" ;;
       ret (UptimeError "Failed to fetch 7-day internet uptime")).

(** ** Start-up *)

(** What the outside world answers during one [startServer]: whether each
    connection and each statement of the initialisation succeeds, and the
    answers to the initial sample. *)
Record StartEnv := mkStartEnv {
  connect_ok : bool;
  version_ok : bool;
  createDatabase_ok : bool;
  close_ok : bool;
  reconnect_ok : bool;
  createSwap_ok : bool;
  createGatewayLog_ok : bool;
  createIndexes_ok : bool;
  initial_check : SampleEnv
}.

(** [pool = await new sql.ConnectionPool(config).connect()] *)
Definition connect (ok : bool) : M unit :=
  if ok then modify (set_pool true) else throw SqlError.

Definition initializePool (ok : bool) : M unit :=
  try_catch
    (connect ok)
    (fun _ => console_error "Error initializing database pool:").

(** A statement of the initialisation.  The tables are the lists [swap]
    and [gateway_log] from the start; a table that does not exist yet shows
    as statements that are rejected. *)
Definition statement (ok : bool) : M unit := select ok (fun _ => tt).

Definition initializeDatabase (e : StartEnv) : M unit :=
  try_catch
    (p <- gets pool ;;
     when (negb p) (throw PoolNotInitialized) ;;
     statement (version_ok e) ;;
     statement (createDatabase_ok e) ;;
     settle (if close_ok e then Ok tt else Throw SqlError) ;;
     connect (reconnect_ok e) ;;
     statement (createSwap_ok e) ;;
     statement (createGatewayLog_ok e) ;;
     statement (createIndexes_ok e))
    (fun _ => console_error "Error initializing database:").

(** What [startServer] leaves scheduled when it returns:
    [setInterval(logGatewayStatus, 60000)], or in its catch
    [setTimeout(startServer, 30000)]. *)
Inductive Scheduled :=
| LogGatewayEvery (ms : Z)
| RestartAfter (ms : Z).

Definition startServer (e : StartEnv) : M Scheduled :=
  try_catch
    (initializePool (connect_ok e) ;;
     initializeDatabase e ;;
     startContinuousMonitoring (initial_check e) ;;
     ret (LogGatewayEvery 60000))
    (fun _ =>
       console_error "Server initialization failed:" ;;
       ret (RestartAfter 30000)).

(** ** Dashboard *)

(** [s.split(sep)] for a separator of one character. *)
Fixpoint split (sep : ascii) (s : string) : list string :=
  match s with
  | EmptyString => [EmptyString]
  | String c rest =>
      if Ascii.eqb c sep then EmptyString :: split sep rest
      else match split sep rest with
           | first :: others => String c first :: others
           | [] => [String c EmptyString]
           end
  end.

(** An array element that may be missing, inside a template literal. *)
Definition interpolate (x : option string) : string :=
  match x with
  | Some s => s
  | None => "undefined"
  end.

(** [formatThaiTime]: the three destructurings take the first elements of
    each array; [timePart.split] throws when [timePart] is [undefined]. *)
Definition formatThaiTime (dateString : string) : Result string :=
  let parts := split " "%char dateString in
  match nth_error parts 0 with
  | None => Throw TypeError
  | Some datePart =>
      let date := split "-"%char datePart in
      match nth_error parts 1 with
      | None => Throw TypeError
      | Some timePart =>
          let time := split ":"%char timePart in
          Ok (interpolate (nth_error date 2) ++ "/" ++
              interpolate (nth_error date 1) ++ "/" ++
              interpolate (nth_error date 0) ++ " " ++
              interpolate (nth_error time 0) ++ ":" ++
              interpolate (nth_error time 1) ++ ":" ++
              interpolate (nth_error time 2))%string
      end
  end.

(** [updateHistory]; [slice(k)] with [k > 0] drops the first [k]. *)
Definition updateHistory (prevHistory : list History.point) (newValue : Q)
    (newTime : string) (maxLength : Z) : list History.point :=
  let newHistory := prevHistory ++ [History.mk newTime newValue] in
  if Z.of_nat (List.length newHistory) >? maxLength
  then skipn (Z.to_nat (Z.of_nat (List.length newHistory) - maxLength)) newHistory
  else newHistory.

(** The percentage shown as "Internet Uptime (7d)": [null] when nothing was
    fetched, when the body is the error object, or when [totalCount] is not
    positive. *)
Definition uptimeRatio (upCount totalCount : Z) : Q :=
  (inject_Z upCount / inject_Z totalCount * 100)%Q.

Definition uptimePercentage (internetUptime7d : option InternetUptime7d) : option string :=
  match internetUptime7d with
  | Some (UptimeCounts upCount totalCount) =>
      if totalCount >? 0 then Some (toFixed2 (uptimeRatio upCount totalCount))
      else None
  | _ => None
  end.

Section Parsing.

(** [parseFloat]; [None] is [NaN]. *)
Variable parseFloat : string -> option Q.

(** The readings of [new Date().toLocaleTimeString(...)] during one
    message, one for each chart. *)
Record MessageEnv := mkMessageEnv {
  latency_time : string;
  cpu_time : string;
  memory_time : string
}.

(** [if (!isNaN(v)) setHistory(prev => updateHistory(prev, v, newTime))],
    with the default [maxLength = 30]. *)
Definition record (history : list History.point) (text newTime : string)
    : list History.point :=
  match parseFloat text with
  | Some v => updateHistory history v newTime 30
  | None => history
  end.

(** [data.publicIpInfo?.ip && data.publicIpInfo.ip !== lastIpRef.current] *)
Definition ipChanged (data : Snapshot) (last : option string) : bool :=
  match publicIpInfo data with
  | Some info =>
      truthy (ip info) &&
      negb (match last with
            | Some l => (ip info =? l)%string
            | None => false
            end)
  | None => false
  end.

(** [ws.onmessage], on the snapshot [JSON.parse(event.data)] gives.  The
    handler was created at the first render, where [isConnected] is
    [false], so it always sets it. *)
Definition onMessage (env : MessageEnv) (data : Snapshot) (d : Dashboard) : Dashboard :=
  {| metrics := Some data;
     latencyHistory :=
       record (latencyHistory d) (latency (networkMetrics data)) (latency_time env);
     cpuHistory :=
       record (cpuHistory d) (cpuLoad (systemMetrics data)) (cpu_time env);
     memoryHistory :=
       record (memoryHistory d) (memoryUsed (systemMetrics data)) (memory_time env);
     isConnected := true;
     lastIpRef :=
       if ipChanged data (lastIpRef d) then option_map ip (publicIpInfo data)
       else lastIpRef d;
     fetches :=
       if ipChanged data (lastIpRef d)
       then fetches d ++ [FetchSwapLogs; FetchActiveIsps]
       else fetches d |}.

(** [ws.onclose] *)
Definition onClose (d : Dashboard) : Dashboard :=
  {| metrics := None;
     latencyHistory := latencyHistory d;
     cpuHistory := cpuHistory d;
     memoryHistory := memoryHistory d;
     isConnected := false;
     lastIpRef := lastIpRef d;
     fetches := fetches d |}.

(** The messages of a connection, handled one after the other. *)
Fixpoint onMessages (msgs : list (MessageEnv * Snapshot)) (d : Dashboard) : Dashboard :=
  match msgs with
  | [] => d
  | (env, data) :: rest => onMessages rest (onMessage env data d)
  end.

End Parsing.

(** * Vocabulary of the properties *)

(** Timestamps grow strictly along the table. *)
Definition ts_sorted (rows : list Swap.row) : Prop :=
  StronglySorted Z.lt (map Swap.timestamp rows).

(** No row but the last one inserted is active. *)
Definition only_last_active (rows : list Swap.row) : Prop :=
  Forall (fun r => Swap.uplink r <> 1) (removelast rows).

(** The store gives the insert of each call a later time than it gave any
    call before. *)
Definition clock_increasing (calls : list Observation) : Prop :=
  StronglySorted Z.lt (map (fun c => insert_time (obs_db c)) calls).

(** The record of the first service of the list that returns, none when
    all throw.  What a provider client returns does not depend on the world
    it runs in ([sound_service] below), so [w] is any world. *)
Fixpoint firstSuccess (w : World) (services : list (string * M IdentityRecord))
    : option IdentityRecord :=
  match services with
  | [] => None
  | (_, fn) :: rest =>
      match fst (fn w) with
      | Ok d => Some d
      | Throw _ => firstSuccess w rest
      end
  end.

(** The service throws in world [w] (a sound service throws in every world
    or in none). *)
Definition throws (w : World) (s : string * M IdentityRecord) : Prop :=
  exists err, fst (snd s w) = Throw err.

(** The module's variables other than the resolver's and the history. *)
Definition frame (w w' : World) : Prop :=
  pool w' = pool w /\ swap w' = swap w /\ gateway_log w' = gateway_log w /\
  lastIspCheck w' = lastIspCheck w /\ currentMetrics w' = currentMetrics w.

(** A service whose outcome [r] is the same in every world, and which
    leaves the cache and the variables outside the resolver alone. *)
Definition sound_service (fn : M IdentityRecord) : Prop :=
  exists r, forall w,
    fst (fn w) = r /\
    cachedIpInfo (snd (fn w)) = cachedIpInfo w /\
    frame w (snd (fn w)).

(** The events a computation adds to the history. *)
Definition events_of {A} (m : M A) (w : World) : list Event :=
  skipn (List.length (trace w)) (trace (snd (m w))).

(** The four provider keys of [API_RATE_LIMITS], and for each the client,
    its limit, the variable that holds its last call, the address its gate
    guards, the reading of [Date.now()] at its head and the reading after
    its last request. *)
Inductive Provider := KeyIpApi | KeyFreeIpApi | KeyIpWhoIs | KeyIpify.

Definition callProvider (p : Provider) (e : ResolveEnv) : M IdentityRecord :=
  match p with
  | KeyIpApi => getIpApiInfo (ipApi_now e) (ipApi_reply e)
  | KeyFreeIpApi => getFreeIpApiInfo (freeIpApi_now e) (freeIpApi_reply e)
  | KeyIpWhoIs => getIpWhoIsInfo (ipWhoIs_now e) (ipWhoIs_reply e)
  | KeyIpify => getIpifyInfo (ipify_now e) (ipify_reply e) (ipapiCo_reply e)
  end.

Definition limitOf (p : Provider) : Z :=
  match p with
  | KeyIpApi => ipApi API_RATE_LIMITS
  | KeyFreeIpApi => freeIpApi API_RATE_LIMITS
  | KeyIpWhoIs => ipWhoIs API_RATE_LIMITS
  | KeyIpify => ipify API_RATE_LIMITS
  end.

Definition lastCallOf (p : Provider) (w : World) : Z :=
  match p with
  | KeyIpApi => lastIpApiCall w
  | KeyFreeIpApi => lastFreeIpApiCall w
  | KeyIpWhoIs => lastIpWhoIsCall w
  | KeyIpify => lastIpifyCall w
  end.

Definition urlOf (p : Provider) : Url :=
  match p with
  | KeyIpApi => UrlIpApi
  | KeyFreeIpApi => UrlFreeIpApi
  | KeyIpWhoIs => UrlIpWhoIs
  | KeyIpify => UrlIpify
  end.

Definition nowOf (p : Provider) (e : ResolveEnv) : Z :=
  match p with
  | KeyIpApi => ipApi_now e
  | KeyFreeIpApi => freeIpApi_now e
  | KeyIpWhoIs => ipWhoIs_now e
  | KeyIpify => ipify_now e
  end.

Definition settledOf (p : Provider) (e : ResolveEnv) : Z :=
  match p with
  | KeyIpApi => settledAt (ipApi_reply e)
  | KeyFreeIpApi => settledAt (freeIpApi_reply e)
  | KeyIpWhoIs => settledAt (ipWhoIs_reply e)
  | KeyIpify => settledAt (ipapiCo_reply e)
  end.

(** The request got no reply: the awaited [axios.get] was rejected. *)
Definition unanswered {A} (r : Reply A) : Prop :=
  exists err, answer r = Throw err.

Definition url_eqb (u u' : Url) : bool :=
  match u, u' with
  | UrlIpApi, UrlIpApi | UrlFreeIpApi, UrlFreeIpApi | UrlIpWhoIs, UrlIpWhoIs
  | UrlIpify, UrlIpify | UrlIpapiCo, UrlIpapiCo => true
  | _, _ => false
  end.

(** The times at which requests to [u] were issued, oldest first. *)
Fixpoint requestTimes (u : Url) (evs : list Event) : list Z :=
  match evs with
  | [] => []
  | Get u' t :: rest =>
      if url_eqb u u' then t :: requestTimes u rest else requestTimes u rest
  | _ :: rest => requestTimes u rest
  end.

(** The delays the caller was made to wait, oldest first. *)
Fixpoint timeouts (evs : list Event) : list Z :=
  match evs with
  | [] => []
  | Timeout ms :: rest => ms :: timeouts rest
  | _ :: rest => timeouts rest
  end.

(** What the retry wrapper makes of a fetch the outside world answers
    with [call 0], [call 1], [call 2]: the first answer that is not a
    rejection, or the third rejection. *)
Definition retried {A} (call : nat -> Result A) : Result A :=
  match call 0%nat with
  | Ok v => Ok v
  | Throw _ =>
      match call 1%nat with
      | Ok v => Ok v
      | Throw _ => call 2%nat
      end
  end.

(** Nothing but the history differs. *)
Definition only_history (w w' : World) : Prop :=
  frame w w' /\ cachedIpInfo w' = cachedIpInfo w /\
  lastIpApiCall w' = lastIpApiCall w /\ lastFreeIpApiCall w' = lastFreeIpApiCall w /\
  lastIpWhoIsCall w' = lastIpWhoIsCall w /\ lastIpifyCall w' = lastIpifyCall w.

(** The number of HTTP requests among the events. *)
Fixpoint requests (evs : list Event) : nat :=
  match evs with
  | [] => 0%nat
  | Get _ _ :: rest => S (requests rest)
  | _ :: rest => requests rest
  end.

(** The computation only adds to the history, and at most [n] requests. *)
Definition sends_at_most {A} (n : nat) (m : M A) : Prop :=
  forall w, exists evs,
    trace (snd (m w)) = trace w ++ evs /\ (requests evs <= n)%nat.

(** The delays of the first [k] retries: 1000, 2000, ..., 1000 k. *)
Definition backoff (k : nat) : list Z :=
  map (fun i => 1000 * (Z.of_nat i + 1)) (seq 0 k).

(** The character occurs in the text. *)
Fixpoint occurs (c : ascii) (s : string) : bool :=
  match s with
  | EmptyString => false
  | String c' rest => Ascii.eqb c' c || occurs c rest
  end.

(** The rows a run of [logGatewayStatus] adds when the first insert does
    not run: the one of the fallback insert, when that runs. *)
Definition fallback_rows (g : GatewayEnv) : list GatewayLog.row :=
  if insert_down_ok g then [GatewayLog.mk "down" (insert_down_time g)] else [].

(** * Concrete inputs *)

(** The module right after start-up: a connected pool, empty tables,
    no provider called yet, nothing cached, nothing published. *)
Definition world0 : World :=
  mkWorld true [] [] 0 0 0 0 None 0 None [].

Definition db_ok (t : Z) : IspDb := mkIspDb true true true t.

Definition acme_globex_acme : list Observation :=
  [ mkObservation (db_ok 1) "Acme" "1.2.3.4";
    mkObservation (db_ok 2) "Globex" "5.6.7.8";
    mkObservation (db_ok 3) "Acme" "1.2.3.4" ].

(** Replies of the providers. *)
Definition acme_ipApi : IpApi.data :=
  IpApi.mk "success" "1.2.3.4" "Thailand" "Bangkok" "Bangkok" "Acme"
    (13 # 1) (100 # 1) "Acme Co" "Asia/Bangkok".

Definition globex_freeIpApi : FreeIpApi.data :=
  FreeIpApi.mk "5.6.7.8" "Thailand" "Bangkok" "Bangkok" "Globex"
    (13 # 1) (100 # 1) (Some ["Asia/Bangkok"]).

Definition some_ipWhoIs : IpWhoIs.data :=
  IpWhoIs.mk "9.9.9.9" "Thailand" "Bangkok" "Bangkok"
    (Some (IpWhoIs.mkConnection "Initech" "Initech Ltd")) (13 # 1) (100 # 1)
    (Some "Asia/Bangkok").

Definition some_ipapiCo : IpapiCo.data :=
  IpapiCo.mk "9.9.9.9" "Thailand" "Bangkok" "Bangkok" "Initech"
    (13 # 1) (100 # 1) "Asia/Bangkok".

Definition no_reply {A} (t : Z) : Reply A := mkReply (Throw AxiosError) t.

(** Every provider is down; the call starts at [t]. *)
Definition env_all_down (t : Z) : ResolveEnv :=
  {| resolve_now := t;
     ipApi_now := t; ipApi_reply := no_reply (t + 10);
     freeIpApi_now := t + 10; freeIpApi_reply := no_reply (t + 20);
     ipWhoIs_now := t + 20; ipWhoIs_reply := no_reply (t + 30);
     ipify_now := t + 30; ipify_reply := no_reply (t + 40);
     ipapiCo_reply := no_reply (t + 40) |}.

(** ip-api.com answers for Acme. *)
Definition env_ipApi_up (t : Z) : ResolveEnv :=
  {| resolve_now := t;
     ipApi_now := t; ipApi_reply := mkReply (Ok acme_ipApi) (t + 50);
     freeIpApi_now := t + 50; freeIpApi_reply := no_reply (t + 60);
     ipWhoIs_now := t + 60; ipWhoIs_reply := no_reply (t + 70);
     ipify_now := t + 70; ipify_reply := no_reply (t + 80);
     ipapiCo_reply := no_reply (t + 80) |}.

(** ip-api.com is down, freeipapi.com answers for Globex. *)
Definition env_first_down (t : Z) : ResolveEnv :=
  {| resolve_now := t;
     ipApi_now := t; ipApi_reply := no_reply (t + 10);
     freeIpApi_now := t + 10;
     freeIpApi_reply := mkReply (Ok globex_freeIpApi) (t + 60);
     ipWhoIs_now := t + 60; ipWhoIs_reply := mkReply (Ok some_ipWhoIs) (t + 70);
     ipify_now := t + 70; ipify_reply := mkReply (Ok "9.9.9.9") (t + 80);
     ipapiCo_reply := mkReply (Ok some_ipapiCo) (t + 90) |}.

Definition acme_record : IdentityRecord :=
  {| ip := "1.2.3.4"; country := "Thailand"; region := "Bangkok"; city := "Bangkok";
     isp := "Acme"; latitude := 13 # 1; longitude := 100 # 1;
     organization := "Acme Co"; timezone := "Asia/Bangkok"; source := "ip-api.com" |}.

Definition globex_record : IdentityRecord :=
  {| ip := "5.6.7.8"; country := "Thailand"; region := "Bangkok"; city := "Bangkok";
     isp := "Globex"; latitude := 13 # 1; longitude := 100 # 1;
     organization := "Globex"; timezone := "Asia/Bangkok"; source := "freeipapi.com" |}.

(** A reading of [Date.now()]. *)
Definition t0 : Z := 1700000000000.

(** The module after start-up, with Globex cached at time [t]. *)
Definition world_cached (t : Z) : World :=
  set_cachedIpInfo (Some (mkCache globex_record t)) world0.

(** Answers to one [getNetworkMetrics]: every probe answers at its first
    call; the identity lookup is answered by [r]; [now] is the reading of
    the clock after the join; [timeQuery] says whether the store answers
    the time query. *)
Definition probes_up (r : ResolveEnv) (now : Z) (timeQuery : bool) : SampleEnv :=
  {| networkStats_call := fun _ => Ok [Si.mkNetworkStats (2048 # 1) (1024 # 1) (4096 # 1) (4096 # 1)];
     inetLatency_call := fun _ => Ok (Some (12 # 1)%Q);
     publicIp_call := fun _ => r;
     currentLoad_call := fun _ => Ok (Si.mkCurrentLoad (5 # 1));
     mem_call := fun _ => Ok (Si.mkMem (1 # 1) (2 # 1));
     time_call := fun _ => Ok (Si.mkTime (7200 # 1));
     check_now := now;
     check_db := db_ok now;
     now_ok := timeQuery;
     now_text := "2023-11-15 05:13:20" |}.

(** The same with [si.networkStats()] rejected at every call. *)
Definition network_probe_down (r : ResolveEnv) (now : Z) : SampleEnv :=
  {| networkStats_call := fun _ => Throw ProbeError;
     inetLatency_call := fun _ => Ok (Some (12 # 1)%Q);
     publicIp_call := fun _ => r;
     currentLoad_call := fun _ => Ok (Si.mkCurrentLoad (5 # 1));
     mem_call := fun _ => Ok (Si.mkMem (1 # 1) (2 # 1));
     time_call := fun _ => Ok (Si.mkTime (7200 # 1));
     check_now := now;
     check_db := db_ok now;
     now_ok := true;
     now_text := "2023-11-15 05:13:20" |}.

(** A snapshot published earlier. *)
Definition earlier_snapshot : Snapshot :=
  {| timestamp := "2023-11-15 05:13:15";
     publicIpInfo := Some globex_record;
     systemMetrics := {| cpuLoad := "5.00"; memoryUsed := "50.00"; uptime := 2 |};
     networkMetrics := {| downloadSpeed := "0.00"; uploadSpeed := "0.00";
                          totalDownload := "0.00"; totalUpload := "0.00";
                          latency := "12.00" |} |}.

Definition world_published : World :=
  set_currentMetrics (Some earlier_snapshot) world0.

(** A stand-in for [toFixed(2)] in concrete runs. *)
Definition toFixed2_stub (q : Q) : string := "0.00".

(** A stand-in for [FORMAT(timestamp, 'yyyy-MM-dd HH:mm:ss')] in concrete
    runs. *)
Definition formatTimestamp_stub (t : Z) : string := "2023-11-15 05:13:20".

(** The module with no pool: the connection failed. *)
Definition world_no_pool : World :=
  mkWorld false [] [] 0 0 0 0 None 0 None [].

(** The module with one row in the swap table. *)
Definition world_globex : World :=
  mkWorld true [Swap.mk "Globex" "5.6.7.8" 1 1] [] 0 0 0 0 None 0 None [].

(** A gateway that answers, and a store that runs every insert. *)
Definition gateway_up : GatewayEnv := mkGatewayEnv (Ok true) true 60 true 61.

(** A probe rejected twice and fulfilled at the third call. *)
Definition third_time_lucky (i : nat) : Result nat :=
  if (i <? 2)%nat then Throw ProbeError else Ok 7%nat.

(** The dashboard at its first render. *)
Definition dashboard0 : Dashboard := mkDashboard None [] [] [] false None [].

(** A stand-in for [parseFloat] in concrete runs: "N/A" is not a number. *)
Definition parseFloat_stub (text : string) : option Q :=
  if (text =? "N/A")%string then None else Some (12 # 1)%Q.

Definition two_messages : list (MessageEnv * Snapshot) :=
  [ (mkMessageEnv "05:13:15" "05:13:15" "05:13:15", earlier_snapshot);
    (mkMessageEnv "05:13:20" "05:13:20" "05:13:20", earlier_snapshot) ].


(** A start-up during which the store cannot be reached. *)
Definition start_no_store : StartEnv :=
  mkStartEnv false false false false false false false false
    (probes_up (env_ipApi_up t0) (t0 + 100) true).

(** * Properties *)

(** ** ChangeDetector *)

Ltac run_detector :=
  unfold checkAndLogIspChange, try_catch, bind, gets, when, throw, ret, query,
    console_error, modify;
  cbn [pool swap trace emit set_swap fst snd negb].

Lemma checkAndLogIspChange_returns db newIsp newIp w :
  fst (checkAndLogIspChange db newIsp newIp w) = Ok tt.
Proof.
  destruct w as [p rows gl l1 l2 l3 l4 c li cm tr]. run_detector.
  destruct p; cbn; [|reflexivity].
  destruct (select_ok db); cbn; [|reflexivity].
  destruct (top1_by_timestamp rows) as [r|]; cbn.
  - destruct (Swap.isp r =? newIsp)%string; cbn; [reflexivity|].
    destruct (update_ok db); cbn; [|reflexivity].
    destruct (insert_ok db); reflexivity.
  - destruct (insert_ok db); reflexivity.
Qed.

(** The four things one call can do to the table. *)
Lemma checkAndLogIspChange_swap db newIsp newIp w :
  let rows := swap w in
  let rows' := swap (snd (checkAndLogIspChange db newIsp newIp w)) in
  let new := Swap.mk newIsp newIp (insert_time db) 1 in
  rows' = rows \/
  (top1_by_timestamp rows = None /\ rows' = rows ++ [new]) \/
  (exists r, top1_by_timestamp rows = Some r /\
             (rows' = deactivate (Swap.isp r) rows \/
              rows' = deactivate (Swap.isp r) rows ++ [new])).
Proof.
  destruct w as [p rows gl l1 l2 l3 l4 c li cm tr]. run_detector.
  destruct p; cbn; [|now left].
  destruct (select_ok db); cbn; [|now left].
  destruct (top1_by_timestamp rows) as [r|] eqn:Etop; cbn.
  - destruct (Swap.isp r =? newIsp)%string; cbn; [now left|].
    destruct (update_ok db); cbn; [|now left].
    right; right; exists r; split; [reflexivity|].
    destruct (insert_ok db); cbn; [now right|now left].
  - destruct (insert_ok db); cbn; [|now left].
    right; left; split; reflexivity.
Qed.

Lemma checkAndLogIspChange_same_isp db newIsp newIp w r :
  top1_by_timestamp (swap w) = Some r ->
  Swap.isp r = newIsp ->
  let w' := snd (checkAndLogIspChange db newIsp newIp w) in
  swap w' = swap w /\
  exists evs, trace w' = trace w ++ evs /\
              Forall (fun e => is_swap_write e = false) evs.
Proof.
  destruct w as [p rows gl l1 l2 l3 l4 c li cm tr]. cbn [swap trace].
  intros Htop Hisp. run_detector.
  destruct p; cbn.
  - destruct (select_ok db); cbn.
    + rewrite Htop; cbn. rewrite Hisp, String.eqb_refl; cbn.
      split; [reflexivity|]. eexists; split; [reflexivity|].
      repeat constructor.
    + split; [reflexivity|].
      eexists; split; [rewrite <- app_assoc; reflexivity|].
      repeat constructor.
  - split; [reflexivity|]. eexists; split; [reflexivity|].
    repeat constructor.
Qed.

(** *** The table along a run of the detector *)

Lemma sorted_snoc l t :
  StronglySorted Z.lt l -> Forall (fun x => x < t) l ->
  StronglySorted Z.lt (l ++ [t]).
Proof.
  induction 1 as [|a l Hs IH Ha]; intros Hb; cbn.
  - repeat constructor.
  - inversion Hb; subst. constructor; [auto|].
    apply Forall_app; split; [assumption|]. repeat constructor; assumption.
Qed.

Lemma sorted_prefix l1 l2 :
  StronglySorted Z.lt (l1 ++ l2) -> StronglySorted Z.lt l1.
Proof.
  induction l1 as [|a l1 IH]; cbn; intros H; [constructor|].
  inversion H; subst. constructor; [auto|].
  apply Forall_app in H3. tauto.
Qed.

Lemma top1_none rows : top1_by_timestamp rows = None -> rows = [].
Proof.
  destruct rows as [|r rest]; cbn; [reflexivity|].
  destruct (top1_by_timestamp rest) as [m|]; [|discriminate].
  destruct (Swap.timestamp m <? Swap.timestamp r); discriminate.
Qed.

Lemma top1_last rows x :
  ts_sorted (rows ++ [x]) -> top1_by_timestamp (rows ++ [x]) = Some x.
Proof.
  unfold ts_sorted. induction rows as [|a rows IH]; cbn; intros H; [reflexivity|].
  inversion H as [|? ? Hs Ha]; subst. rewrite (IH Hs).
  rewrite map_app in Ha. apply Forall_app in Ha. destruct Ha as [_ Ha].
  inversion Ha; subst.
  destruct (Z.ltb_spec (Swap.timestamp x) (Swap.timestamp a)); [lia|reflexivity].
Qed.

Lemma deactivate_timestamps o rows :
  map Swap.timestamp (deactivate o rows) = map Swap.timestamp rows.
Proof.
  unfold deactivate. rewrite map_map. apply map_ext. intros r.
  destruct (sql_eq (Swap.isp r) o && (Swap.uplink r =? 1)); reflexivity.
Qed.

Lemma deactivate_keeps_inactive o rows :
  Forall (fun r => Swap.uplink r <> 1) rows ->
  Forall (fun r => Swap.uplink r <> 1) (deactivate o rows).
Proof.
  unfold deactivate. induction 1 as [|r rows Hr _ IH]; cbn; constructor; auto.
  destruct (sql_eq (Swap.isp r) o && (Swap.uplink r =? 1)); cbn; [lia|assumption].
Qed.

Lemma Forall_removelast {A} (P : A -> Prop) l : Forall P l -> Forall P (removelast l).
Proof.
  induction 1 as [|a l Ha Hl IH]; cbn; [constructor|].
  destruct l; [constructor|]. constructor; assumption.
Qed.

Section Reflexive.

(** The collation's equality holds between a text and itself. *)
Hypothesis sql_eq_refl : forall s, sql_eq s s = true.

(** Deactivating the ISP of the last row leaves no active row. *)
Lemma deactivate_last pre x :
  Forall (fun r => Swap.uplink r <> 1) pre ->
  Forall (fun r => Swap.uplink r <> 1) (deactivate (Swap.isp x) (pre ++ [x])).
Proof.
  intros Hpre. unfold deactivate. rewrite map_app. apply Forall_app. split.
  - apply deactivate_keeps_inactive; assumption.
  - cbn. constructor; [|constructor]. rewrite sql_eq_refl. cbn.
    destruct (Z.eqb_spec (Swap.uplink x) 1); cbn; [lia|assumption].
Qed.

Lemma checkAndLogIspChange_invariant db newIsp newIp w :
  ts_sorted (swap w) -> only_last_active (swap w) ->
  Forall (fun r => Swap.timestamp r < insert_time db) (swap w) ->
  let rows' := swap (snd (checkAndLogIspChange db newIsp newIp w)) in
  ts_sorted rows' /\ only_last_active rows'.
Proof.
  intros Hs Ha Hb.
  destruct (checkAndLogIspChange_swap db newIsp newIp w)
    as [E | [[Hnone E] | [r [Htop [E | E]]]]]; cbn zeta; rewrite E; clear E.
  - split; assumption.
  - apply top1_none in Hnone. rewrite Hnone. cbn. split.
    + unfold ts_sorted. cbn. repeat constructor.
    + constructor.
  - destruct (exists_last (l := swap w)) as [pre [x Hx]].
    { intros Hnil. rewrite Hnil in Htop. discriminate. }
    rewrite Hx in *. rewrite top1_last in Htop by assumption.
    injection Htop as <-. unfold only_last_active in Ha.
    rewrite removelast_last in Ha. split.
    + unfold ts_sorted. rewrite deactivate_timestamps. assumption.
    + apply Forall_removelast, deactivate_last; assumption.
  - destruct (exists_last (l := swap w)) as [pre [x Hx]].
    { intros Hnil. rewrite Hnil in Htop. discriminate. }
    rewrite Hx in *. rewrite top1_last in Htop by assumption.
    injection Htop as <-. unfold only_last_active in *.
    rewrite removelast_last in Ha. rewrite removelast_last. split.
    + unfold ts_sorted. rewrite map_app, deactivate_timestamps. cbn.
      apply sorted_snoc; [assumption|].
      apply Forall_map. assumption.
    + apply deactivate_last; assumption.
Qed.

End Reflexive.

Lemma checkAndLogIspChange_bound db newIsp newIp w t :
  Forall (fun r => Swap.timestamp r < t) (swap w) ->
  insert_time db < t ->
  Forall (fun r => Swap.timestamp r < t)
         (swap (snd (checkAndLogIspChange db newIsp newIp w))).
Proof.
  intros Hb Ht.
  assert (Hd : forall o, Forall (fun r => Swap.timestamp r < t) (deactivate o (swap w))).
  { intros o. apply Forall_map with (f := Swap.timestamp) (P := fun x => x < t).
    rewrite deactivate_timestamps. apply Forall_map. assumption. }
  destruct (checkAndLogIspChange_swap db newIsp newIp w)
    as [E | [[_ E] | [r [_ [E | E]]]]]; cbn zeta; rewrite E; clear E.
  - assumption.
  - apply Forall_app; split; [assumption|]. repeat constructor. assumption.
  - apply Hd.
  - apply Forall_app; split; [apply Hd|]. repeat constructor. assumption.
Qed.

Lemma observeAll_cons c rest w :
  observeAll (c :: rest) w =
  observeAll rest (snd (checkAndLogIspChange (obs_db c) (obs_isp c) (obs_ip c) w)).
Proof.
  cbn [observeAll]. unfold bind.
  pose proof (checkAndLogIspChange_returns (obs_db c) (obs_isp c) (obs_ip c) w) as H.
  destruct (checkAndLogIspChange (obs_db c) (obs_isp c) (obs_ip c) w) as [r w'].
  cbn in *. subst r. reflexivity.
Qed.

Lemma observeAll_invariant (sql_eq_refl : forall s, sql_eq s s = true) calls :
  forall w,
    ts_sorted (swap w) -> only_last_active (swap w) ->
    Forall (fun c => Forall (fun r => Swap.timestamp r < insert_time (obs_db c)) (swap w))
           calls ->
    clock_increasing calls ->
    let rows' := swap (snd (observeAll calls w)) in
    ts_sorted rows' /\ only_last_active rows'.
Proof.
  induction calls as [|c rest IH]; intros w Hs Ha Hb Hc.
  - cbn. split; assumption.
  - cbn zeta. rewrite observeAll_cons.
    inversion Hb as [|? ? Hbc Hbrest]; subst.
    inversion Hc as [|? ? Hcrest Hclt]; subst.
    destruct (checkAndLogIspChange_invariant sql_eq_refl (obs_db c) (obs_isp c) (obs_ip c) w)
      as [Hs' Ha']; try assumption.
    apply IH; try assumption.
    rewrite Forall_forall in *. intros c' Hin.
    apply checkAndLogIspChange_bound.
    + apply Hbrest, Hin.
    + apply Hclt. apply in_map with (f := fun c => insert_time (obs_db c)). exact Hin.
Qed.

(** From the empty table, whatever the store answers, as long as its clock
    moves forward. *)
Lemma observeAll_from_empty (sql_eq_refl : forall s, sql_eq s s = true) calls w :
  swap w = [] -> clock_increasing calls ->
  only_last_active (swap (snd (observeAll calls w))).
Proof.
  intros Hempty Hc.
  apply (observeAll_invariant sql_eq_refl calls w); try assumption.
  - rewrite Hempty. constructor.
  - rewrite Hempty. constructor.
  - rewrite Hempty. apply Forall_forall. intros; constructor.
Qed.

Lemma only_last_active_count rows :
  only_last_active rows -> (List.length (filter active rows) <= 1)%nat.
Proof.
  unfold only_last_active. induction rows as [|r0 rows _] using rev_ind; [cbn; lia|].
  rewrite removelast_last, filter_app, length_app. intros H.
  assert (E : filter active rows = []).
  { clear - H. induction H as [|r rows Hr _ IH]; cbn; [reflexivity|].
    unfold active at 1. destruct (Z.eqb_spec (Swap.uplink r) 1); [contradiction|assumption]. }
  rewrite E. cbn. destruct (active r0); cbn; lia.
Qed.

Lemma only_last_active_split rows pre r post :
  only_last_active rows -> rows = pre ++ r :: post -> Swap.uplink r = 1 ->
  post = [] /\ Forall (fun r' => Swap.uplink r' <> 1) pre.
Proof.
  unfold only_last_active. intros H -> Hr.
  induction post as [|y post' _] using rev_ind.
  - rewrite removelast_last in H. split; [reflexivity|assumption].
  - exfalso.
    change (pre ++ r :: post' ++ [y]) with (pre ++ (r :: post') ++ [y]) in H.
    rewrite app_assoc, removelast_last in H.
    apply Forall_app in H. destruct H as [_ H]. inversion H; subst. contradiction.
Qed.

(** C9: starting from an empty swap table, after every completed call of
    [checkAndLogIspChange] at most one row of the whole table has
    [uplink = 1], whatever the ISPs observed and whatever statements the
    store rejects, provided the store's clock moves forward from one call to
    the next and its equality holds between a text and itself. *)
Theorem at_most_one_active_row :
  forall (done todo : list Observation) (w : World),
    (forall s, sql_eq s s = true) ->
    swap w = [] ->
    clock_increasing (done ++ todo) ->
    (List.length (filter active (swap (snd (observeAll done w)))) <= 1)%nat.
Proof.
  intros done todo w Hrefl Hempty Hc.
  apply only_last_active_count, observeAll_from_empty; try assumption.
  unfold clock_increasing in *. rewrite map_app in Hc.
  eapply sorted_prefix; eassumption.
Qed.

(** C2: starting from an empty swap table, after every completed call of
    [checkAndLogIspChange] a row with [uplink = 1] is the only such row among
    the rows of its ISP, and no row of that ISP was inserted after it. *)
Theorem one_active_entry_per_isp :
  forall (done todo : list Observation) (w : World),
    (forall s, sql_eq s s = true) ->
    swap w = [] ->
    clock_increasing (done ++ todo) ->
    forall pre r post,
      swap (snd (observeAll done w)) = pre ++ r :: post ->
      Swap.uplink r = 1 ->
      (forall r', In r' (pre ++ post) ->
                  Swap.isp r' = Swap.isp r -> Swap.uplink r' <> 1) /\
      (forall r', In r' post -> Swap.isp r' <> Swap.isp r).
Proof.
  intros done todo w Hrefl Hempty Hc pre r post Hrows Hr.
  assert (Ha : only_last_active (swap (snd (observeAll done w)))).
  { apply observeAll_from_empty; try assumption.
    unfold clock_increasing in *. rewrite map_app in Hc.
    eapply sorted_prefix; eassumption. }
  destruct (only_last_active_split _ _ _ _ Ha Hrows Hr) as [-> Hpre].
  rewrite app_nil_r. split.
  - intros r' Hin _. rewrite Forall_forall in Hpre. apply Hpre, Hin.
  - intros r' [].
Qed.

(** C6: when the most recent row already carries the observed ISP, a call
    of [checkAndLogIspChange] sends neither the UPDATE nor the INSERT and
    leaves the table as it is, and so does any number of further calls with
    that ISP, whatever the address and whatever the store answers. *)
Theorem checkAndLogIspChange_idempotent :
  forall (repeats : list (IspDb * string)) (newIsp : string) (w : World) (r : Swap.row),
    top1_by_timestamp (swap w) = Some r ->
    Swap.isp r = newIsp ->
    let w' := snd (observeAll
                     (map (fun c => mkObservation (fst c) newIsp (snd c)) repeats) w) in
    swap w' = swap w /\
    exists evs, trace w' = trace w ++ evs /\
                Forall (fun e => is_swap_write e = false) evs.
Proof.
  induction repeats as [|[db newIp] rest IH]; intros newIsp w r Htop Hisp.
  - cbn. split; [reflexivity|]. exists []. rewrite app_nil_r. split; constructor.
  - cbn zeta. cbn [map fst snd]. rewrite observeAll_cons. cbn [obs_db obs_isp obs_ip].
    destruct (checkAndLogIspChange_same_isp db newIsp newIp w r Htop Hisp)
      as [Hsw [evs1 [Htr1 Hev1]]].
    set (w1 := snd (checkAndLogIspChange db newIsp newIp w)) in *.
    destruct (IH newIsp w1 r) as [Hsw2 [evs2 [Htr2 Hev2]]].
    + rewrite Hsw. assumption.
    + assumption.
    + cbn zeta in *. split; [congruence|].
      exists (evs1 ++ evs2). split.
      * rewrite Htr2, Htr1, app_assoc. reflexivity.
      * apply Forall_app; split; assumption.
Qed.

(** ** ProviderClients and IpResolver *)

Ltac crunch := cbn -[Z.add Z.sub Z.mul Z.ltb Z.leb String.eqb String.append].

Ltac run_client :=
  unfold getIpApiInfo, getFreeIpApiInfo, getIpWhoIsInfo, getIpifyInfo, rateLimit,
    axios_get, settle, setTimeout, try_catch, bind, gets, modify, ret, throw,
    console_error;
  crunch.

Ltac split_world w :=
  let p := fresh "p" in
  let rows := fresh "rows" in
  let gl := fresh "gl" in
  let l1 := fresh "l1" in
  let l2 := fresh "l2" in
  let l3 := fresh "l3" in
  let l4 := fresh "l4" in
  let c := fresh "c" in
  let li := fresh "li" in
  let cm := fresh "cm" in
  let tr := fresh "tr" in
  destruct w as [p rows gl l1 l2 l3 l4 c li cm tr].

Ltac client_done :=
  eexists; intros w; split_world w; run_client;
  repeat match goal with
         | H : _ = _ |- _ => rewrite H; crunch
         end;
  match goal with
  | |- context [if ?b then _ else _] => destruct b; crunch
  end;
  unfold frame; crunch; repeat split; reflexivity.

Lemma getIpApiInfo_sound now r : sound_service (getIpApiInfo now r).
Proof.
  destruct (answer r) as [d|err] eqn:E;
    [destruct (IpApi.status d =? "success")%string eqn:E2|]; client_done.
Qed.

Lemma getFreeIpApiInfo_sound now r : sound_service (getFreeIpApiInfo now r).
Proof.
  destruct (answer r) as [d|err] eqn:E;
    [destruct (FreeIpApi.timeZones d) as [zones|] eqn:E2|]; client_done.
Qed.

Lemma getIpWhoIsInfo_sound now r : sound_service (getIpWhoIsInfo now r).
Proof.
  destruct (answer r) as [d|err] eqn:E;
    [destruct (IpWhoIs.connection d) as [c|] eqn:E2;
     [destruct (IpWhoIs.timezone_id d) as [tz|] eqn:E3|]|]; client_done.
Qed.

Lemma getIpifyInfo_sound now r1 r2 : sound_service (getIpifyInfo now r1 r2).
Proof.
  destruct (answer r1) as [a|err] eqn:E;
    [destruct (answer r2) as [d|err] eqn:E2|]; client_done.
Qed.

Lemma apiServices_sound e :
  Forall (fun s => sound_service (snd s)) (apiServices e).
Proof.
  unfold apiServices.
  constructor; [apply getIpApiInfo_sound|].
  constructor; [apply getFreeIpApiInfo_sound|].
  constructor; [apply getIpWhoIsInfo_sound|].
  constructor; [apply getIpifyInfo_sound|].
  constructor.
Qed.

Lemma frame_refl w : frame w w.
Proof. unfold frame. repeat split; reflexivity. Qed.

Lemma frame_trans w1 w2 w3 : frame w1 w2 -> frame w2 w3 -> frame w1 w3.
Proof. unfold frame. intuition congruence. Qed.

Lemma frame_emit ev w : frame w (emit ev w).
Proof. unfold frame. repeat split; reflexivity. Qed.

Lemma frame_set_cachedIpInfo c w : frame w (set_cachedIpInfo c w).
Proof. unfold frame. repeat split; reflexivity. Qed.

(** The loop returns the record of the first service that succeeds, caches
    it under [now], and leaves the cache alone when none succeeds. *)
Lemma tryServices_spec now services :
  Forall (fun s => sound_service (snd s)) services ->
  forall w w0,
    fst (tryServices now services w) = Ok (firstSuccess w0 services) /\
    cachedIpInfo (snd (tryServices now services w)) =
      match firstSuccess w0 services with
      | Some d => Some (mkCache d now)
      | None => cachedIpInfo w
      end /\
    frame w (snd (tryServices now services w)).
Proof.
  induction 1 as [|[name fn] rest [r Hfn] _ IH]; intros w w0.
  - cbn. (split; [|split]); try reflexivity. apply frame_refl.
  - cbn [snd] in Hfn. cbn [tryServices firstSuccess].
    destruct (Hfn w) as [Hr [Hc Hf]]. destruct (Hfn w0) as [Hr0 _].
    rewrite Hr0. unfold console_error. unfold bind, try_catch, modify, ret.
    destruct (fn w) as [res w1]. cbn [fst snd] in *. subst res.
    destruct r as [d|err]; cbn [fst snd].
    + (split; [|split]); try reflexivity.
      eapply frame_trans; [exact Hf|apply frame_set_cachedIpInfo].
    + specialize (IH (emit (ConsoleError (name ++ " failed:")%string) w1) w0).
      destruct IH as [IH1 [IH2 IH3]].
      destruct (tryServices now rest (emit (ConsoleError (name ++ " failed:")%string) w1))
        as [res2 w2].
      cbn [fst snd] in *. subst res2.
      destruct (firstSuccess w0 rest) as [d|]; cbn [fst snd].
      * (split; [|split]); try assumption; try reflexivity.
        eapply frame_trans; [exact Hf|].
        eapply frame_trans; [apply frame_emit|exact IH3].
      * (split; [|split]); try reflexivity.
        -- rewrite IH2. cbn. exact Hc.
        -- eapply frame_trans; [exact Hf|].
           eapply frame_trans; [apply frame_emit|exact IH3].
Qed.

(** With a fresh cache the call is over at once: nothing is asked, nothing
    changes. *)
Lemma getPublicIpInfo_fresh e w entry :
  cachedIpInfo w = Some entry ->
  resolve_now e - cache_timestamp entry < CACHE_DURATION ->
  getPublicIpInfo e w = (Ok (data entry), w).
Proof.
  intros Hc Hlt. unfold getPublicIpInfo, bind, gets, ret. cbn.
  rewrite Hc. cbn.
  destruct (Z.ltb_spec (resolve_now e - cache_timestamp entry) CACHE_DURATION);
    [reflexivity|lia].
Qed.

(** What [getPublicIpInfo] returns and what it leaves in the cache. *)
Lemma getPublicIpInfo_spec e w w0 :
  let now := resolve_now e in
  let res := getPublicIpInfo e w in
  fst res =
    Ok (match (if cacheFresh (cachedIpInfo w) now then cachedIpInfo w else None) with
        | Some entry => data entry
        | None =>
            match firstSuccess w0 (apiServices e) with
            | Some d => d
            | None =>
                match cachedIpInfo w with
                | Some entry => data entry
                | None => mockIpInfo
                end
            end
        end) /\
  cachedIpInfo (snd res) =
    (if cacheFresh (cachedIpInfo w) now then cachedIpInfo w
     else match firstSuccess w0 (apiServices e) with
          | Some d => Some (mkCache d now)
          | None => cachedIpInfo w
          end) /\
  frame w (snd res).
Proof.
  cbn zeta. unfold getPublicIpInfo, bind, gets. cbn [fst snd].
  destruct (cacheFresh (cachedIpInfo w) (resolve_now e)) eqn:Hfresh.
  - destruct (cachedIpInfo w) as [entry|] eqn:Hc; [|discriminate].
    cbn. (split; [|split]); [reflexivity|assumption|apply frame_refl].
  - destruct (tryServices_spec (resolve_now e) (apiServices e)
                (apiServices_sound e) w w0) as [H1 [H2 H3]].
    destruct (tryServices (resolve_now e) (apiServices e) w) as [res1 w1].
    cbn [fst snd] in *. subst res1.
    destruct (firstSuccess w0 (apiServices e)) as [d|]; cbn.
    + (split; [|split]); [reflexivity|assumption|assumption].
    + rewrite H2. destruct (cachedIpInfo w) as [entry|]; cbn.
      * (split; [|split]); [reflexivity|assumption|assumption].
      * unfold console_error, modify, ret. cbn.
        (split; [|split]); [reflexivity|assumption|].
        eapply frame_trans; [exact H3|apply frame_emit].
Qed.

(** ** RateLimiter *)

Lemma skipn_app_length {A} (l evs : list A) : skipn (List.length l) (l ++ evs) = evs.
Proof. induction l as [|a l IH]; cbn; [reflexivity|exact IH]. Qed.

Lemma events_of_app {A} (m : M A) w evs :
  trace (snd (m w)) = trace w ++ evs -> events_of m w = evs.
Proof. unfold events_of. intros ->. apply skipn_app_length. Qed.

Ltac client_cases :=
  repeat match goal with
         | |- context [match answer ?r with _ => _ end] => destruct (answer r); crunch
         | |- context [if (?a =? ?b)%string then _ else _] =>
             destruct (a =? b)%string; crunch
         | |- context [match FreeIpApi.timeZones ?d with _ => _ end] =>
             destruct (FreeIpApi.timeZones d); crunch
         | |- context [match IpWhoIs.connection ?d with _ => _ end] =>
             destruct (IpWhoIs.connection d); crunch
         | |- context [match IpWhoIs.timezone_id ?d with _ => _ end] =>
             destruct (IpWhoIs.timezone_id d); crunch
         end.

(** One call of a provider client sends one request to the address its
    gate guards, at [now] or, when the last recorded call is less than the
    limit back, at that call plus the limit; in the second case it waits
    exactly the difference, in the first it does not wait. *)
Lemma callProvider_request p e w :
  let evs := events_of (callProvider p e) w in
  let now := nowOf p e in
  let lastCall := lastCallOf p w in
  requestTimes (urlOf p) evs = [Z.max now (lastCall + limitOf p)] /\
  timeouts evs =
    if now - lastCall <? limitOf p then [limitOf p - (now - lastCall)] else [].
Proof.
  cbn zeta.
  assert (H : exists evs,
             trace (snd (callProvider p e w)) = trace w ++ evs /\
             requestTimes (urlOf p) evs =
               [Z.max (nowOf p e) (lastCallOf p w + limitOf p)] /\
             timeouts evs =
               if nowOf p e - lastCallOf p w <? limitOf p
               then [limitOf p - (nowOf p e - lastCallOf p w)] else []).
  { destruct p; split_world w; unfold callProvider;
      cbn [urlOf nowOf lastCallOf limitOf API_RATE_LIMITS ipApi freeIpApi ipWhoIs ipify];
      run_client;
      match goal with
      | |- context [?a <? ?b] => destruct (Z.ltb_spec a b); crunch
      end;
      client_cases;
      rewrite <- ?app_assoc; eexists; (split; [reflexivity|]);
      cbn [requestTimes timeouts app url_eqb]; split; try reflexivity; f_equal; lia. }
  destruct H as [evs [Htr [Hreq Hto]]].
  rewrite (events_of_app _ _ _ Htr). split; assumption.
Qed.

(** A call that returns a record has recorded the time its last reply
    arrived. *)
Lemma callProvider_success p e w d :
  fst (callProvider p e w) = Ok d ->
  lastCallOf p (snd (callProvider p e w)) = settledOf p e.
Proof.
  destruct p; split_world w; unfold callProvider;
    cbn [settledOf lastCallOf];
    run_client;
    match goal with
    | |- context [?a <? ?b] => destruct (a <? b); crunch
    end;
    client_cases; intros H; try discriminate H; reflexivity.
Qed.

(** A call one of whose requests gets no reply records nothing. *)
Lemma callProvider_no_reply p e w :
  match p with
  | KeyIpApi => unanswered (ipApi_reply e)
  | KeyFreeIpApi => unanswered (freeIpApi_reply e)
  | KeyIpWhoIs => unanswered (ipWhoIs_reply e)
  | KeyIpify => unanswered (ipify_reply e) \/ unanswered (ipapiCo_reply e)
  end ->
  lastCallOf p (snd (callProvider p e w)) = lastCallOf p w.
Proof.
  unfold unanswered. intros H. split_world w.
  destruct p; unfold callProvider; cbn [lastCallOf]; run_client;
    match goal with
    | |- context [?a <? ?b] => destruct (a <? b); crunch
    end;
    try (destruct H as [err H]; rewrite H; reflexivity);
    destruct H as [[err H]|[err H]]; try (rewrite H; reflexivity);
    destruct (answer (ipify_reply e)); crunch; rewrite ?H; reflexivity.
Qed.

(** C7 (amended): when a call of a provider's client has returned a
    record, the next call of that client sends its request at least the
    provider's limit after the time recorded at the end of the first call,
    hence at least the limit after the first request was sent; the gate
    makes the caller wait exactly the part of the limit that has not yet
    passed since the recorded time, and not at all when it has passed. *)
Theorem rate_limit_after_success :
  forall (p : Provider) (e1 e2 : ResolveEnv) (w : World) (d : IdentityRecord),
    fst (callProvider p e1 w) = Ok d ->
    let w1 := snd (callProvider p e1 w) in
    let now := nowOf p e2 in
    let recorded := settledOf p e1 in
    exists t1 t2,
      requestTimes (urlOf p) (events_of (callProvider p e1) w) = [t1] /\
      requestTimes (urlOf p) (events_of (callProvider p e2) w1) = [t2] /\
      t2 = Z.max now (recorded + limitOf p) /\
      (t1 <= recorded -> limitOf p <= t2 - t1) /\
      timeouts (events_of (callProvider p e2) w1) =
        (if now - recorded <? limitOf p then [limitOf p - (now - recorded)] else []).
Proof.
  intros p e1 e2 w d Hok w1 now recorded.
  destruct (callProvider_request p e1 w) as [Hreq1 _].
  destruct (callProvider_request p e2 w1) as [Hreq2 Hto2].
  cbn zeta in *.
  assert (Hlast : lastCallOf p w1 = recorded)
    by (apply (callProvider_success p e1 w d Hok)).
  rewrite Hlast in *.
  eexists; eexists. split; [exact Hreq1|]. split; [exact Hreq2|].
  split; [reflexivity|]. split; [|exact Hto2].
  subst now. lia.
Qed.

(** ** IpResolver: the fallback chain and the cache *)

Lemma firstSuccess_split w (before : list (string * M IdentityRecord))
    (name : string) (fn : M IdentityRecord) after d :
  Forall (throws w) before ->
  fst (fn w) = Ok d ->
  firstSuccess w (before ++ (name, fn) :: after) = Some d.
Proof.
  induction 1 as [|[n f] before [err Hf] _ IH]; intros Hd; cbn.
  - rewrite Hd. reflexivity.
  - cbn in Hf. rewrite Hf. auto.
Qed.

Lemma firstSuccess_none w services :
  Forall (throws w) services -> firstSuccess w services = None.
Proof.
  induction 1 as [|[n f] rest [err Hf] _ IH]; cbn; [reflexivity|].
  cbn in Hf. rewrite Hf. exact IH.
Qed.

(** C1 (amended): [getPublicIpInfo] always returns a record.  With a fresh
    cache entry it returns the cached data and contacts nobody.  Otherwise
    it returns the record of the first service, in the order ip-api.com,
    freeipapi.com, ipwho.is, ipify.org, that does not throw; when all four
    throw it returns the cached data if there is an entry, and the mock
    record, whose source is "mock", if there is none. *)
Theorem getPublicIpInfo_fallback :
  forall (e : ResolveEnv) (w w0 : World),
    map fst (apiServices e) = ["ip-api.com"; "freeipapi.com"; "ipwho.is"; "ipify.org"] /\
    exists d,
      fst (getPublicIpInfo e w) = Ok d /\
      (forall entry,
          cachedIpInfo w = Some entry ->
          resolve_now e - cache_timestamp entry < CACHE_DURATION ->
          d = data entry /\ snd (getPublicIpInfo e w) = w) /\
      (cacheFresh (cachedIpInfo w) (resolve_now e) = false ->
       (forall before name fn after d',
           apiServices e = before ++ (name, fn) :: after ->
           Forall (throws w0) before ->
           fst (fn w0) = Ok d' ->
           d = d') /\
       (Forall (throws w0) (apiServices e) ->
        (forall entry, cachedIpInfo w = Some entry -> d = data entry) /\
        (cachedIpInfo w = None -> d = mockIpInfo /\ source d = "mock"))).
Proof.
  intros e w w0. split; [reflexivity|].
  destruct (getPublicIpInfo_spec e w w0) as [Hres _]. cbn zeta in Hres.
  eexists. split; [exact Hres|]. split.
  - intros entry Hc Hlt. rewrite (getPublicIpInfo_fresh e w entry Hc Hlt).
    rewrite Hc. cbn [cacheFresh].
    destruct (Z.ltb_spec (resolve_now e - cache_timestamp entry) CACHE_DURATION);
      [split; reflexivity|lia].
  - intros Hstale. rewrite Hstale. split.
    + intros before name fn after d' Hsplit Hbefore Hfn.
      rewrite Hsplit, (firstSuccess_split w0 before name fn after d' Hbefore Hfn).
      reflexivity.
    + intros Hall. rewrite (firstSuccess_none w0 _ Hall). split.
      * intros entry ->. reflexivity.
      * intros ->. split; reflexivity.
Qed.

(** C5 (amended): when a call of [getPublicIpInfo] that goes to the
    providers gets a record from one of them, a second call made less than
    [CACHE_DURATION] after the first was made returns the same record
    without sending any request and without changing anything. *)
Theorem second_call_served_from_cache :
  forall (e1 e2 : ResolveEnv) (w w0 : World) (d : IdentityRecord),
    cacheFresh (cachedIpInfo w) (resolve_now e1) = false ->
    firstSuccess w0 (apiServices e1) = Some d ->
    resolve_now e2 - resolve_now e1 < CACHE_DURATION ->
    let w1 := snd (getPublicIpInfo e1 w) in
    fst (getPublicIpInfo e1 w) = Ok d /\
    getPublicIpInfo e2 w1 = (Ok d, w1) /\
    events_of (getPublicIpInfo e2) w1 = [].
Proof.
  intros e1 e2 w w0 d Hstale Hfirst Hlt w1.
  destruct (getPublicIpInfo_spec e1 w w0) as [Hres [Hcache _]]. cbn zeta in *.
  rewrite Hstale, Hfirst in *. fold w1 in Hcache.
  assert (H2 : getPublicIpInfo e2 w1 = (Ok d, w1)).
  { apply (getPublicIpInfo_fresh e2 w1 (mkCache d (resolve_now e1))); [exact Hcache|].
    cbn. exact Hlt. }
  split; [exact Hres|]. split; [exact H2|].
  apply events_of_app. rewrite H2. cbn. rewrite app_nil_r. reflexivity.
Qed.

(** ** GatewayProbe *)

(** C8: the logging task never throws.  With no pool it does nothing.  With
    a pool it pings once; a gateway that did not answer makes the status
    "down", and when the insert of the status runs the table gains one row
    with it.  When the ping rejects or that insert is rejected, one insert
    of "down" is tried: when it runs the table gains a "down" row, and when
    it is rejected the error is printed and nothing more is tried. *)
Theorem logGatewayStatus_never_throws :
  forall (g : GatewayEnv) (w : World),
    fst (logGatewayStatus g w) = Ok tt /\
    (pool w = false -> snd (logGatewayStatus g w) = w) /\
    (pool w = true ->
     let evs := events_of (logGatewayStatus g) w in
     let log' := gateway_log (snd (logGatewayStatus g w)) in
     let fallback :=
       Query (InsertGatewayLog "down") ::
       (if insert_down_ok g then []
        else [ConsoleError "Error logging gateway status to DB:"]) in
     let fallback_rows :=
       if insert_down_ok g then [GatewayLog.mk "down" (insert_down_time g)] else [] in
     match probe g with
     | Ok alive =>
         let status := if alive then "up" else "down" in
         if insert_status_ok g
         then evs = [Ping; Query (InsertGatewayLog status)] /\
              log' = gateway_log w ++ [GatewayLog.mk status (insert_status_time g)]
         else evs = Ping :: Query (InsertGatewayLog status) :: fallback /\
              log' = gateway_log w ++ fallback_rows
     | Throw _ =>
         evs = Ping :: fallback /\ log' = gateway_log w ++ fallback_rows
     end).
Proof.
  intros g w. split_world w.
  unfold logGatewayStatus, insert_gateway_log, ping_probe, query, settle, try_catch,
    bind, gets, modify, ret, throw, console_error.
  destruct p; crunch.
  - split; [|split; [discriminate|intros _]].
    + destruct (probe g) as [alive|err]; crunch;
        destruct (insert_status_ok g); crunch; try reflexivity;
        destruct (insert_down_ok g); reflexivity.
    + destruct (probe g) as [alive|err]; crunch;
        [destruct (insert_status_ok g); crunch|];
        try destruct (insert_down_ok g); crunch;
        (split; [rewrite <- ?app_assoc; apply skipn_app_length
                |rewrite ?app_nil_r; reflexivity]).
  - split; [reflexivity|]. split; [reflexivity|discriminate].
Qed.

(** The route answers "down" with status 200 when the gateway did not
    answer the ping, and "down" with status 500 when the ping rejects. *)
Lemma gatewayStatusRoute_down w :
  fst (gatewayStatusRoute (Ok false) w) = Ok (200, "down") /\
  forall err, fst (gatewayStatusRoute (Throw err) w) = Ok (500, "down").
Proof. split; reflexivity. Qed.

(** ** MetricsAggregator *)

Lemma only_history_refl w : only_history w w.
Proof. unfold only_history, frame. repeat split; reflexivity. Qed.

Lemma only_history_trans w1 w2 w3 :
  only_history w1 w2 -> only_history w2 w3 -> only_history w1 w3.
Proof. unfold only_history, frame. intuition congruence. Qed.

Lemma only_history_frame w w' : only_history w w' -> frame w w'.
Proof. unfold only_history. tauto. Qed.

Lemma both_run {A B} (ma : M A) (mb : M B) w :
  both ma mb w =
  (match fst (ma w), fst (mb (snd (ma w))) with
   | Ok a, Ok b => Ok (a, b)
   | Throw e, _ => Throw e
   | Ok _, Throw e => Throw e
   end, snd (mb (snd (ma w)))).
Proof.
  unfold both. destruct (ma w) as [ra w1]; cbn. destruct (mb w1); reflexivity.
Qed.

(** The wrapper around a fetch that does not touch the module. *)
Lemma getMetricsWithRetry_settle {A} (call : nat -> Result A) w :
  fst (getMetricsWithRetry (fun i => settle (call i)) 3 w) =
    match retried call with
    | Ok v => Ok (Some v)
    | Throw e => Throw e
    end /\
  only_history w (snd (getMetricsWithRetry (fun i => settle (call i)) 3 w)).
Proof.
  split_world w.
  unfold getMetricsWithRetry, retryLoop, retried, try_catch, bind, settle,
    setTimeout, modify, ret, throw.
  destruct (call 0%nat); crunch; [split; [reflexivity|apply only_history_refl]|].
  destruct (call 1%nat); crunch;
    [split; [reflexivity|unfold only_history, frame; cbn; repeat split; reflexivity]|].
  destruct (call 2%nat); crunch;
    (split; [reflexivity|unfold only_history, frame; cbn; repeat split; reflexivity]).
Qed.

Lemma getPublicIpInfo_returns e w :
  exists d, fst (getPublicIpInfo e w) = Ok d.
Proof.
  destruct (getPublicIpInfo_spec e w w) as [H _]. cbn zeta in H. eauto.
Qed.

(** The wrapper around the identity lookup: one call, which returns. *)
Lemma getMetricsWithRetry_publicIp envs w :
  exists d,
    fst (getPublicIpInfo (envs 0%nat) w) = Ok d /\
    getMetricsWithRetry (fun i => getPublicIpInfo (envs i)) 3 w =
      (Ok (Some d), snd (getPublicIpInfo (envs 0%nat) w)).
Proof.
  destruct (getPublicIpInfo_returns (envs 0%nat) w) as [d Hd].
  exists d. split; [exact Hd|].
  unfold getMetricsWithRetry, retryLoop, try_catch, bind, ret.
  destruct (getPublicIpInfo (envs 0%nat) w) as [r w']. cbn in *. subst r. reflexivity.
Qed.

(** The join: the world [w2] the identity lookup runs in differs from [w]
    by its history only; the join is fulfilled exactly when the five probes
    are, and then every component is defined. *)
Lemma subFetches_run e w :
  exists w2 info,
    only_history w w2 /\
    fst (getPublicIpInfo (publicIp_call e 0%nat) w2) = Ok info /\
    frame w (snd (subFetches e w)) /\
    fst (subFetches e w) =
      match retried (networkStats_call e) with
      | Throw err => Throw err
      | Ok stats =>
      match retried (inetLatency_call e) with
      | Throw err => Throw err
      | Ok lat =>
      match retried (currentLoad_call e) with
      | Throw err => Throw err
      | Ok cpu =>
      match retried (mem_call e) with
      | Throw err => Throw err
      | Ok mem =>
      match retried (time_call e) with
      | Throw err => Throw err
      | Ok up =>
          Ok (Some stats, (Some lat, (Some info, (Some cpu, (Some mem, Some up)))))
      end end end end end.
Proof.
  unfold subFetches. rewrite !both_run. cbn [fst snd].
  destruct (getMetricsWithRetry_settle (networkStats_call e) w) as [F1 H1].
  set (w1 := snd (getMetricsWithRetry (fun i => settle (networkStats_call e i)) 3 w)) in *.
  destruct (getMetricsWithRetry_settle (inetLatency_call e) w1) as [F2 H2].
  set (w2 := snd (getMetricsWithRetry (fun i => settle (inetLatency_call e i)) 3 w1)) in *.
  destruct (getMetricsWithRetry_publicIp (publicIp_call e) w2) as [info [Hinfo F3]].
  rewrite F3. cbn [fst snd].
  destruct (getPublicIpInfo_spec (publicIp_call e 0%nat) w2 w2) as [_ [_ H3]].
  cbn zeta in H3.
  set (w3 := snd (getPublicIpInfo (publicIp_call e 0%nat) w2)) in *.
  destruct (getMetricsWithRetry_settle (currentLoad_call e) w3) as [F4 H4].
  set (w4 := snd (getMetricsWithRetry (fun i => settle (currentLoad_call e i)) 3 w3)) in *.
  destruct (getMetricsWithRetry_settle (mem_call e) w4) as [F5 H5].
  set (w5 := snd (getMetricsWithRetry (fun i => settle (mem_call e i)) 3 w4)) in *.
  destruct (getMetricsWithRetry_settle (time_call e) w5) as [F6 H6].
  set (w6 := snd (getMetricsWithRetry (fun i => settle (time_call e i)) 3 w5)) in *.
  exists w2, info.
  split; [eapply only_history_trans; eassumption|].
  split; [exact Hinfo|].
  split.
  - apply only_history_frame in H1, H2, H4, H5, H6.
    repeat (eapply frame_trans; [eassumption|]). apply frame_refl.
  - rewrite F1, F2, F4, F5, F6.
    destruct (retried (networkStats_call e)); [|reflexivity].
    destruct (retried (inetLatency_call e));
      destruct (retried (currentLoad_call e));
      destruct (retried (mem_call e));
      destruct (retried (time_call e)); reflexivity.
Qed.

Lemma checkAndLogIspChange_vars db newIsp newIp w :
  let w' := snd (checkAndLogIspChange db newIsp newIp w) in
  pool w' = pool w /\ lastIspCheck w' = lastIspCheck w /\
  currentMetrics w' = currentMetrics w.
Proof.
  split_world w. run_detector.
  destruct p; cbn; [|repeat split; reflexivity].
  destruct (select_ok db); cbn; [|repeat split; reflexivity].
  destruct (top1_by_timestamp rows) as [r|]; cbn.
  - destruct (Swap.isp r =? newIsp)%string; cbn; [repeat split; reflexivity|].
    destruct (update_ok db); cbn; [|repeat split; reflexivity].
    destruct (insert_ok db); repeat split; reflexivity.
  - destruct (insert_ok db); repeat split; reflexivity.
Qed.

Lemma getNetworkMetrics_join_rejected e w err :
  fst (subFetches e w) = Throw err ->
  getNetworkMetrics e w =
  (Ok None, emit (ConsoleError "Error getting network metrics:") (snd (subFetches e w))).
Proof.
  intros H. unfold getNetworkMetrics, try_catch, bind.
  destruct (subFetches e w) as [r wj]. cbn in H. subst r. reflexivity.
Qed.

(** What [getNetworkMetrics] does once the join is fulfilled: the change
    detector runs when it is due, then the store is asked for the time. *)
Lemma getNetworkMetrics_join_fulfilled e w stats lat info cpu mem up :
  fst (subFetches e w) =
    Ok (Some stats, (Some lat, (Some info, (Some cpu, (Some mem, Some up))))) ->
  let wj := snd (subFetches e w) in
  let w1 :=
    if ispCheckDue (Some info) (check_now e) (lastIspCheck wj)
    then set_lastIspCheck (check_now e)
           (snd (checkAndLogIspChange (check_db e) (isp info) (ip info) wj))
    else wj in
  let failed := emit (ConsoleError "Error getting network metrics:") in
  getNetworkMetrics e w =
    if pool w1 then
      if now_ok e then
        match stats with
        | first :: _ =>
            (Ok (Some (buildSnapshot (now_text e) (Some info) cpu mem up first (Some lat))),
             emit (Query SelectNow) w1)
        | [] => (Ok None, failed (emit (Query SelectNow) w1))
        end
      else (Ok None, failed (emit (Query SelectNow) w1))
    else (Ok None, failed w1).
Proof.
  intros H. cbn zeta. unfold getNetworkMetrics, try_catch, bind, gets.
  destruct (subFetches e w) as [r wj]. cbn [fst snd] in *. subst r. cbn [fst snd].
  destruct (ispCheckDue (Some info) (check_now e) (lastIspCheck wj)).
  - pose proof (checkAndLogIspChange_returns (check_db e) (isp info) (ip info) wj) as Hr.
    destruct (checkAndLogIspChange (check_db e) (isp info) (ip info) wj) as [rc wc].
    cbn [fst snd] in *. subst rc. unfold modify, query, deref, ret, throw, console_error.
    cbn [fst snd pool set_lastIspCheck emit].
    destruct (pool wc); [|reflexivity].
    destruct (now_ok e); [|reflexivity].
    destruct stats; reflexivity.
  - unfold modify, query, deref, ret, throw, console_error.
    cbn [fst snd pool emit].
    destruct (pool wj); [|reflexivity].
    destruct (now_ok e); [|reflexivity].
    destruct stats; reflexivity.
Qed.

Lemma getNetworkMetrics_returns e w :
  exists m, fst (getNetworkMetrics e w) = Ok m.
Proof.
  unfold getNetworkMetrics, try_catch.
  match goal with
  | |- context [match ?body w with _ => _ end] => destruct (body w) as [[m|err] w']
  end; cbn; eauto.
Qed.

(** C4 (amended): [getNetworkMetrics] never throws.  A snapshot it returns
    is the complete one: built from the results of all six wrapped fetches
    and the time the store gave, with [publicIpInfo] defined.  When one of
    the probes is rejected three times it returns null.  When the five
    probes are fulfilled within three calls (the identity lookup always
    is), the network counters list an interface, there is a pool and the
    store answers the time query, it returns that snapshot. *)
Theorem getNetworkMetrics_all_or_nothing :
  forall (e : SampleEnv) (w : World),
    (exists m, fst (getNetworkMetrics e w) = Ok m) /\
    (forall s,
        fst (getNetworkMetrics e w) = Ok (Some s) ->
        exists first rest lat info cpu mem up,
          retried (networkStats_call e) = Ok (first :: rest) /\
          retried (inetLatency_call e) = Ok lat /\
          retried (currentLoad_call e) = Ok cpu /\
          retried (mem_call e) = Ok mem /\
          retried (time_call e) = Ok up /\
          s = buildSnapshot (now_text e) (Some info) cpu mem up first (Some lat)) /\
    (forall err,
        retried (networkStats_call e) = Throw err \/
        retried (inetLatency_call e) = Throw err \/
        retried (currentLoad_call e) = Throw err \/
        retried (mem_call e) = Throw err \/
        retried (time_call e) = Throw err ->
        fst (getNetworkMetrics e w) = Ok None) /\
    (forall first rest lat cpu mem up,
        retried (networkStats_call e) = Ok (first :: rest) ->
        retried (inetLatency_call e) = Ok lat ->
        retried (currentLoad_call e) = Ok cpu ->
        retried (mem_call e) = Ok mem ->
        retried (time_call e) = Ok up ->
        pool w = true ->
        now_ok e = true ->
        exists info,
          fst (getNetworkMetrics e w) =
          Ok (Some (buildSnapshot (now_text e) (Some info) cpu mem up first (Some lat)))).
Proof.
  intros e w. split; [apply getNetworkMetrics_returns|].
  destruct (subFetches_run e w) as [w2 [info [_ [_ [Hframe Hjoin]]]]].
  assert (Hpool : forall (b : bool) (i p : string), pool
            (if b then set_lastIspCheck (check_now e)
                        (snd (checkAndLogIspChange (check_db e) i p (snd (subFetches e w))))
             else snd (subFetches e w)) = pool w).
  { intros b i p. destruct Hframe as [Hp _]. destruct b; [|exact Hp].
    cbn [pool set_lastIspCheck].
    destruct (checkAndLogIspChange_vars (check_db e) i p (snd (subFetches e w)))
      as [Hp' _]. cbn zeta in Hp'. congruence. }
  split; [|split].
  - intros s Hs.
    destruct (retried (networkStats_call e)) as [stats|err1] eqn:E1;
      [|rewrite (getNetworkMetrics_join_rejected e w err1 Hjoin) in Hs; discriminate].
    destruct (retried (inetLatency_call e)) as [lat|err2] eqn:E2;
      [|rewrite (getNetworkMetrics_join_rejected e w err2 Hjoin) in Hs; discriminate].
    destruct (retried (currentLoad_call e)) as [cpu|err3] eqn:E3;
      [|rewrite (getNetworkMetrics_join_rejected e w err3 Hjoin) in Hs; discriminate].
    destruct (retried (mem_call e)) as [mem|err4] eqn:E4;
      [|rewrite (getNetworkMetrics_join_rejected e w err4 Hjoin) in Hs; discriminate].
    destruct (retried (time_call e)) as [up|err5] eqn:E5;
      [|rewrite (getNetworkMetrics_join_rejected e w err5 Hjoin) in Hs; discriminate].
    rewrite (getNetworkMetrics_join_fulfilled e w stats lat info cpu mem up Hjoin) in Hs.
    cbn zeta in Hs.
    match type of Hs with
    | context [pool ?x] => destruct (pool x); [|discriminate]
    end.
    destruct (now_ok e); [|discriminate].
    destruct stats as [|first rest]; [discriminate|].
    cbn in Hs. injection Hs as <-.
    exists first, rest, lat, info, cpu, mem, up. repeat split; reflexivity.
  - intros err Hfail.
    assert (Hthrow : exists err', fst (subFetches e w) = Throw err').
    { rewrite Hjoin.
      destruct Hfail as [H|[H|[H|[H|H]]]];
        destruct (retried (networkStats_call e)); eauto;
        destruct (retried (inetLatency_call e)); eauto;
        destruct (retried (currentLoad_call e)); eauto;
        destruct (retried (mem_call e)); eauto;
        destruct (retried (time_call e)); eauto; discriminate. }
    destruct Hthrow as [err' Hthrow].
    rewrite (getNetworkMetrics_join_rejected e w err' Hthrow). reflexivity.
  - intros first rest lat cpu mem up E1 E2 E3 E4 E5 Hp Hnow.
    rewrite E1, E2, E3, E4, E5 in Hjoin.
    rewrite (getNetworkMetrics_join_fulfilled e w _ lat info cpu mem up Hjoin).
    cbn zeta. rewrite Hpool, Hp, Hnow. exists info. reflexivity.
Qed.

Lemma checkAndLogIspChange_transition db newIsp newIp w :
  pool w = true ->
  select_ok db = true -> update_ok db = true -> insert_ok db = true ->
  (forall r, top1_by_timestamp (swap w) = Some r -> Swap.isp r <> newIsp) ->
  exists rows,
    swap (snd (checkAndLogIspChange db newIsp newIp w)) =
    rows ++ [Swap.mk newIsp newIp (insert_time db) 1].
Proof.
  split_world w. cbn [pool swap]. intros -> Hs Hu Hi Hne. run_detector.
  rewrite Hs. cbn.
  destruct (top1_by_timestamp rows) as [r|]; cbn.
  - destruct (String.eqb_spec (Swap.isp r) newIsp) as [Heq|_];
      [exfalso; exact (Hne r eq_refl Heq)|].
    cbn. rewrite Hu. cbn. rewrite Hi. cbn. eexists. reflexivity.
  - rewrite Hi. cbn. eexists. reflexivity.
Qed.

(** C10: when no provider answers and nothing is cached, the identity
    handed to the aggregator is the mock record; its [isp] "Unknown" and
    its [ip] "000.000.000.000" are truthy, so once the check interval has
    passed (and the probes are fulfilled) the change detector runs on
    them: the table after the sample is the table the detector leaves
    when called with "Unknown", the check time is recorded, and when the
    store runs the statements and the latest row is not already "Unknown"
    the table ends with an active "Unknown" row. *)
Theorem mock_identity_reaches_detector :
  forall (e : SampleEnv) (w w0 : World) stats lat cpu mem up,
    cachedIpInfo w = None ->
    Forall (throws w0) (apiServices (publicIp_call e 0%nat)) ->
    retried (networkStats_call e) = Ok stats ->
    retried (inetLatency_call e) = Ok lat ->
    retried (currentLoad_call e) = Ok cpu ->
    retried (mem_call e) = Ok mem ->
    retried (time_call e) = Ok up ->
    ISP_CHECK_INTERVAL <= check_now e - lastIspCheck w ->
    let w' := snd (getNetworkMetrics e w) in
    ispCheckDue (Some mockIpInfo) (check_now e) (lastIspCheck w) = true /\
    exists wj,
      frame w wj /\
      swap w' =
        swap (snd (checkAndLogIspChange (check_db e) "Unknown" "000.000.000.000" wj)) /\
      lastIspCheck w' = check_now e /\
      (pool w = true ->
       select_ok (check_db e) = true ->
       update_ok (check_db e) = true ->
       insert_ok (check_db e) = true ->
       (forall r, top1_by_timestamp (swap w) = Some r -> Swap.isp r <> "Unknown") ->
       exists rows,
         swap w' =
         rows ++ [Swap.mk "Unknown" "000.000.000.000" (insert_time (check_db e)) 1]).
Proof.
  intros e w w0 stats lat cpu mem up Hcache Hdown E1 E2 E3 E4 E5 Hdue w'.
  assert (Hguard : ispCheckDue (Some mockIpInfo) (check_now e) (lastIspCheck w) = true).
  { unfold ispCheckDue. cbn.
    destruct (Z.leb_spec ISP_CHECK_INTERVAL (check_now e - lastIspCheck w));
      [reflexivity|lia]. }
  split; [exact Hguard|].
  destruct (subFetches_run e w) as [w2 [info [Hhist [Hinfo [Hframe Hjoin]]]]].
  rewrite E1, E2, E3, E4, E5 in Hjoin.
  assert (info = mockIpInfo) as ->.
  { destruct (getPublicIpInfo_spec (publicIp_call e 0%nat) w2 w0) as [Hres _].
    cbn zeta in Hres. destruct Hhist as [_ [Hc _]].
    rewrite Hc, Hcache in Hres. cbn [cacheFresh] in Hres.
    rewrite (firstSuccess_none w0 _ Hdown) in Hres. congruence. }
  pose proof (getNetworkMetrics_join_fulfilled e w stats lat mockIpInfo cpu mem up Hjoin)
    as Hrun.
  cbn zeta in Hrun. set (wj := snd (subFetches e w)) in *.
  assert (Hlast : lastIspCheck wj = lastIspCheck w) by (destruct Hframe; tauto).
  rewrite Hlast, Hguard in Hrun.
  change (isp mockIpInfo) with "Unknown" in Hrun.
  change (ip mockIpInfo) with "000.000.000.000" in Hrun.
  set (wc := snd (checkAndLogIspChange (check_db e) "Unknown" "000.000.000.000" wj)) in *.
  assert (Hw' : swap w' = swap wc /\ lastIspCheck w' = check_now e).
  { unfold w'. rewrite Hrun.
    destruct (pool (set_lastIspCheck (check_now e) wc)); [|split; reflexivity].
    destruct (now_ok e); [|split; reflexivity].
    destruct stats; split; reflexivity. }
  destruct Hw' as [Hswap Hcheck].
  exists wj. split; [exact Hframe|]. split; [exact Hswap|]. split; [exact Hcheck|].
  intros Hp Hs Hu Hi Hne. rewrite Hswap. unfold wc.
  destruct Hframe as [Hpj [Hsj _]].
  apply checkAndLogIspChange_transition; try assumption.
  - congruence.
  - rewrite Hsj. exact Hne.
Qed.

(** ** Scheduler and Broadcaster *)

Lemma skipn_length_self {A} (l : list A) : skipn (List.length l) l = [].
Proof. induction l; cbn; auto. Qed.

(** C3 (amended): a tick of the monitoring loop assigns to
    [currentMetrics] whatever [getNetworkMetrics] returned, null included.
    After it a push tick, or a new connection, sends that snapshot when
    there is one (and for the push tick the socket is open), and sends
    nothing when the sample was null. *)
Theorem monitoringTick_publishes_sample :
  forall (e : SampleEnv) (w : World) (client : nat) (isOpen : bool),
    exists m,
      fst (getNetworkMetrics e w) = Ok m /\
      fst (monitoringTick e w) = Ok tt /\
      currentMetrics (snd (monitoringTick e w)) = m /\
      events_of (pushTick client isOpen) (snd (monitoringTick e w)) =
        match m with
        | Some s => if isOpen then [WsSend client s] else []
        | None => []
        end /\
      events_of (onConnection client) (snd (monitoringTick e w)) =
        match m with
        | Some s => [WsSend client s]
        | None => []
        end.
Proof.
  intros e w client isOpen.
  destruct (getNetworkMetrics_returns e w) as [m Hm]. exists m.
  split; [exact Hm|].
  unfold monitoringTick, try_catch, bind, modify.
  destruct (getNetworkMetrics e w) as [r w1]. cbn [fst snd] in *. subst r.
  cbn [fst snd]. split; [reflexivity|]. split; [reflexivity|].
  unfold events_of, pushTick, onConnection, ws_send, bind, gets, modify, ret.
  cbn [fst snd currentMetrics set_currentMetrics trace].
  destruct m as [s|]; [destruct isOpen|]; cbn [fst snd trace emit];
    split; try apply skipn_app_length; apply skipn_length_self.
Qed.

(** * Further properties *)

(** ** Query routes *)

Lemma insert_desc_perm r l : Permutation (insert_desc r l) (r :: l).
Proof.
  induction l as [|x l IH]; cbn; [apply Permutation_refl|].
  destruct (Swap.timestamp x <? Swap.timestamp r); [apply Permutation_refl|].
  eapply Permutation_trans; [apply perm_skip, IH|apply perm_swap].
Qed.

Lemma order_by_timestamp_desc_perm rows :
  Permutation (order_by_timestamp_desc rows) rows.
Proof.
  induction rows as [|r rows IH]; cbn; [constructor|].
  eapply Permutation_trans; [apply insert_desc_perm|]. apply perm_skip, IH.
Qed.

(** On a table whose timestamps grow, [ORDER BY timestamp DESC] is the
    table read backwards. *)
Lemma insert_desc_newest r l :
  Forall (fun x => Swap.timestamp r < Swap.timestamp x) l ->
  insert_desc r l = l ++ [r].
Proof.
  induction 1 as [|x l Hx _ IH]; cbn; [reflexivity|].
  destruct (Z.ltb_spec (Swap.timestamp x) (Swap.timestamp r)); [lia|].
  rewrite IH. reflexivity.
Qed.

Lemma order_by_timestamp_desc_sorted rows :
  ts_sorted rows -> order_by_timestamp_desc rows = rev rows.
Proof.
  unfold ts_sorted. induction rows as [|r rows IH]; intros H; [reflexivity|].
  cbn [map] in H. inversion H as [|? ? Hs Hr]; subst.
  change (order_by_timestamp_desc (r :: rows))
    with (insert_desc r (order_by_timestamp_desc rows)).
  rewrite (IH Hs). cbn [rev].
  apply insert_desc_newest. apply Forall_rev.
  apply Forall_map with (f := Swap.timestamp) (P := fun t => Swap.timestamp r < t).
  exact Hr.
Qed.

Lemma observeAll_pool calls : forall w, pool (snd (observeAll calls w)) = pool w.
Proof.
  induction calls as [|c rest IH]; intros w; [reflexivity|].
  rewrite observeAll_cons, IH.
  apply (checkAndLogIspChange_vars (obs_db c) (obs_isp c) (obs_ip c) w).
Qed.

(** The table a run of the detector leaves, started on an empty table. *)
Lemma observeAll_table (sql_eq_refl : forall s, sql_eq s s = true) done todo w :
  swap w = [] ->
  clock_increasing (done ++ todo) ->
  ts_sorted (swap (snd (observeAll done w))) /\
  only_last_active (swap (snd (observeAll done w))).
Proof.
  intros Hempty Hc.
  apply (observeAll_invariant sql_eq_refl done w).
  - rewrite Hempty. constructor.
  - rewrite Hempty. constructor.
  - rewrite Hempty. apply Forall_forall. intros; constructor.
  - unfold clock_increasing in *. rewrite map_app in Hc.
    eapply sorted_prefix; eassumption.
Qed.

Lemma select_run {A} (result : World -> A) w :
  pool w = true -> select true result w = (Ok (result w), w).
Proof. unfold select. intros ->. reflexivity. Qed.

Lemma latestSwaps_In before rows r :
  In r (latestSwaps before rows) -> In r rows.
Proof.
  revert before. induction rows as [|x after IH]; cbn; intros before H; [exact H|].
  destruct (first_of_partition before after x).
  - destruct H as [H|H]; [left; exact H|right; eapply IH; exact H].
  - right. eapply IH. exact H.
Qed.

(** The rows [rn = 1] of [l1 ++ l2]: some rows of [l1], then those of [l2]. *)
Lemma latestSwaps_app before l1 l2 :
  exists kept,
    latestSwaps before (l1 ++ l2) = kept ++ latestSwaps (before ++ l1) l2 /\
    Forall (fun r => In r l1) kept.
Proof.
  revert before. induction l1 as [|x l1 IH]; intros before.
  - exists []. rewrite app_nil_r. split; [reflexivity|constructor].
  - destruct (IH (before ++ [x])) as [kept [E Hin]].
    cbn [app latestSwaps]. rewrite E, <- app_assoc. cbn [app].
    assert (Hin' : Forall (fun r => In r (x :: l1)) kept).
    { eapply Forall_impl; [|exact Hin]. intros r Hr. right. exact Hr. }
    destruct (first_of_partition before (l1 ++ l2) x).
    + exists (x :: kept). split; [reflexivity|].
      constructor; [left; reflexivity|exact Hin'].
    + exists kept. split; [reflexivity|exact Hin'].
Qed.

Lemma latestSwaps_sorted before rows :
  ts_sorted rows -> ts_sorted (latestSwaps before rows).
Proof.
  unfold ts_sorted. revert before.
  induction rows as [|x after IH]; cbn; intros before H; [constructor|].
  inversion H as [|? ? Hs Hx]; subst.
  destruct (first_of_partition before after x); [|apply IH; exact Hs].
  cbn. constructor; [apply IH; exact Hs|].
  apply Forall_map. apply Forall_forall. intros r Hr.
  apply latestSwaps_In in Hr.
  rewrite Forall_forall in Hx. apply Hx. apply in_map. exact Hr.
Qed.

(** In a list of which only the last row may be active, read backwards,
    no row after the first is active. *)
Lemma rev_only_first_active (kept : list Swap.row) (tail : list Swap.row) i r :
  Forall (fun r => Swap.uplink r <> 1) kept ->
  (tail = [] \/ exists x, tail = [x]) ->
  nth_error (rev (kept ++ tail)) (S i) = Some r ->
  Swap.uplink r <> 1.
Proof.
  intros Hkept Htail Hnth.
  assert (Hin : In r (rev kept)).
  { destruct Htail as [->|[x ->]].
    - rewrite app_nil_r in Hnth. eapply nth_error_In. exact Hnth.
    - rewrite rev_app_distr in Hnth. cbn in Hnth. eapply nth_error_In. exact Hnth. }
  apply in_rev in Hin. rewrite Forall_forall in Hkept. apply Hkept, Hin.
Qed.

Section RouteProperties.

Variable formatTimestamp : Z -> string.


(** X2: after any run of the detector from an empty table, no entry of
    /api/active-isps after the first is marked active. *)
Theorem activeIsps_after_run :
  forall (done todo : list Observation) (w : World),
    (forall s, sql_eq s s = true) ->
    swap w = [] ->
    pool w = true ->
    clock_increasing (done ++ todo) ->
    let w1 := snd (observeAll done w) in
    exists entries,
      fst (activeIspsRoute formatTimestamp true w1) = Ok (Json entries) /\
      forall i e, nth_error entries (S i) = Some e -> ActiveISP.is_active e <> 1.
Proof.
  intros done todo w Hrefl Hempty Hpool Hc w1.
  destruct (observeAll_table Hrefl done todo w Hempty Hc) as [Hs Ha]. fold w1 in Hs, Ha.
  assert (Hp1 : pool w1 = true) by (unfold w1; rewrite observeAll_pool; exact Hpool).
  eexists. split.
  - unfold activeIspsRoute, try_catch, bind, gets, when, ret. rewrite Hp1. cbn [negb].
    rewrite (select_run _ w1 Hp1). cbv beta. cbn [fst snd].
    rewrite (order_by_timestamp_desc_sorted _ (latestSwaps_sorted [] _ Hs)).
    reflexivity.
  - intros i e Hnth. rewrite nth_error_map in Hnth.
    destruct (nth_error (rev (latestSwaps [] (swap w1))) (S i)) as [r|] eqn:Hr;
      [|discriminate].
    injection Hnth as <-. cbn.
    unfold only_last_active in Ha.
    destruct (swap w1) as [|r0 rows0] eqn:Hrows using rev_ind.
    + destruct i; discriminate.
    + clear IHrows0. rewrite removelast_last in Ha.
      destruct (latestSwaps_app [] rows0 [r0]) as [kept [E Hin]].
      rewrite E in Hr.
      apply (rev_only_first_active kept (latestSwaps ([] ++ rows0) [r0]) i r).
      * rewrite Forall_forall in *. intros x Hx. apply Ha, Hin, Hx.
      * cbn. destruct (first_of_partition _ _ _); [right; eauto|left; reflexivity].
      * exact Hr.
Qed.

End RouteProperties.

(** *** Each ISP once *)

Lemma latestSwaps_kept_before before rows r :
  In r (latestSwaps before rows) ->
  Forall (fun r' => sql_eq (Swap.isp r') (Swap.isp r) = true ->
                    Swap.timestamp r' <= Swap.timestamp r) before.
Proof.
  revert before. induction rows as [|x after IH]; cbn; intros before H; [contradiction|].
  assert (Hrec : In r (latestSwaps (before ++ [x]) after) ->
                 Forall (fun r' => sql_eq (Swap.isp r') (Swap.isp r) = true ->
                                   Swap.timestamp r' <= Swap.timestamp r) before).
  { intros Hin. apply IH in Hin. apply Forall_app in Hin. apply Hin. }
  destruct (first_of_partition before after x) eqn:Hfirst; [|exact (Hrec H)].
  destruct H as [<-|H]; [|exact (Hrec H)].
  unfold first_of_partition in Hfirst. apply andb_prop in Hfirst.
  destruct Hfirst as [Hb _]. rewrite forallb_forall in Hb.
  apply Forall_forall. intros r' Hin Heq. specialize (Hb r' Hin).
  rewrite Heq in Hb. cbn in Hb. apply Z.leb_le. exact Hb.
Qed.

Section Symmetric.

(** The collation's equality does not depend on the order of its
    arguments. *)
Hypothesis sql_eq_sym : forall a b, sql_eq a b = sql_eq b a.

Lemma latestSwaps_distinct before rows :
  ForallOrdPairs (fun a b => sql_eq (Swap.isp a) (Swap.isp b) = false)
                 (latestSwaps before rows).
Proof.
  revert before. induction rows as [|x after IH]; cbn; intros before; [constructor|].
  destruct (first_of_partition before after x) eqn:Hfirst; [|apply IH].
  constructor; [|apply IH].
  apply Forall_forall. intros r Hr.
  destruct (sql_eq (Swap.isp x) (Swap.isp r)) eqn:Heq; [exfalso|reflexivity].
  pose proof (latestSwaps_kept_before _ _ _ Hr) as Hbefore.
  apply Forall_app in Hbefore. destruct Hbefore as [_ Hx].
  inversion Hx as [|? ? Hle _]; subst. specialize (Hle Heq).
  apply latestSwaps_In in Hr.
  unfold first_of_partition in Hfirst. apply andb_prop in Hfirst.
  destruct Hfirst as [_ Ha]. rewrite forallb_forall in Ha. specialize (Ha r Hr).
  rewrite sql_eq_sym, Heq in Ha. cbn in Ha. apply Z.ltb_lt in Ha. lia.
Qed.

Lemma insert_desc_distinct r l :
  Forall (fun b => sql_eq (Swap.isp r) (Swap.isp b) = false) l ->
  ForallOrdPairs (fun a b => sql_eq (Swap.isp a) (Swap.isp b) = false) l ->
  ForallOrdPairs (fun a b => sql_eq (Swap.isp a) (Swap.isp b) = false) (insert_desc r l).
Proof.
  induction l as [|x l IH]; cbn; intros Hr Hl.
  - constructor; constructor.
  - inversion Hr as [|? ? Hrx Hrl]; subst. inversion Hl as [|? ? Hxl Hl']; subst.
    destruct (Swap.timestamp x <? Swap.timestamp r).
    + constructor; [constructor; assumption|constructor; assumption].
    + constructor; [|apply IH; assumption].
      eapply Permutation_Forall; [apply Permutation_sym, insert_desc_perm|].
      constructor; [rewrite sql_eq_sym; exact Hrx|exact Hxl].
Qed.

Lemma order_by_timestamp_desc_distinct rows :
  ForallOrdPairs (fun a b => sql_eq (Swap.isp a) (Swap.isp b) = false) rows ->
  ForallOrdPairs (fun a b => sql_eq (Swap.isp a) (Swap.isp b) = false)
                 (order_by_timestamp_desc rows).
Proof.
  induction 1 as [|r rows Hr _ IH]; [constructor|].
  change (order_by_timestamp_desc (r :: rows))
    with (insert_desc r (order_by_timestamp_desc rows)).
  apply insert_desc_distinct; [|exact IH].
  eapply Permutation_Forall; [apply Permutation_sym, order_by_timestamp_desc_perm|].
  exact Hr.
Qed.

(** X3: whatever the table holds, no two entries of an answer of
    /api/active-isps carry the same ISP (the same for the collation). *)
Theorem activeIsps_each_isp_once :
  forall (formatTimestamp : Z -> string) (ok : bool) (w : World)
         (entries : list ActiveISP.entry),
    fst (activeIspsRoute formatTimestamp ok w) = Ok (Json entries) ->
    ForallOrdPairs
      (fun a b => sql_eq (ActiveISP.isp a) (ActiveISP.isp b) = false) entries.
Proof.
  intros fmt ok w entries.
  unfold activeIspsRoute, try_catch, bind, gets, when, ret, throw, select, console_error,
    modify.
  intros H. destruct (pool w) eqn:Hp; cbn in H; rewrite ?Hp in H;
    destruct ok; cbn in H; try discriminate.
  injection H as <-.
  pose proof (order_by_timestamp_desc_distinct _ (latestSwaps_distinct [] (swap w))) as Hd.
  induction Hd as [|r rows Hr _ IH]; cbn; constructor; [|exact IH].
  apply Forall_map. exact Hr.
Qed.

End Symmetric.

(** *** The 7-day counts *)





Lemma uptimeRatio_bounds up total :
  0 <= up <= total -> 0 < total ->
  (0 <= uptimeRatio up total)%Q /\ (uptimeRatio up total <= 100)%Q.
Proof.
  intros Hup Htotal. unfold uptimeRatio.
  destruct total as [|t|t]; try lia.
  unfold Qle, Qdiv, Qmult, Qinv, inject_Z. cbn. split; nia.
Qed.

Lemma filter_length_le {A} (f : A -> bool) l :
  (List.length (filter f l) <= List.length l)%nat.
Proof.
  induction l as [|a l IH]; cbn; [lia|]. destruct (f a); cbn; lia.
Qed.

Lemma filter_and_length_le {A} (f g : A -> bool) l :
  (List.length (filter (fun a => f a && g a) l) <= List.length (filter g l))%nat.
Proof.
  induction l as [|a l IH]; cbn; [lia|].
  destruct (f a), (g a); cbn; lia.
Qed.

(** X5: /api/internet-uptime-7d never throws; the counts it answers with
    satisfy [0 <= upCount <= totalCount], the dashboard shows no percentage
    exactly when [totalCount] is zero, and otherwise the number it formats
    lies between 0 and 100.  The error body shows no percentage. *)
Theorem uptime_percentage_in_range :
  forall (ok : bool) (now : Z) (w : World),
    exists body,
      fst (internetUptime7dRoute ok now w) = Ok body /\
      match body with
      | UptimeCounts up total =>
          0 <= up <= total /\
          total <= Z.of_nat (List.length (gateway_log w)) /\
          (total = 0 -> uptimePercentage (Some body) = None) /\
          (total <> 0 ->
           uptimePercentage (Some body) = Some (toFixed2 (uptimeRatio up total)) /\
           (0 <= uptimeRatio up total)%Q /\ (uptimeRatio up total <= 100)%Q)
      | UptimeError _ =>
          uptimePercentage (Some body) = None /\ (pool w = false \/ ok = false)
      end.
Proof.
  intros ok now w.
  unfold internetUptime7dRoute, try_catch, bind, gets, when, ret, throw, select,
    console_error, modify.
  destruct (pool w) eqn:Hp; cbn; rewrite ?Hp.
  - destruct ok; cbn.
    + eexists. split; [reflexivity|].
      assert (Hle : 0 <= upCount7d now (gateway_log w) <= totalCount7d now (gateway_log w)).
      { unfold upCount7d, totalCount7d.
        pose proof (filter_and_length_le
                      (fun r => sql_eq (GatewayLog.status r) "up")
                      (fun r => within7d now (GatewayLog.timestamp r)) (gateway_log w))
          as Hfilter.
        cbv beta in Hfilter. lia. }
      split; [exact Hle|]. split.
      { unfold totalCount7d.
        pose proof (filter_length_le
                      (fun r => within7d now (GatewayLog.timestamp r)) (gateway_log w)).
        lia. }
      split.
      * intros E. unfold uptimePercentage. rewrite E. reflexivity.
      * intros Hne. unfold uptimePercentage.
        destruct (Z.gtb_spec (totalCount7d now (gateway_log w)) 0) as [Hgt|Hngt]; [|lia].
        split; [reflexivity|]. apply uptimeRatio_bounds; lia.
    + eexists. split; [reflexivity|]. split; [reflexivity|right; reflexivity].
  - eexists. split; [reflexivity|]. split; [reflexivity|left; reflexivity].
Qed.

(** ** GatewayProbe and the uptime counts *)

Lemma logGatewayStatus_log g w :
  gateway_log (snd (logGatewayStatus g w)) =
  gateway_log w ++
    (if pool w then
       match probe g with
       | Ok alive =>
           if insert_status_ok g
           then [GatewayLog.mk (if alive then "up" else "down") (insert_status_time g)]
           else fallback_rows g
       | Throw _ => fallback_rows g
       end
     else []).
Proof.
  split_world w.
  unfold logGatewayStatus, insert_gateway_log, ping_probe, query, settle, try_catch,
    bind, gets, modify, ret, throw, console_error, fallback_rows.
  destruct p; crunch; [|rewrite app_nil_r; reflexivity].
  destruct (probe g) as [alive|err]; crunch;
    [destruct (insert_status_ok g); crunch|];
    try destruct (insert_down_ok g); crunch; rewrite ?app_nil_r; reflexivity.
Qed.

Lemma upCount7d_app now rows added :
  upCount7d now (rows ++ added) = upCount7d now rows + upCount7d now added.
Proof. unfold upCount7d. rewrite filter_app, length_app. lia. Qed.

Lemma totalCount7d_app now rows added :
  totalCount7d now (rows ++ added) = totalCount7d now rows + totalCount7d now added.
Proof. unfold totalCount7d. rewrite filter_app, length_app. lia. Qed.

Lemma upCount7d_single now status t :
  upCount7d now [GatewayLog.mk status t] =
  if sql_eq status "up" && within7d now t then 1 else 0.
Proof.
  unfold upCount7d. cbn. destruct (sql_eq status "up" && within7d now t); reflexivity.
Qed.

Lemma totalCount7d_single now status t :
  totalCount7d now [GatewayLog.mk status t] = if within7d now t then 1 else 0.
Proof. unfold totalCount7d. cbn. destruct (within7d now t); reflexivity. Qed.

(** X6: one run of the gateway logger raises each of the two counts that
    /api/internet-uptime-7d answers by one at most, the count of "up" rows
    never by more than the total; the count of "up" rows rises exactly
    when there is a pool, the ping was answered, the insert of the status
    ran and its timestamp lies in the window. *)
Theorem uptime_counts_follow_logger :
  forall (g : GatewayEnv) (now : Z) (w : World),
    sql_eq "up" "up" = true -> sql_eq "down" "up" = false ->
    let w' := snd (logGatewayStatus g w) in
    let up := upCount7d now (gateway_log w) in
    let up' := upCount7d now (gateway_log w') in
    let total := totalCount7d now (gateway_log w) in
    let total' := totalCount7d now (gateway_log w') in
    (total' = total \/ total' = total + 1) /\
    0 <= up' - up <= total' - total /\
    (up' = up + 1 <->
     pool w = true /\ probe g = Ok true /\ insert_status_ok g = true /\
     within7d now (insert_status_time g) = true).
Proof.
  intros g now w Hup Hdown. cbn zeta.
  rewrite logGatewayStatus_log, upCount7d_app, totalCount7d_app.
  set (added := if pool w then _ else _).
  assert (Ha : 0 <= upCount7d now added <= totalCount7d now added /\
               totalCount7d now added <= 1 /\
               (upCount7d now added = 1 <->
                pool w = true /\ probe g = Ok true /\ insert_status_ok g = true /\
                within7d now (insert_status_time g) = true)).
  { unfold added, fallback_rows.
    destruct (pool w); [destruct (probe g) as [[|]|err]; [destruct (insert_status_ok g)..|]|];
      try destruct (insert_down_ok g);
      rewrite ?upCount7d_single, ?totalCount7d_single, ?Hup, ?Hdown; cbn [andb];
      try destruct (within7d now (insert_status_time g));
      try destruct (within7d now (insert_down_time g));
      change (upCount7d now []) with 0; change (totalCount7d now []) with 0;
      (split; [lia|]); (split; [lia|]);
      (split; [intros E; try (exfalso; lia); repeat split; reflexivity
              |intros [E1 [E2 [E3 E4]]]; try reflexivity; discriminate]). }
  destruct Ha as [Hrange [Hone Hiff]].
  split; [lia|]. split; [lia|].
  split; [intros E; apply Hiff; lia|intros E; apply Hiff in E; lia].
Qed.

(** X7: for the same answer of the ping, and when the insert of the status
    runs, the rows the gateway logger adds carry the status that
    /api/gateway-status reports; the route reports "up" only for a gateway
    that answered, answers with status 500 exactly when the ping rejects,
    and never writes to the log. *)
Theorem logger_records_what_route_reports :
  forall (g : GatewayEnv) (w w0 : World),
    pool w = true -> insert_status_ok g = true ->
    exists code status added,
      fst (gatewayStatusRoute (probe g) w0) = Ok (code, status) /\
      gateway_log (snd (gatewayStatusRoute (probe g) w0)) = gateway_log w0 /\
      (status = "up" <-> probe g = Ok true) /\
      (code = 500 <-> exists err, probe g = Throw err) /\
      gateway_log (snd (logGatewayStatus g w)) = gateway_log w ++ added /\
      (List.length added <= 1)%nat /\
      Forall (fun r => GatewayLog.status r = status) added.
Proof.
  intros g w w0 Hp Hok.
  pose proof (logGatewayStatus_log g w) as Hlog. rewrite Hp, Hok in Hlog.
  unfold gatewayStatusRoute, ping_probe, settle, try_catch, bind, modify, ret,
    console_error.
  destruct (probe g) as [alive|err]; cbn [fst snd].
  - exists 200, (if alive then "up" else "down"),
      [GatewayLog.mk (if alive then "up" else "down") (insert_status_time g)].
    split; [reflexivity|]. split; [reflexivity|].
    split; [destruct alive; split; intros E; try reflexivity; discriminate E|].
    split; [split; [intros E; discriminate E|intros [e E]; discriminate E]|].
    split; [exact Hlog|]. split; [cbn; lia|].
    constructor; [reflexivity|constructor].
  - exists 500, "down", (fallback_rows g).
    split; [reflexivity|]. split; [reflexivity|].
    split; [split; intros E; discriminate E|].
    split; [split; [intros _; exists err; reflexivity|reflexivity]|].
    split; [exact Hlog|].
    unfold fallback_rows. destruct (insert_down_ok g); cbn;
      (split; [lia|]); repeat constructor.
Qed.

(** ** MetricsAggregator: the retry schedule *)

Lemma retryLoop_settle {A} (call : nat -> Result A) (retries k : nat) :
  (k < retries)%nat ->
  (forall i, (i < k)%nat -> exists err, call i = Throw err) ->
  (exists v, call k = Ok v) \/ S k = retries ->
  forall left i w,
    (i + left)%nat = retries -> (i <= k)%nat ->
    exists w',
      retryLoop (fun i => settle (call i)) retries i left w =
        (match call k with Ok v => Ok (Some v) | Throw e => Throw e end, w') /\
      trace w' = trace w ++
                 map Timeout (map (fun i => 1000 * (Z.of_nat i + 1)) (seq i (k - i))) /\
      only_history w w'.
Proof.
  intros Hk Hfail Hend. induction left as [|left IH]; intros i w Hsum Hik; [lia|].
  cbn [retryLoop]. unfold try_catch, bind, settle, ret.
  destruct (Nat.eq_dec i k) as [->|Hne].
  - rewrite Nat.sub_diag. cbn [seq map]. rewrite app_nil_r.
    destruct (call k) as [v|err] eqn:Ek.
    + exists w. split; [reflexivity|]. split; [reflexivity|apply only_history_refl].
    + destruct Hend as [[v Hv]|Hlast]; [discriminate Hv|].
      rewrite Hlast, Nat.eqb_refl. unfold throw.
      exists w. split; [reflexivity|]. split; [reflexivity|apply only_history_refl].
  - destruct (Hfail i) as [err Herr]; [lia|]. rewrite Herr.
    destruct (Nat.eqb_spec (S i) retries) as [E|_]; [lia|].
    unfold setTimeout, modify. cbn [fst snd].
    destruct (IH (S i) (emit (Timeout (1000 * (Z.of_nat i + 1))) w)) as [w' [Hrun [Htr Hh]]];
      [lia|lia|].
    exists w'. split; [exact Hrun|]. split.
    + rewrite Htr. replace (k - i)%nat with (S (k - S i)) by lia.
      split_world w. cbn. rewrite <- app_assoc. reflexivity.
    + eapply only_history_trans; [|exact Hh].
      split_world w. unfold only_history, frame. cbn. repeat split; reflexivity.
Qed.

(** X8: [getMetricsWithRetry] around a fetch that is rejected [k] times and
    then fulfilled, or rejected at each of the [retries] calls
    ([k = retries - 1]): the result is the answer of call [k], the value
    or the last rejection; the caller has waited 1000, 2000, ..., 1000 k
    milliseconds, once after each rejection but the last of an exhausted
    budget; and nothing of the module but the history has changed. *)
Theorem getMetricsWithRetry_backoff :
  forall (A : Type) (call : nat -> Result A) (retries k : nat) (w : World),
    (k < retries)%nat ->
    (forall i, (i < k)%nat -> exists err, call i = Throw err) ->
    (exists v, call k = Ok v) \/ S k = retries ->
    let m := getMetricsWithRetry (fun i => settle (call i)) retries in
    fst (m w) = match call k with Ok v => Ok (Some v) | Throw e => Throw e end /\
    events_of m w = map Timeout (backoff k) /\
    only_history w (snd (m w)).
Proof.
  intros A call retries k w Hk Hfail Hend. cbn zeta. unfold getMetricsWithRetry.
  destruct (retryLoop_settle call retries k Hk Hfail Hend retries 0%nat w)
    as [w' [Hrun [Htr Hh]]]; [lia|lia|].
  rewrite Nat.sub_0_r in Htr.
  split; [rewrite Hrun; reflexivity|].
  split; [|rewrite Hrun; exact Hh].
  apply events_of_app. rewrite Hrun. exact Htr.
Qed.

(** ** Without a pool *)

Lemma subFetches_cases e w :
  (exists err, fst (subFetches e w) = Throw err) \/
  (exists stats lat info cpu mem up,
      fst (subFetches e w) =
        Ok (Some stats, (Some lat, (Some info, (Some cpu, (Some mem, Some up)))))).
Proof.
  destruct (subFetches_run e w) as [w2 [info [_ [_ [_ H]]]]]. rewrite H.
  destruct (retried (networkStats_call e)); [|left; eauto].
  destruct (retried (inetLatency_call e)); [|left; eauto].
  destruct (retried (currentLoad_call e)); [|left; eauto].
  destruct (retried (mem_call e)); [|left; eauto].
  destruct (retried (time_call e)); [|left; eauto].
  right. do 6 eexists. reflexivity.
Qed.

Lemma checkAndLogIspChange_gateway_log db newIsp newIp w :
  gateway_log (snd (checkAndLogIspChange db newIsp newIp w)) = gateway_log w.
Proof.
  split_world w. run_detector.
  destruct p; cbn; [|reflexivity].
  destruct (select_ok db); cbn; [|reflexivity].
  destruct (top1_by_timestamp rows) as [r|]; cbn.
  - destruct (Swap.isp r =? newIsp)%string; cbn; [reflexivity|].
    destruct (update_ok db); cbn; [|reflexivity].
    destruct (insert_ok db); reflexivity.
  - destruct (insert_ok db); reflexivity.
Qed.

(** What one sample leaves of the module's variables outside the
    resolver. *)
Lemma getNetworkMetrics_vars e w :
  let w' := snd (getNetworkMetrics e w) in
  pool w' = pool w /\ gateway_log w' = gateway_log w /\
  currentMetrics w' = currentMetrics w /\
  (lastIspCheck w' = lastIspCheck w /\ swap w' = swap w \/
   ISP_CHECK_INTERVAL <= check_now e - lastIspCheck w /\
   lastIspCheck w' = check_now e /\
   exists info,
     truthy (isp info) = true /\ truthy (ip info) = true /\
     swap w' = swap (snd (checkAndLogIspChange (check_db e) (isp info) (ip info)
                            (snd (subFetches e w))))).
Proof.
  cbn zeta.
  destruct (subFetches_run e w) as [_ [_ [_ [_ [[Fp [Fs [Fg [Fl Fc]]]] _]]]]].
  destruct (subFetches_cases e w) as [[err H]|[stats [lat [info [cpu [mem [up H]]]]]]].
  - rewrite (getNetworkMetrics_join_rejected e w err H). cbn [snd].
    split_world (snd (subFetches e w)). cbn in *. subst.
    repeat split; try reflexivity. left. split; reflexivity.
  - rewrite (getNetworkMetrics_join_fulfilled e w stats lat info cpu mem up H).
    set (wj := snd (subFetches e w)) in *.
    destruct (ispCheckDue (Some info) (check_now e) (lastIspCheck wj)) eqn:Hdue.
    + destruct (checkAndLogIspChange_vars (check_db e) (isp info) (ip info) wj)
        as [Vp [Vl Vc]]. cbn zeta in *.
      pose proof (checkAndLogIspChange_gateway_log (check_db e) (isp info) (ip info) wj)
        as Vg.
      set (wc := snd (checkAndLogIspChange (check_db e) (isp info) (ip info) wj)) in *.
      unfold ispCheckDue in Hdue. apply andb_prop in Hdue. destruct Hdue as [Hdue Hint].
      apply andb_prop in Hdue. destruct Hdue as [Hisp Hip].
      apply Z.leb_le in Hint. rewrite Fl in Hint.
      assert (Hgoal : forall wf : World,
                 pool wf = pool wc -> gateway_log wf = gateway_log wc ->
                 currentMetrics wf = currentMetrics wc -> lastIspCheck wf = check_now e ->
                 swap wf = swap wc ->
                 pool wf = pool w /\ gateway_log wf = gateway_log w /\
                 currentMetrics wf = currentMetrics w /\
                 (lastIspCheck wf = lastIspCheck w /\ swap wf = swap w \/
                  ISP_CHECK_INTERVAL <= check_now e - lastIspCheck w /\
                  lastIspCheck wf = check_now e /\
                  exists info0,
                    truthy (isp info0) = true /\ truthy (ip info0) = true /\
                    swap wf =
                    swap (snd (checkAndLogIspChange (check_db e) (isp info0) (ip info0) wj)))).
      { intros wf H1 H2 H3 H4 H5.
        split; [congruence|]. split; [congruence|]. split; [congruence|].
        right. split; [exact Hint|]. split; [exact H4|]. exists info.
        split; [exact Hisp|]. split; [exact Hip|exact H5]. }
      split_world wc. cbn [pool set_lastIspCheck emit].
      destruct p; [destruct (now_ok e); [destruct stats|]|]; cbn [snd];
        apply Hgoal; reflexivity.
    + assert (Hgoal : forall wf : World,
                 pool wf = pool wj -> gateway_log wf = gateway_log wj ->
                 currentMetrics wf = currentMetrics wj ->
                 lastIspCheck wf = lastIspCheck wj -> swap wf = swap wj ->
                 pool wf = pool w /\ gateway_log wf = gateway_log w /\
                 currentMetrics wf = currentMetrics w /\
                 (lastIspCheck wf = lastIspCheck w /\ swap wf = swap w \/
                  ISP_CHECK_INTERVAL <= check_now e - lastIspCheck w /\
                  lastIspCheck wf = check_now e /\
                  exists info0,
                    truthy (isp info0) = true /\ truthy (ip info0) = true /\
                    swap wf =
                    swap (snd (checkAndLogIspChange (check_db e) (isp info0) (ip info0) wj)))).
      { intros wf H1 H2 H3 H4 H5.
        split; [congruence|]. split; [congruence|]. split; [congruence|].
        left. split; congruence. }
      split_world wj. cbn [pool emit].
      destruct p; [destruct (now_ok e); [destruct stats|]|]; cbn [snd];
        apply Hgoal; reflexivity.
Qed.

Lemma getNetworkMetrics_no_pool e w :
  pool w = false -> fst (getNetworkMetrics e w) = Ok None.
Proof.
  intros Hp.
  destruct (subFetches_run e w) as [_ [_ [_ [_ [[Fp _] _]]]]].
  destruct (subFetches_cases e w) as [[err H]|[stats [lat [info [cpu [mem [up H]]]]]]].
  - rewrite (getNetworkMetrics_join_rejected e w err H). reflexivity.
  - rewrite (getNetworkMetrics_join_fulfilled e w stats lat info cpu mem up H).
    set (wj := snd (subFetches e w)) in *.
    assert (Hw1 : pool (if ispCheckDue (Some info) (check_now e) (lastIspCheck wj)
                        then set_lastIspCheck (check_now e)
                               (snd (checkAndLogIspChange (check_db e) (isp info) (ip info) wj))
                        else wj) = false).
    { destruct (ispCheckDue (Some info) (check_now e) (lastIspCheck wj)); [|congruence].
      destruct (checkAndLogIspChange_vars (check_db e) (isp info) (ip info) wj) as [Vp _].
      cbn zeta in Vp.
      destruct (snd (checkAndLogIspChange (check_db e) (isp info) (ip info) wj)).
      cbn in *. congruence. }
    rewrite Hw1. reflexivity.
Qed.

Lemma checkAndLogIspChange_no_pool db newIsp newIp w :
  pool w = false -> swap (snd (checkAndLogIspChange db newIsp newIp w)) = swap w.
Proof.
  intros Hp. split_world w. cbn in Hp. subst. run_detector. reflexivity.
Qed.

(** X9: without a pool every tick of the monitoring loop publishes null:
    the current snapshot is null afterwards, there is still no pool, the
    tables are as they were, and a push to a subscriber sends nothing. *)
Theorem no_pool_no_snapshot :
  forall (e : SampleEnv) (w : World),
    pool w = false ->
    let w' := snd (monitoringTick e w) in
    fst (monitoringTick e w) = Ok tt /\
    currentMetrics w' = None /\ pool w' = false /\
    swap w' = swap w /\ gateway_log w' = gateway_log w /\
    forall client isOpen, events_of (pushTick client isOpen) w' = [].
Proof.
  intros e w Hp. cbn zeta.
  pose proof (getNetworkMetrics_no_pool e w Hp) as Hnone.
  destruct (getNetworkMetrics_vars e w) as [Vp [Vg [_ Vs]]]. cbn zeta in *.
  assert (Hswap : swap (snd (getNetworkMetrics e w)) = swap w).
  { destruct Vs as [[_ E]|[_ [_ [info [_ [_ E]]]]]]; [exact E|].
    rewrite E. rewrite checkAndLogIspChange_no_pool.
    - destruct (subFetches_run e w) as [_ [_ [_ [_ [[_ [Fs _]] _]]]]]. exact Fs.
    - destruct (subFetches_run e w) as [_ [_ [_ [_ [[Fp _] _]]]]]. congruence. }
  unfold monitoringTick, try_catch, bind, modify.
  destruct (getNetworkMetrics e w) as [r w1]. cbn [fst snd] in *. subst r.
  split_world w1. cbn in *.
  split; [reflexivity|]. split; [reflexivity|]. split; [congruence|].
  split; [congruence|]. split; [congruence|].
  intros client isOpen. unfold events_of, pushTick, bind, gets. cbn.
  apply skipn_length_self.
Qed.

(** ** Start-up *)

Lemma initializePool_run ok w :
  initializePool ok w =
  (Ok tt, if ok then set_pool true w
          else emit (ConsoleError "Error initializing database pool:") w).
Proof. destruct ok; reflexivity. Qed.

Lemma initializeDatabase_spec e w :
  let w' := snd (initializeDatabase e w) in
  fst (initializeDatabase e w) = Ok tt /\
  pool w' = pool w /\ swap w' = swap w /\ gateway_log w' = gateway_log w /\
  currentMetrics w' = currentMetrics w.
Proof.
  split_world w.
  unfold initializeDatabase, statement, select, connect, settle, try_catch, bind, gets,
    when, modify, ret, throw, console_error.
  destruct p; cbn; [|repeat split; reflexivity].
  destruct (version_ok e); cbn; [|repeat split; reflexivity].
  destruct (createDatabase_ok e); cbn; [|repeat split; reflexivity].
  destruct (close_ok e); cbn; [|repeat split; reflexivity].
  destruct (reconnect_ok e); cbn; [|repeat split; reflexivity].
  destruct (createSwap_ok e); cbn; [|repeat split; reflexivity].
  destruct (createGatewayLog_ok e); cbn; [|repeat split; reflexivity].
  destruct (createIndexes_ok e); cbn; repeat split; reflexivity.
Qed.

Lemma startServer_run e w :
  let w1 := snd (initializePool (connect_ok e) w) in
  let w2 := snd (initializeDatabase e w1) in
  let sample := getNetworkMetrics (initial_check e) w2 in
  exists m,
    fst sample = Ok m /\
    startServer e w = (Ok (LogGatewayEvery 60000), set_currentMetrics m (snd sample)).
Proof.
  cbn zeta. unfold startServer, startContinuousMonitoring, try_catch, bind.
  rewrite initializePool_run. cbn [fst snd].
  set (w1 := if connect_ok e then _ else _).
  destruct (initializeDatabase_spec e w1) as [R2 _]. cbn zeta in R2.
  destruct (initializeDatabase e w1) as [r2 w2]. cbn [fst snd] in *. subst r2.
  destruct (getNetworkMetrics_returns (initial_check e) w2) as [m Hm].
  destruct (getNetworkMetrics (initial_check e) w2) as [r3 w3]. cbn [fst snd] in *. subst r3.
  exists m. split; reflexivity.
Qed.

(** X10: [startServer] never reaches its catch, so it never schedules a
    restart: whatever the store and the probes answer it returns with the
    gateway logger scheduled every minute, and it adds nothing to the
    gateway log.  There is a pool afterwards exactly when there was one
    or the connection succeeded; when there is none, the current snapshot
    is null and the swap table is as it was. *)
Theorem startServer_never_restarts :
  forall (e : StartEnv) (w : World),
    let w' := snd (startServer e w) in
    fst (startServer e w) = Ok (LogGatewayEvery 60000) /\
    gateway_log w' = gateway_log w /\
    pool w' = pool w || connect_ok e /\
    (pool w = false -> connect_ok e = false ->
     currentMetrics w' = None /\ swap w' = swap w).
Proof.
  intros e w. cbn zeta.
  destruct (startServer_run e w) as [m [Hm Hrun]]. cbn zeta in *.
  rewrite Hrun. cbn [fst snd]. clear Hrun.
  rewrite initializePool_run in *. cbn [snd] in *.
  set (w1 := if connect_ok e then set_pool true w
             else emit (ConsoleError "Error initializing database pool:") w) in *.
  assert (H1 : pool w1 = pool w || connect_ok e /\ swap w1 = swap w /\
               gateway_log w1 = gateway_log w).
  { unfold w1. split_world w. destruct (connect_ok e), p; cbn; repeat split; reflexivity. }
  destruct H1 as [P1 [S1 G1]].
  destruct (initializeDatabase_spec e w1) as [_ [P2 [S2 [G2 _]]]]. cbn zeta in *.
  set (w2 := snd (initializeDatabase e w1)) in *.
  destruct (getNetworkMetrics_vars (initial_check e) w2) as [P3 [G3 [_ V3]]].
  cbn zeta in *.
  pose proof (getNetworkMetrics_no_pool (initial_check e) w2) as Hnone.
  assert (Hswap : pool w2 = false ->
                  swap (snd (getNetworkMetrics (initial_check e) w2)) = swap w2).
  { intros Hp. destruct V3 as [[_ E]|[_ [_ [info [_ [_ E]]]]]]; [exact E|].
    rewrite E. rewrite checkAndLogIspChange_no_pool.
    - destruct (subFetches_run (initial_check e) w2) as [_ [_ [_ [_ [[_ [Fs _]] _]]]]].
      exact Fs.
    - destruct (subFetches_run (initial_check e) w2) as [_ [_ [_ [_ [[Fp _] _]]]]].
      congruence. }
  set (w3 := snd (getNetworkMetrics (initial_check e) w2)) in *.
  assert (Hset : pool (set_currentMetrics m w3) = pool w3 /\
                 gateway_log (set_currentMetrics m w3) = gateway_log w3 /\
                 swap (set_currentMetrics m w3) = swap w3 /\
                 currentMetrics (set_currentMetrics m w3) = m)
    by (destruct w3; repeat split; reflexivity).
  destruct Hset as [E1 [E2 [E3 E4]]]. rewrite E1, E2, E3, E4.
  split; [reflexivity|]. split; [congruence|]. split; [congruence|].
  intros Hp Hc. rewrite Hp, Hc in P1. cbn in P1.
  assert (Hp2 : pool w2 = false) by congruence.
  specialize (Hnone Hp2). rewrite Hnone in Hm. injection Hm as <-.
  split; [reflexivity|]. rewrite (Hswap Hp2). congruence.
Qed.

(** ** HTTP requests *)

Lemma requests_app a b : requests (a ++ b) = (requests a + requests b)%nat.
Proof.
  induction a as [|ev a IH]; [reflexivity|].
  destruct ev; cbn; rewrite IH; reflexivity.
Qed.

Lemma trace_emit ev w : trace (emit ev w) = trace w ++ [ev].
Proof. reflexivity. Qed.

Lemma sends_weaken {A} n n' (m : M A) :
  (n <= n')%nat -> sends_at_most n m -> sends_at_most n' m.
Proof.
  intros Hle H w. destruct (H w) as [evs [Htr Hn]]. exists evs. split; [exact Htr|lia].
Qed.

Lemma sends_bind {A B} a b (m : M A) (k : A -> M B) :
  sends_at_most a m -> (forall x, sends_at_most b (k x)) ->
  sends_at_most (a + b) (bind m k).
Proof.
  intros Hm Hk w. unfold bind. destruct (Hm w) as [evs [Htr Hn]].
  destruct (m w) as [[x|err] w1]; cbn [snd] in *.
  - destruct (Hk x w1) as [evs2 [Htr2 Hn2]]. exists (evs ++ evs2).
    split; [rewrite Htr2, Htr, app_assoc; reflexivity|rewrite requests_app; lia].
  - exists evs. split; [exact Htr|lia].
Qed.

Lemma sends_try_catch {A} a b (m : M A) (h : Err -> M A) :
  sends_at_most a m -> (forall err, sends_at_most b (h err)) ->
  sends_at_most (a + b) (try_catch m h).
Proof.
  intros Hm Hh w. unfold try_catch. destruct (Hm w) as [evs [Htr Hn]].
  destruct (m w) as [[x|err] w1]; cbn [snd] in *.
  - exists evs. split; [exact Htr|lia].
  - destruct (Hh err w1) as [evs2 [Htr2 Hn2]]. exists (evs ++ evs2).
    split; [rewrite Htr2, Htr, app_assoc; reflexivity|rewrite requests_app; lia].
Qed.

Lemma sends_both {A B} a b (ma : M A) (mb : M B) :
  sends_at_most a ma -> sends_at_most b mb -> sends_at_most (a + b) (both ma mb).
Proof.
  intros Ha Hb w. rewrite both_run. cbn [snd].
  destruct (Ha w) as [evs [Htr Hn]]. destruct (Hb (snd (ma w))) as [evs2 [Htr2 Hn2]].
  exists (evs ++ evs2).
  split; [rewrite Htr2, Htr, app_assoc; reflexivity|rewrite requests_app; lia].
Qed.

Lemma sends_silent {A} (m : M A) :
  (forall w, snd (m w) = w) -> sends_at_most 0 m.
Proof.
  intros H w. exists []. rewrite H, app_nil_r. split; [reflexivity|cbn; lia].
Qed.

Lemma sends_console_error prefix : sends_at_most 0 (console_error prefix).
Proof. intros w. exists [ConsoleError prefix]. split; [reflexivity|cbn; lia]. Qed.

(** A provider client sends one request, the last one two. *)
Lemma callProvider_sends p e :
  sends_at_most (match p with KeyIpify => 2 | _ => 1 end) (callProvider p e).
Proof.
  intros w. destruct p; split_world w; unfold callProvider; run_client;
    match goal with
    | |- context [?a <? ?b] => destruct (Z.ltb_spec a b); crunch
    end;
    client_cases;
    rewrite <- ?app_assoc; eexists; (split; [reflexivity|]); cbn; lia.
Qed.

Lemma tryServices_sends now services bounds :
  Forall2 (fun s n => sends_at_most n (snd s)) services bounds ->
  sends_at_most (list_sum bounds) (tryServices now services).
Proof.
  induction 1 as [|[name fn] n services bounds Hfn _ IH]; intros w.
  - exists []. cbn. rewrite app_nil_r. split; [reflexivity|lia].
  - cbn [snd] in Hfn. cbn [tryServices].
    change (list_sum (n :: bounds)) with (n + list_sum bounds)%nat.
    unfold bind, try_catch, ret, console_error. unfold modify.
    destruct (Hfn w) as [evs [Htr Hn]].
    destruct (fn w) as [[d|err] w1]; cbn [fst snd] in *.
    + exists evs. split; [destruct w1; exact Htr|lia].
    + destruct (IH (emit (ConsoleError (name ++ " failed:")%string) w1))
        as [evs2 [Htr2 Hn2]].
      destruct (tryServices now services
                  (emit (ConsoleError (name ++ " failed:")%string) w1)) as [[r|err2] w2];
        cbn [fst snd] in *;
        [destruct r|];
        (exists (evs ++ [ConsoleError (name ++ " failed:")%string] ++ evs2);
         split; [rewrite Htr2, trace_emit, Htr, <- !app_assoc; reflexivity
                |rewrite !requests_app; cbn; lia]).
Qed.

Lemma apiServices_sends e :
  Forall2 (fun s n => sends_at_most n (snd s)) (apiServices e) [1; 1; 1; 2]%nat.
Proof.
  unfold apiServices.
  constructor; [exact (callProvider_sends KeyIpApi e)|].
  constructor; [exact (callProvider_sends KeyFreeIpApi e)|].
  constructor; [exact (callProvider_sends KeyIpWhoIs e)|].
  constructor; [exact (callProvider_sends KeyIpify e)|].
  constructor.
Qed.

Lemma getPublicIpInfo_sends e : sends_at_most 5 (getPublicIpInfo e).
Proof.
  intros w. unfold getPublicIpInfo, bind, gets. cbn [fst snd].
  destruct (if cacheFresh (cachedIpInfo w) (resolve_now e) then cachedIpInfo w else None).
  - exists []. cbn. rewrite app_nil_r. split; [reflexivity|lia].
  - destruct (tryServices_sends (resolve_now e) _ _ (apiServices_sends e) w)
      as [evs [Htr Hn]].
    change (list_sum [1; 1; 1; 2]%nat) with 5%nat in Hn.
    destruct (tryServices (resolve_now e) (apiServices e) w) as [[[d|]|err] w1];
      cbn [fst snd] in *.
    + exists evs. split; assumption.
    + destruct (cachedIpInfo w1); cbn.
      * exists evs. split; assumption.
      * exists (evs ++ [ConsoleError "All IP API services failed and no cache available"]).
        split; [rewrite Htr, app_assoc; reflexivity
               |rewrite requests_app; cbn; lia].
    + exists evs. split; assumption.
Qed.

Lemma retryLoop_sends {A} (fn : nat -> M A) retries :
  (forall i, sends_at_most 0 (fn i)) ->
  forall left i, sends_at_most 0 (retryLoop fn retries i left).
Proof.
  intros Hfn. induction left as [|left IH]; intros i w; cbn [retryLoop].
  - exists []. cbn. rewrite app_nil_r. split; [reflexivity|lia].
  - unfold try_catch, bind, ret, throw, setTimeout, modify.
    destruct (Hfn i w) as [evs [Htr Hn]].
    destruct (fn i w) as [[v|err] w1]; cbn [fst snd] in *.
    + exists evs. split; assumption.
    + destruct (S i =? retries)%nat; cbn [fst snd].
      * exists evs. split; assumption.
      * destruct (IH (S i) (emit (Timeout (1000 * (Z.of_nat i + 1))) w1))
          as [evs2 [Htr2 Hn2]].
        exists (evs ++ [Timeout (1000 * (Z.of_nat i + 1))] ++ evs2).
        split; [rewrite Htr2, trace_emit, Htr, <- !app_assoc; reflexivity
               |rewrite !requests_app; cbn; lia].
Qed.

Lemma subFetches_sends e : sends_at_most 5 (subFetches e).
Proof.
  unfold subFetches, getMetricsWithRetry.
  apply (sends_weaken (0 + (0 + (5 + (0 + (0 + 0)))))); [lia|].
  repeat apply sends_both;
    try (apply retryLoop_sends; intros i; apply sends_silent; reflexivity).
  intros w.
  destruct (getMetricsWithRetry_publicIp (publicIp_call e) w) as [d [_ E]].
  unfold getMetricsWithRetry in E. rewrite E. cbn [snd]. apply getPublicIpInfo_sends.
Qed.

Ltac trace_done :=
  first [ exists []; rewrite app_nil_r; split; [reflexivity|cbn; lia]
        | rewrite <- ?app_assoc; eexists; split; [reflexivity|cbn; lia] ].

Lemma checkAndLogIspChange_sends db newIsp newIp :
  sends_at_most 0 (checkAndLogIspChange db newIsp newIp).
Proof.
  intros w. split_world w. run_detector.
  destruct p; cbn; [|trace_done].
  destruct (select_ok db); cbn; [|trace_done].
  destruct (top1_by_timestamp rows) as [r|]; cbn.
  - destruct (Swap.isp r =? newIsp)%string; cbn; [trace_done|].
    destruct (update_ok db); cbn; [|trace_done].
    destruct (insert_ok db); cbn; trace_done.
  - destruct (insert_ok db); cbn; trace_done.
Qed.

Lemma getNetworkMetrics_sends e : sends_at_most 5 (getNetworkMetrics e).
Proof.
  intros w. destruct (subFetches_sends e w) as [evs [Htr Hn]].
  destruct (subFetches_cases e w) as [[err H]|[stats [lat [info [cpu [mem [up H]]]]]]].
  - rewrite (getNetworkMetrics_join_rejected e w err H). cbn [snd].
    exists (evs ++ [ConsoleError "Error getting network metrics:"]).
    split; [rewrite trace_emit, Htr, app_assoc; reflexivity|rewrite requests_app; cbn; lia].
  - rewrite (getNetworkMetrics_join_fulfilled e w stats lat info cpu mem up H).
    set (wj := snd (subFetches e w)) in *.
    set (w1 := if ispCheckDue (Some info) (check_now e) (lastIspCheck wj) then _ else _).
    assert (H1 : exists evs1, trace w1 = trace wj ++ evs1 /\ requests evs1 = 0%nat).
    { unfold w1. destruct (ispCheckDue (Some info) (check_now e) (lastIspCheck wj)).
      - destruct (checkAndLogIspChange_sends (check_db e) (isp info) (ip info) wj)
          as [evs1 [Htr1 Hn1]].
        exists evs1. split; [|lia].
        destruct (snd (checkAndLogIspChange (check_db e) (isp info) (ip info) wj)).
        exact Htr1.
      - exists []. rewrite app_nil_r. split; reflexivity. }
    destruct H1 as [evs1 [Htr1 Hn1]].
    destruct (pool w1); [destruct (now_ok e); [destruct stats|]|]; cbn [snd];
      rewrite ?trace_emit, Htr1, Htr, <- ?app_assoc;
      eexists; (split; [reflexivity|]); rewrite !requests_app; cbn; lia.
Qed.

(** X11: one lookup of the public identity sends at most five HTTP
    requests, and none when the cache is fresh; one sample, and so one
    tick of the monitoring loop, sends at most five as well: the retry
    wrapper never repeats the lookup. *)
Theorem one_sample_five_requests :
  forall (e : SampleEnv) (r : ResolveEnv) (w : World),
    (requests (events_of (getPublicIpInfo r) w) <= 5)%nat /\
    (cacheFresh (cachedIpInfo w) (resolve_now r) = true ->
     events_of (getPublicIpInfo r) w = []) /\
    (requests (events_of (getNetworkMetrics e) w) <= 5)%nat /\
    (requests (events_of (monitoringTick e) w) <= 5)%nat.
Proof.
  intros e r w.
  split; [|split; [|split]].
  - destruct (getPublicIpInfo_sends r w) as [evs [Htr Hn]].
    rewrite (events_of_app _ _ _ Htr). exact Hn.
  - intros Hfresh. unfold cacheFresh in Hfresh.
    destruct (cachedIpInfo w) as [entry|] eqn:Hc; [|discriminate].
    apply Z.ltb_lt in Hfresh. unfold events_of.
    rewrite (getPublicIpInfo_fresh r w entry Hc Hfresh). cbn [snd].
    apply skipn_length_self.
  - destruct (getNetworkMetrics_sends e w) as [evs [Htr Hn]].
    rewrite (events_of_app _ _ _ Htr). exact Hn.
  - destruct (getNetworkMetrics_sends e w) as [evs [Htr Hn]].
    destruct (getNetworkMetrics_returns e w) as [m Hm].
    assert (Htick : trace (snd (monitoringTick e w)) = trace w ++ evs).
    { unfold monitoringTick, try_catch, bind, modify.
      destruct (getNetworkMetrics e w) as [res w1]. cbn [fst snd] in *. subst res.
      destruct w1. exact Htr. }
    rewrite (events_of_app _ _ _ Htick). exact Hn.
Qed.

(** ** The throttle of the change detector *)

(** X12: a sample taken less than ISP_CHECK_INTERVAL after the last check
    leaves the swap table and the time of the last check as they were. *)
Theorem isp_check_throttled :
  forall (e : SampleEnv) (w : World),
    check_now e - lastIspCheck w < ISP_CHECK_INTERVAL ->
    swap (snd (getNetworkMetrics e w)) = swap w /\
    lastIspCheck (snd (getNetworkMetrics e w)) = lastIspCheck w.
Proof.
  intros e w Hlt. destruct (getNetworkMetrics_vars e w) as [_ [_ [_ V]]]. cbn zeta in V.
  destruct V as [[El Es]|[Hge _]]; [split; assumption|lia].
Qed.

(** X13: when each of two consecutive samples changes the swap table, the
    clock readings of their checks lie at least ISP_CHECK_INTERVAL
    apart. *)
Theorem swap_writes_are_spaced :
  forall (e1 e2 : SampleEnv) (w : World),
    swap (snd (getNetworkMetrics e1 w)) <> swap w ->
    swap (snd (getNetworkMetrics e2 (snd (getNetworkMetrics e1 w)))) <>
      swap (snd (getNetworkMetrics e1 w)) ->
    ISP_CHECK_INTERVAL <= check_now e2 - check_now e1.
Proof.
  intros e1 e2 w H1 H2.
  destruct (getNetworkMetrics_vars e1 w) as [_ [_ [_ V1]]].
  destruct (getNetworkMetrics_vars e2 (snd (getNetworkMetrics e1 w))) as [_ [_ [_ V2]]].
  cbn zeta in *.
  destruct V1 as [[_ E]|[_ [L1 _]]]; [contradiction|].
  destruct V2 as [[_ E]|[Hge _]]; [contradiction|].
  rewrite L1 in Hge. exact Hge.
Qed.

(** ** Dashboard *)

Lemma occurs_app c a b : occurs c (a ++ b)%string = occurs c a || occurs c b.
Proof.
  induction a as [|c' a IH]; [reflexivity|]. cbn. rewrite IH. apply orb_assoc.
Qed.

Lemma split_free sep s : occurs sep s = false -> split sep s = [s].
Proof.
  induction s as [|c s IH]; cbn; [reflexivity|].
  intros H. apply orb_false_elim in H. destruct H as [Hc Hs].
  rewrite Hc, (IH Hs). reflexivity.
Qed.

Lemma split_app sep a b :
  occurs sep a = false -> split sep (a ++ String sep b)%string = a :: split sep b.
Proof.
  induction a as [|c a IH]; cbn.
  - intros _. rewrite Ascii.eqb_refl. reflexivity.
  - intros H. apply orb_false_elim in H. destruct H as [Hc Ha].
    rewrite Hc, (IH Ha). reflexivity.
Qed.

Lemma split_nonempty sep s : exists a rest, split sep s = a :: rest.
Proof.
  induction s as [|c s [a [rest IH]]]; cbn; [eauto|].
  destruct (Ascii.eqb c sep); [eauto|]. rewrite IH. eauto.
Qed.

Lemma split_occurs sep s :
  occurs sep s = true -> exists a b rest, split sep s = a :: b :: rest.
Proof.
  induction s as [|c s IH]; cbn; [discriminate|].
  destruct (Ascii.eqb c sep) eqn:Hc; cbn.
  - intros _. destruct (split_nonempty sep s) as [b [rest E]]. rewrite E. eauto.
  - intros H. destruct (IH H) as [a [b [rest E]]]. rewrite E. eauto.
Qed.

(** X14: [formatThaiTime] turns [y-m-d h:mi:s] into [d/m/y h:mi:s], for
    components that hold no space and none of their own separator. *)
Theorem formatThaiTime_reorders :
  forall y m d h mi s : string,
    occurs " " y = false -> occurs "-" y = false ->
    occurs " " m = false -> occurs "-" m = false ->
    occurs " " d = false -> occurs "-" d = false ->
    occurs " " h = false -> occurs ":" h = false ->
    occurs " " mi = false -> occurs ":" mi = false ->
    occurs " " s = false -> occurs ":" s = false ->
    formatThaiTime ((y ++ "-" ++ m ++ "-" ++ d) ++ " " ++ (h ++ ":" ++ mi ++ ":" ++ s)) =
    Ok (d ++ "/" ++ m ++ "/" ++ y ++ " " ++ h ++ ":" ++ mi ++ ":" ++ s)%string.
Proof.
  intros y m d h mi s Hy Hy' Hm Hm' Hd Hd' Hh Hh' Hmi Hmi' Hs Hs'.
  unfold formatThaiTime.
  change (" " ++ (h ++ ":" ++ mi ++ ":" ++ s))%string
    with (String " " (h ++ String ":" (mi ++ String ":" s)))%string.
  change (y ++ "-" ++ m ++ "-" ++ d)%string
    with (y ++ String "-" (m ++ String "-" d))%string.
  rewrite split_app
    by (rewrite !occurs_app; cbn; rewrite !occurs_app; cbn; rewrite Hy, Hm, Hd; reflexivity).
  rewrite (split_free " ")
    by (rewrite !occurs_app; cbn; rewrite !occurs_app; cbn; rewrite Hh, Hmi, Hs; reflexivity).
  cbn [nth_error].
  rewrite (split_app "-" y) by exact Hy'.
  rewrite (split_app "-" m) by exact Hm'.
  rewrite (split_free "-" d) by exact Hd'.
  rewrite (split_app ":" h) by exact Hh'.
  rewrite (split_app ":" mi) by exact Hmi'.
  rewrite (split_free ":" s) by exact Hs'.
  reflexivity.
Qed.

(** X15: [formatThaiTime] throws exactly on the texts that hold no
    space. *)
Theorem formatThaiTime_throws_iff :
  forall dateString : string,
    (exists err, formatThaiTime dateString = Throw err) <-> occurs " " dateString = false.
Proof.
  intros dateString. unfold formatThaiTime. split.
  - intros [err H]. destruct (occurs " " dateString) eqn:Ho; [|reflexivity].
    destruct (split_occurs " " dateString Ho) as [a [b [rest E]]]. rewrite E in H.
    cbn in H. discriminate H.
  - intros Ho. rewrite (split_free " " dateString Ho). cbn. eauto.
Qed.

Lemma updateHistory_skipn prev v t maxLength :
  let newHistory := prev ++ [History.mk t v] in
  updateHistory prev v t maxLength =
  skipn (Z.to_nat (Z.of_nat (List.length newHistory) - maxLength)) newHistory.
Proof.
  cbn zeta. unfold updateHistory.
  destruct (Z.gtb_spec (Z.of_nat (List.length (prev ++ [History.mk t v]))) maxLength) as [H|H];
    [reflexivity|].
  replace (Z.to_nat (Z.of_nat (List.length (prev ++ [History.mk t v])) - maxLength))
    with 0%nat by lia.
  reflexivity.
Qed.

Lemma updateHistory_length prev v t maxLength :
  Z.of_nat (List.length (updateHistory prev v t maxLength)) =
  Z.max 0 (Z.min (Z.of_nat (List.length prev) + 1) maxLength).
Proof.
  rewrite updateHistory_skipn. cbn zeta. rewrite length_skipn, length_app. cbn. lia.
Qed.

(** X16: [updateHistory] returns the last [maxLength] points of the
    history with the new point appended (all of them when there are fewer,
    none when [maxLength] is not positive); for [maxLength >= 1] the new
    point is the last one. *)
Theorem updateHistory_keeps_newest :
  forall (prev : list History.point) (v : Q) (t : string) (maxLength : Z),
    let result := updateHistory prev v t maxLength in
    Z.of_nat (List.length result) =
      Z.max 0 (Z.min (Z.of_nat (List.length prev) + 1) maxLength) /\
    (exists dropped, prev ++ [History.mk t v] = dropped ++ result) /\
    (1 <= maxLength -> exists kept, result = kept ++ [History.mk t v]).
Proof.
  intros prev v t maxLength. cbn zeta.
  split; [apply updateHistory_length|].
  rewrite updateHistory_skipn. cbn zeta.
  set (k := Z.to_nat (Z.of_nat (List.length (prev ++ [History.mk t v])) - maxLength)).
  assert (Hlen : List.length (prev ++ [History.mk t v]) = S (List.length prev))
    by (rewrite length_app; cbn; lia).
  split.
  - exists (firstn k (prev ++ [History.mk t v])). symmetry. apply firstn_skipn.
  - intros Hmax. exists (skipn k prev). rewrite skipn_app.
    replace (k - List.length prev)%nat with 0%nat by (unfold k; rewrite Hlen; lia).
    reflexivity.
Qed.

Section DashboardProperties.

Variable parseFloat : string -> option Q.

Lemma record_length history text newTime :
  (List.length history <= 30)%nat ->
  (List.length (record parseFloat history text newTime) <= 30)%nat.
Proof.
  intros H. unfold record. destruct (parseFloat text) as [v|]; [|exact H].
  pose proof (updateHistory_length history v newTime 30) as E. lia.
Qed.

(** X17: whatever messages arrive, no chart of the dashboard ever holds
    more than 30 points. *)
Theorem histories_hold_30_points :
  forall (msgs : list (MessageEnv * Snapshot)) (d : Dashboard),
    (List.length (latencyHistory d) <= 30)%nat ->
    (List.length (cpuHistory d) <= 30)%nat ->
    (List.length (memoryHistory d) <= 30)%nat ->
    (List.length (latencyHistory (onMessages parseFloat msgs d)) <= 30)%nat /\
    (List.length (cpuHistory (onMessages parseFloat msgs d)) <= 30)%nat /\
    (List.length (memoryHistory (onMessages parseFloat msgs d)) <= 30)%nat.
Proof.
  induction msgs as [|[env data] msgs IH]; intros d Hl Hc Hm; cbn [onMessages].
  - split; [exact Hl|split; [exact Hc|exact Hm]].
  - apply IH; cbn; apply record_length; assumption.
Qed.

Lemma onMessages_same_address msgs a :
  truthy a = true ->
  Forall (fun m => option_map ip (publicIpInfo (snd m)) = Some a) msgs ->
  forall d,
    lastIpRef d = Some a ->
    fetches (onMessages parseFloat msgs d) = fetches d /\
    lastIpRef (onMessages parseFloat msgs d) = Some a.
Proof.
  intros Ha. induction 1 as [|[env data] msgs Hm _ IH]; intros d Hd; cbn [onMessages].
  - split; [reflexivity|exact Hd].
  - cbn [snd] in Hm.
    assert (Hsame : ipChanged data (lastIpRef d) = false).
    { unfold ipChanged. destruct (publicIpInfo data) as [info|]; [|reflexivity].
      cbn in Hm. injection Hm as Hm. rewrite Hd, Hm, String.eqb_refl, Ha. reflexivity. }
    destruct (IH (onMessage parseFloat env data d)) as [F L].
    + cbn. rewrite Hsame. exact Hd.
    + rewrite F, L. cbn. rewrite Hsame. split; reflexivity.
Qed.

(** X18: a run of messages that all carry the same non-empty address
    starts the refresh of the swap log and of the active ISPs once when
    that address is not the last one seen, and never when it is; after
    the first message it is the last one seen. *)
Theorem one_refresh_per_address :
  forall (msgs : list (MessageEnv * Snapshot)) (a : string) (d : Dashboard),
    truthy a = true ->
    Forall (fun m => option_map ip (publicIpInfo (snd m)) = Some a) msgs ->
    msgs <> [] ->
    let d' := onMessages parseFloat msgs d in
    lastIpRef d' = Some a /\
    fetches d' =
      fetches d ++
      match lastIpRef d with
      | Some l => if (a =? l)%string then [] else [FetchSwapLogs; FetchActiveIsps]
      | None => [FetchSwapLogs; FetchActiveIsps]
      end.
Proof.
  intros msgs a d Ha Hall Hne. destruct msgs as [|[env data] msgs]; [contradiction|].
  inversion Hall as [|? ? Hm Hrest]; subst. cbn [snd] in Hm. cbn zeta. cbn [onMessages].
  destruct (publicIpInfo data) as [info|] eqn:Hinfo; [|discriminate Hm].
  cbn in Hm. injection Hm as Hm.
  assert (Hchanged : ipChanged data (lastIpRef d) =
                     match lastIpRef d with
                     | Some l => negb (a =? l)%string
                     | None => true
                     end).
  { unfold ipChanged. rewrite Hinfo, Hm, Ha. destruct (lastIpRef d); reflexivity. }
  destruct (onMessages_same_address msgs a Ha Hrest (onMessage parseFloat env data d))
    as [F L].
  - cbn. rewrite Hchanged, Hinfo. cbn. rewrite Hm.
    destruct (lastIpRef d) as [l|]; [|reflexivity].
    destruct (String.eqb_spec a l) as [->|_]; reflexivity.
  - rewrite F, L. split; [reflexivity|]. cbn. rewrite Hchanged.
    destruct (lastIpRef d) as [l|]; [|reflexivity].
    destruct (a =? l)%string; cbn; [rewrite app_nil_r|]; reflexivity.
Qed.

End DashboardProperties.

(** ** What a sample writes to the swap table *)

Lemma deactivate_In o rows r :
  In r (deactivate o rows) ->
  exists r0, In r0 rows /\ Swap.isp r = Swap.isp r0 /\ Swap.ip r = Swap.ip r0.
Proof.
  unfold deactivate. intros H. apply in_map_iff in H. destruct H as [r0 [E Hin]].
  exists r0. split; [exact Hin|].
  destruct (sql_eq (Swap.isp r0) o && (Swap.uplink r0 =? 1)); subst r; split; reflexivity.
Qed.

(** X19: a sample never writes a row with an empty ISP or an empty
    address: when no row of the swap table has one before the sample,
    none has after it. *)
Theorem no_blank_identity_logged :
  forall (e : SampleEnv) (w : World),
    (forall r, In r (swap w) -> Swap.isp r <> "" /\ Swap.ip r <> "") ->
    forall r, In r (swap (snd (getNetworkMetrics e w))) ->
              Swap.isp r <> "" /\ Swap.ip r <> "".
Proof.
  intros e w Hrows r Hin.
  destruct (getNetworkMetrics_vars e w) as [_ [_ [_ V]]]. cbn zeta in V.
  destruct V as [[_ E]|[_ [_ [info [Hisp [Hip E]]]]]]; rewrite E in Hin; [auto|].
  destruct (subFetches_run e w) as [_ [_ [_ [_ [[_ [Fs _]] _]]]]].
  set (wj := snd (subFetches e w)) in *.
  assert (Hnew : Swap.isp (Swap.mk (isp info) (ip info) (insert_time (check_db e)) 1) <> "" /\
                 Swap.ip (Swap.mk (isp info) (ip info) (insert_time (check_db e)) 1) <> "").
  { cbn. unfold truthy in Hisp, Hip.
    split; intros Hblank; [rewrite Hblank in Hisp|rewrite Hblank in Hip]; discriminate. }
  assert (Hold : forall o r', In r' (deactivate o (swap wj)) ->
                              Swap.isp r' <> "" /\ Swap.ip r' <> "").
  { intros o r' Hr'. destruct (deactivate_In o _ _ Hr') as [r0 [Hr0 [E1 E2]]].
    rewrite E1, E2. apply Hrows. rewrite <- Fs. exact Hr0. }
  destruct (checkAndLogIspChange_swap (check_db e) (isp info) (ip info) wj)
    as [E'|[[_ E']|[r1 [_ [E'|E']]]]]; cbn zeta in E'; rewrite E' in Hin.
  - apply Hrows. rewrite <- Fs. exact Hin.
  - apply in_app_or in Hin. destruct Hin as [Hin|[<-|[]]]; [|exact Hnew].
    apply Hrows. rewrite <- Fs. exact Hin.
  - exact (Hold _ _ Hin).
  - apply in_app_or in Hin. destruct Hin as [Hin|[<-|[]]]; [|exact Hnew].
    exact (Hold _ _ Hin).
Qed.

(** ** Query routes: failures *)

Section RouteFailures.

Variable formatTimestamp : Z -> string.

(** X20: the routes /api/swap-logs, /api/active-isps and
    /api/isp-downtime-7d never throw and never change the tables or the
    module's variables; each answers with status 500 and its own message
    exactly when there is no pool or the store rejects the statement. *)
Theorem query_routes_never_throw :
  forall (ok : bool) (now : Z) (w : World),
    (exists logs,
        fst (swapLogsRoute formatTimestamp ok w) = Ok logs /\
        (logs = Status500 "Failed to fetch swap logs" <-> pool w && ok = false)) /\
    (exists isps,
        fst (activeIspsRoute formatTimestamp ok w) = Ok isps /\
        (isps = Status500 "Failed to fetch active ISPs" <-> pool w && ok = false)) /\
    (exists count,
        fst (ispDowntime7dRoute ok now w) = Ok count /\
        (count = Status500 "Failed to fetch 7-day ISP downtime" <-> pool w && ok = false)) /\
    only_history w (snd (swapLogsRoute formatTimestamp ok w)) /\
    only_history w (snd (activeIspsRoute formatTimestamp ok w)) /\
    only_history w (snd (ispDowntime7dRoute ok now w)).
Proof.
  intros ok now w.
  unfold swapLogsRoute, activeIspsRoute, ispDowntime7dRoute, try_catch, bind, gets, when,
    ret, throw, select, console_error.
  unfold modify. split_world w. cbn [pool].
  destruct p, ok; cbn;
    repeat match goal with
           | |- context [if ?b then _ else _] => destruct b; cbn
           end;
    repeat match goal with
           | |- _ /\ _ => split
           | |- exists x, _ => eexists
           | |- Ok _ = Ok _ => reflexivity
           | |- _ <-> _ => split; intros Hx; try reflexivity; discriminate Hx
           | |- only_history _ _ => unfold only_history, frame; cbn; repeat split; reflexivity
           end.
Qed.

End RouteFailures.

(** ** IpResolver: what the cache holds after a call *)

(** X21: after every call of [getPublicIpInfo] the cache holds the record
    the call returned, or it is empty and the call returned the mock record
    (which is never cached).  The call leaves the cache as it was or, when
    the cache was not fresh and a provider answered, replaces it by that
    answer stamped with the call's reading of the clock. *)
Theorem returned_record_is_cached :
  forall (e : ResolveEnv) (w : World),
    let res := getPublicIpInfo e w in
    ((exists entry, cachedIpInfo (snd res) = Some entry /\ fst res = Ok (data entry)) \/
     (cachedIpInfo (snd res) = None /\ fst res = Ok mockIpInfo)) /\
    (cachedIpInfo (snd res) = cachedIpInfo w \/
     exists d, cachedIpInfo (snd res) = Some (mkCache d (resolve_now e)) /\
               fst res = Ok d /\
               cacheFresh (cachedIpInfo w) (resolve_now e) = false).
Proof.
  intros e w. cbn zeta.
  destruct (getPublicIpInfo_spec e w w) as [Hres [Hcache _]]. cbn zeta in *.
  rewrite Hres, Hcache.
  destruct (cacheFresh (cachedIpInfo w) (resolve_now e)) eqn:Hfresh.
  - destruct (cachedIpInfo w) as [entry|] eqn:Hc; [|discriminate Hfresh].
    split; [left; exists entry; split; reflexivity|left; reflexivity].
  - destruct (firstSuccess w (apiServices e)) as [d|].
    + split; [left; exists (mkCache d (resolve_now e)); split; reflexivity|].
      right. exists d. repeat split; reflexivity.
    + destruct (cachedIpInfo w) as [entry|] eqn:Hc.
      * split; [left; exists entry; split; reflexivity|left; reflexivity].
      * split; [right; split; reflexivity|left; reflexivity].
Qed.

End Program.

(** * Concrete runs *)

(** ** ChangeDetector *)

Example acme_globex_acme_table :
  swap (snd (observeAll String.eqb acme_globex_acme world0)) =
  [ Swap.mk "Acme" "1.2.3.4" 1 0;
    Swap.mk "Globex" "5.6.7.8" 2 0;
    Swap.mk "Acme" "1.2.3.4" 3 1 ].
Proof. reflexivity. Qed.

Lemma acme_globex_acme_clock : clock_increasing (acme_globex_acme ++ []).
Proof. unfold clock_increasing. cbn. repeat constructor. Defined.

Lemma at_most_one_active_row_witness :
  (List.length
     (filter active (swap (snd (observeAll String.eqb acme_globex_acme world0)))) <= 1)%nat.
Proof.
  apply (at_most_one_active_row String.eqb acme_globex_acme [] world0).
  - exact String.eqb_refl.
  - reflexivity.
  - exact acme_globex_acme_clock.
Defined.

Lemma one_active_entry_per_isp_witness :
  (forall r',
      In r' ([Swap.mk "Acme" "1.2.3.4" 1 0; Swap.mk "Globex" "5.6.7.8" 2 0] ++ []) ->
      Swap.isp r' = Swap.isp (Swap.mk "Acme" "1.2.3.4" 3 1) -> Swap.uplink r' <> 1) /\
  (forall r', In r' [] -> Swap.isp r' <> Swap.isp (Swap.mk "Acme" "1.2.3.4" 3 1)).
Proof.
  apply (one_active_entry_per_isp String.eqb acme_globex_acme [] world0
           String.eqb_refl eq_refl acme_globex_acme_clock
           [Swap.mk "Acme" "1.2.3.4" 1 0; Swap.mk "Globex" "5.6.7.8" 2 0]
           (Swap.mk "Acme" "1.2.3.4" 3 1) []).
  - reflexivity.
  - reflexivity.
Defined.

Lemma checkAndLogIspChange_idempotent_witness :
  swap (snd (observeAll String.eqb
               (map (fun c => mkObservation (fst c) "Acme" (snd c))
                    [(db_ok 5, "1.2.3.4"); (db_ok 6, "4.3.2.1")])
               (snd (observeAll String.eqb acme_globex_acme world0)))) =
  swap (snd (observeAll String.eqb acme_globex_acme world0)) /\
  exists evs,
    trace (snd (observeAll String.eqb
                  (map (fun c => mkObservation (fst c) "Acme" (snd c))
                       [(db_ok 5, "1.2.3.4"); (db_ok 6, "4.3.2.1")])
                  (snd (observeAll String.eqb acme_globex_acme world0)))) =
    trace (snd (observeAll String.eqb acme_globex_acme world0)) ++ evs /\
    Forall (fun e => is_swap_write e = false) evs.
Proof.
  apply (checkAndLogIspChange_idempotent String.eqb
           [(db_ok 5, "1.2.3.4"); (db_ok 6, "4.3.2.1")] "Acme"
           (snd (observeAll String.eqb acme_globex_acme world0))
           (Swap.mk "Acme" "1.2.3.4" 3 1)).
  - reflexivity.
  - reflexivity.
Defined.

(** The scenario of the specification: the last row is Acme, active, and
    Globex is observed. *)
Example acme_then_globex :
  swap (snd (checkAndLogIspChange String.eqb (db_ok 2) "Globex" "5.6.7.8"
               (set_swap [Swap.mk "Acme" "1.2.3.4" 1 1] world0))) =
  [Swap.mk "Acme" "1.2.3.4" 1 0; Swap.mk "Globex" "5.6.7.8" 2 1].
Proof. reflexivity. Qed.

(** ** IpResolver *)

(** The scenarios of the specification: the first provider fails and the
    second answers; the cache is 40 s old and every provider fails. *)
Example first_down_second_up :
  getPublicIpInfo 30000 (env_first_down t0) world0 =
  (Ok globex_record,
   set_lastFreeIpApiCall (t0 + 60)
     (set_cachedIpInfo (Some (mkCache globex_record t0))
        (emit (Get UrlFreeIpApi (t0 + 10))
           (emit (ConsoleError "ip-api.com failed:")
              (emit (ConsoleError "Error getting IP info from ip-api.com:")
                 (emit (Get UrlIpApi t0) world0)))))).
Proof. reflexivity. Qed.

Example stale_cache_all_down :
  fst (getPublicIpInfo 30000 (env_all_down (t0 + 40000)) (world_cached t0)) =
  Ok globex_record.
Proof. reflexivity. Qed.

Lemma getPublicIpInfo_fallback_witness :
  fst (getPublicIpInfo 30000 (env_first_down t0) (world_cached (t0 - 40000))) =
  Ok globex_record.
Proof.
  destruct (getPublicIpInfo_fallback 30000 (env_first_down t0)
              (world_cached (t0 - 40000)) world0)
    as [_ [d [Hd [_ Hstale]]]].
  destruct (Hstale eq_refl) as [Hfirst _].
  rewrite Hd. f_equal.
  apply (Hfirst
           [("ip-api.com",
             getIpApiInfo (ipApi_now (env_first_down t0)) (ipApi_reply (env_first_down t0)))]
           "freeipapi.com"
           (getFreeIpApiInfo (freeIpApi_now (env_first_down t0))
              (freeIpApi_reply (env_first_down t0)))
           [("ipwho.is",
             getIpWhoIsInfo (ipWhoIs_now (env_first_down t0))
               (ipWhoIs_reply (env_first_down t0)));
            ("ipify.org",
             getIpifyInfo (ipify_now (env_first_down t0)) (ipify_reply (env_first_down t0))
               (ipapiCo_reply (env_first_down t0)))]).
  - reflexivity.
  - constructor; [exists AxiosError; reflexivity|constructor].
  - reflexivity.
Defined.

(** C1 as stated fails: ip-api.com, the first provider, would answer with
    the Acme record, yet with a cache entry 5 s old the call returns the
    cached Globex record. *)
Lemma fresh_cache_hides_first_success :
  fst (callProvider KeyIpApi (env_ipApi_up (t0 + 5000)) (world_cached t0)) = Ok acme_record /\
  fst (getPublicIpInfo 30000 (env_ipApi_up (t0 + 5000)) (world_cached t0)) = Ok globex_record /\
  globex_record <> acme_record.
Proof.
  split; [reflexivity|]. split; [reflexivity|]. discriminate.
Qed.

Lemma second_call_served_from_cache_witness :
  fst (getPublicIpInfo 30000 (env_first_down t0) world0) = Ok globex_record /\
  getPublicIpInfo 30000 (env_all_down (t0 + 5000))
    (snd (getPublicIpInfo 30000 (env_first_down t0) world0)) =
  (Ok globex_record, snd (getPublicIpInfo 30000 (env_first_down t0) world0)) /\
  events_of (getPublicIpInfo 30000 (env_all_down (t0 + 5000)))
    (snd (getPublicIpInfo 30000 (env_first_down t0) world0)) = [].
Proof.
  apply (second_call_served_from_cache 30000 (env_first_down t0)
           (env_all_down (t0 + 5000)) world0 world0 globex_record).
  - reflexivity.
  - reflexivity.
  - reflexivity.
Defined.

(** C5 as stated fails: the first call goes to the providers, all four are
    down, and it returns the mock record; the second call, 5 s later, goes
    to the providers again and returns what ip-api.com answers. *)
Lemma all_down_then_up_fetches_twice :
  resolve_now (env_ipApi_up (t0 + 5000)) - resolve_now (env_all_down t0) < 30000 /\
  requestTimes UrlIpApi (events_of (getPublicIpInfo 30000 (env_all_down t0)) world0) = [t0] /\
  fst (getPublicIpInfo 30000 (env_all_down t0) world0) = Ok mockIpInfo /\
  fst (getPublicIpInfo 30000 (env_ipApi_up (t0 + 5000))
         (snd (getPublicIpInfo 30000 (env_all_down t0) world0))) = Ok acme_record /\
  acme_record <> mockIpInfo /\
  requestTimes UrlIpApi
    (events_of (getPublicIpInfo 30000 (env_ipApi_up (t0 + 5000)))
       (snd (getPublicIpInfo 30000 (env_all_down t0) world0))) = [t0 + 5000].
Proof.
  repeat (split; [reflexivity|]). split; [discriminate|reflexivity].
Qed.

(** ** RateLimiter *)

Lemma rate_limit_after_success_witness :
  exists t1 t2,
    requestTimes (urlOf KeyIpApi)
      (events_of (callProvider KeyIpApi (env_ipApi_up t0)) world0) = [t1] /\
    requestTimes (urlOf KeyIpApi)
      (events_of (callProvider KeyIpApi (env_ipApi_up (t0 + 100)))
         (snd (callProvider KeyIpApi (env_ipApi_up t0) world0))) = [t2] /\
    t2 = Z.max (nowOf KeyIpApi (env_ipApi_up (t0 + 100)))
               (settledOf KeyIpApi (env_ipApi_up t0) + limitOf KeyIpApi) /\
    (t1 <= settledOf KeyIpApi (env_ipApi_up t0) -> limitOf KeyIpApi <= t2 - t1) /\
    timeouts (events_of (callProvider KeyIpApi (env_ipApi_up (t0 + 100)))
                (snd (callProvider KeyIpApi (env_ipApi_up t0) world0))) =
      (if nowOf KeyIpApi (env_ipApi_up (t0 + 100)) - settledOf KeyIpApi (env_ipApi_up t0)
          <? limitOf KeyIpApi
       then [limitOf KeyIpApi -
             (nowOf KeyIpApi (env_ipApi_up (t0 + 100)) - settledOf KeyIpApi (env_ipApi_up t0))]
       else []).
Proof.
  apply (rate_limit_after_success KeyIpApi (env_ipApi_up t0) (env_ipApi_up (t0 + 100))
           world0 acme_record).
  reflexivity.
Defined.

Example second_request_waits_950ms :
  events_of (callProvider KeyIpApi (env_ipApi_up (t0 + 100)))
    (snd (callProvider KeyIpApi (env_ipApi_up t0) world0)) =
  [Timeout 950; Get UrlIpApi (t0 + 1050)].
Proof. reflexivity. Qed.

(** C7 as stated fails: a request to ip-api.com sent at [t0] gets no reply,
    nothing is recorded, and the next request leaves 12 ms after it. *)
Lemma failed_request_is_not_spaced :
  fst (callProvider KeyIpApi (env_all_down t0) world0) = Throw AxiosError /\
  requestTimes (urlOf KeyIpApi)
    (events_of (callProvider KeyIpApi (env_all_down t0)) world0) = [t0] /\
  requestTimes (urlOf KeyIpApi)
    (events_of (callProvider KeyIpApi (env_all_down (t0 + 12)))
       (snd (callProvider KeyIpApi (env_all_down t0) world0))) = [t0 + 12] /\
  (t0 + 12) - t0 < limitOf KeyIpApi.
Proof.
  repeat (split; [reflexivity|]). reflexivity.
Qed.

(** ** GatewayProbe *)

(** The scenario of the specification: the probe times out. *)
Example gateway_timeout_logged_down :
  logGatewayStatus (mkGatewayEnv (Ok false) true 60 true 61) world0 =
  (Ok tt,
   set_gateway_log [GatewayLog.mk "down" 60]
     (emit (Query (InsertGatewayLog "down")) (emit Ping world0))).
Proof. reflexivity. Qed.

Example gateway_store_down :
  events_of (logGatewayStatus (mkGatewayEnv (Ok true) false 60 false 61)) world0 =
  [ Ping; Query (InsertGatewayLog "up"); Query (InsertGatewayLog "down");
    ConsoleError "Error logging gateway status to DB:" ].
Proof. reflexivity. Qed.

Lemma logGatewayStatus_never_throws_witness :
  fst (logGatewayStatus (mkGatewayEnv (Ok false) false 60 false 61) world0) = Ok tt /\
  events_of (logGatewayStatus (mkGatewayEnv (Ok false) false 60 false 61)) world0 =
    [ Ping; Query (InsertGatewayLog "down"); Query (InsertGatewayLog "down");
      ConsoleError "Error logging gateway status to DB:" ] /\
  gateway_log (snd (logGatewayStatus (mkGatewayEnv (Ok false) false 60 false 61) world0)) =
    gateway_log world0 ++ [].
Proof.
  destruct (logGatewayStatus_never_throws
              (mkGatewayEnv (Ok false) false 60 false 61) world0)
    as [Hret [_ Hrun]].
  split; [exact Hret|]. exact (Hrun eq_refl).
Defined.

(** ** MetricsAggregator *)

Example sample_complete :
  fst (getNetworkMetrics 30000 30000 String.eqb toFixed2_stub
         (probes_up (env_ipApi_up t0) (t0 + 100) true) world0) =
  Ok (Some
        {| timestamp := "2023-11-15 05:13:20";
           publicIpInfo := Some acme_record;
           systemMetrics := {| cpuLoad := "0.00"; memoryUsed := "0.00"; uptime := 2 |};
           networkMetrics := {| downloadSpeed := "0.00"; uploadSpeed := "0.00";
                                totalDownload := "0.00"; totalUpload := "0.00";
                                latency := "0.00" |} |}).
Proof. reflexivity. Qed.

Lemma getNetworkMetrics_all_or_nothing_witness :
  exists info,
    fst (getNetworkMetrics 30000 30000 String.eqb toFixed2_stub
           (probes_up (env_ipApi_up t0) (t0 + 100) true) world0) =
    Ok (Some (buildSnapshot toFixed2_stub "2023-11-15 05:13:20" (Some info)
                (Si.mkCurrentLoad (5 # 1)) (Si.mkMem (1 # 1) (2 # 1))
                (Si.mkTime (7200 # 1))
                (Si.mkNetworkStats (2048 # 1) (1024 # 1) (4096 # 1) (4096 # 1))
                (Some (Some (12 # 1)%Q)))).
Proof.
  destruct (getNetworkMetrics_all_or_nothing 30000 30000 String.eqb toFixed2_stub
              (probes_up (env_ipApi_up t0) (t0 + 100) true) world0)
    as [_ [_ [_ Hfull]]].
  apply (Hfull (Si.mkNetworkStats (2048 # 1) (1024 # 1) (4096 # 1) (4096 # 1)) []
           (Some (12 # 1)%Q) (Si.mkCurrentLoad (5 # 1)) (Si.mkMem (1 # 1) (2 # 1))
           (Si.mkTime (7200 # 1)));
    reflexivity.
Defined.

(** C4 as stated fails: each of the six wrapped fetches is fulfilled at
    its first call, the store rejects the time query that follows, and the
    sample is null. *)
Lemma time_query_rejected_gives_null :
  (exists stats, retried (networkStats_call (probes_up (env_ipApi_up t0) (t0 + 100) false)) = Ok stats) /\
  (exists lat, retried (inetLatency_call (probes_up (env_ipApi_up t0) (t0 + 100) false)) = Ok lat) /\
  fst (getMetricsWithRetry
         (fun i => getPublicIpInfo 30000
                     (publicIp_call (probes_up (env_ipApi_up t0) (t0 + 100) false) i))
         3 world0) = Ok (Some acme_record) /\
  (exists cpu, retried (currentLoad_call (probes_up (env_ipApi_up t0) (t0 + 100) false)) = Ok cpu) /\
  (exists mem, retried (mem_call (probes_up (env_ipApi_up t0) (t0 + 100) false)) = Ok mem) /\
  (exists up, retried (time_call (probes_up (env_ipApi_up t0) (t0 + 100) false)) = Ok up) /\
  fst (getNetworkMetrics 30000 30000 String.eqb toFixed2_stub
         (probes_up (env_ipApi_up t0) (t0 + 100) false) world0) = Ok None.
Proof.
  split; [eexists; reflexivity|]. split; [eexists; reflexivity|].
  split; [reflexivity|]. split; [eexists; reflexivity|].
  split; [eexists; reflexivity|]. split; [eexists; reflexivity|]. reflexivity.
Qed.

Lemma all_down_throws :
  Forall (throws world0) (apiServices (env_all_down t0)).
Proof.
  unfold apiServices.
  repeat (constructor; [exists AxiosError; reflexivity|]). constructor.
Defined.

Lemma mock_identity_reaches_detector_witness :
  ispCheckDue 30000 (Some mockIpInfo)
    (check_now (probes_up (env_all_down t0) (t0 + 100) true)) (lastIspCheck world0) = true /\
  exists wj,
    frame world0 wj /\
    swap (snd (getNetworkMetrics 30000 30000 String.eqb toFixed2_stub
                 (probes_up (env_all_down t0) (t0 + 100) true) world0)) =
      swap (snd (checkAndLogIspChange String.eqb
                   (check_db (probes_up (env_all_down t0) (t0 + 100) true))
                   "Unknown" "000.000.000.000" wj)) /\
    lastIspCheck (snd (getNetworkMetrics 30000 30000 String.eqb toFixed2_stub
                         (probes_up (env_all_down t0) (t0 + 100) true) world0)) =
      check_now (probes_up (env_all_down t0) (t0 + 100) true) /\
    (pool world0 = true ->
     select_ok (check_db (probes_up (env_all_down t0) (t0 + 100) true)) = true ->
     update_ok (check_db (probes_up (env_all_down t0) (t0 + 100) true)) = true ->
     insert_ok (check_db (probes_up (env_all_down t0) (t0 + 100) true)) = true ->
     (forall r, top1_by_timestamp (swap world0) = Some r -> Swap.isp r <> "Unknown") ->
     exists rows,
       swap (snd (getNetworkMetrics 30000 30000 String.eqb toFixed2_stub
                    (probes_up (env_all_down t0) (t0 + 100) true) world0)) =
       rows ++ [Swap.mk "Unknown" "000.000.000.000"
                  (insert_time (check_db (probes_up (env_all_down t0) (t0 + 100) true))) 1]).
Proof.
  apply (mock_identity_reaches_detector 30000 30000 String.eqb toFixed2_stub
           (probes_up (env_all_down t0) (t0 + 100) true) world0 world0
           [Si.mkNetworkStats (2048 # 1) (1024 # 1) (4096 # 1) (4096 # 1)]
           (Some (12 # 1)%Q) (Si.mkCurrentLoad (5 # 1)) (Si.mkMem (1 # 1) (2 # 1))
           (Si.mkTime (7200 # 1))).
  - reflexivity.
  - exact all_down_throws.
  - reflexivity.
  - reflexivity.
  - reflexivity.
  - reflexivity.
  - reflexivity.
  - vm_compute. discriminate.
Defined.

Example mock_identity_persisted :
  swap (snd (getNetworkMetrics 30000 30000 String.eqb toFixed2_stub
               (probes_up (env_all_down t0) (t0 + 100) true) world0)) =
  [Swap.mk "Unknown" "000.000.000.000" (t0 + 100) 1].
Proof. reflexivity. Qed.

(** ** Scheduler and Broadcaster *)

(** C3 as stated fails: a snapshot is current, the next sample is null
    (the network probe is rejected three times), and after the tick
    [currentMetrics] is null and a push tick on an open socket sends
    nothing. *)
Lemma null_sample_erases_current :
  currentMetrics world_published = Some earlier_snapshot /\
  fst (getNetworkMetrics 30000 30000 String.eqb toFixed2_stub
         (network_probe_down (env_ipApi_up t0) (t0 + 100)) world_published) = Ok None /\
  currentMetrics
    (snd (monitoringTick 30000 30000 String.eqb toFixed2_stub
            (network_probe_down (env_ipApi_up t0) (t0 + 100)) world_published)) = None /\
  events_of (pushTick 0 true)
    (snd (monitoringTick 30000 30000 String.eqb toFixed2_stub
            (network_probe_down (env_ipApi_up t0) (t0 + 100)) world_published)) = [].
Proof.
  repeat (split; [reflexivity|]). reflexivity.
Qed.

(** ** Query routes *)


Lemma activeIsps_after_run_witness :
  let w1 := snd (observeAll String.eqb acme_globex_acme world0) in
  exists entries,
    fst (activeIspsRoute String.eqb formatTimestamp_stub true w1) = Ok (Json entries) /\
    forall i e, nth_error entries (S i) = Some e -> ActiveISP.is_active e <> 1.
Proof.
  exact (activeIsps_after_run String.eqb formatTimestamp_stub acme_globex_acme [] world0
           String.eqb_refl eq_refl eq_refl acme_globex_acme_clock).
Defined.

Example active_isps_of_acme_globex_acme :
  fst (activeIspsRoute String.eqb formatTimestamp_stub true
         (snd (observeAll String.eqb acme_globex_acme world0))) =
  Ok (Json [ ActiveISP.mk "Acme" "1.2.3.4" "2023-11-15 05:13:20" 1;
             ActiveISP.mk "Globex" "5.6.7.8" "2023-11-15 05:13:20" 0 ]).
Proof. reflexivity. Qed.

Lemma activeIsps_each_isp_once_witness :
  ForallOrdPairs
    (fun a b => (ActiveISP.isp a =? ActiveISP.isp b)%string = false)
    [ ActiveISP.mk "Acme" "1.2.3.4" "2023-11-15 05:13:20" 1;
      ActiveISP.mk "Globex" "5.6.7.8" "2023-11-15 05:13:20" 0 ].
Proof.
  apply (activeIsps_each_isp_once String.eqb String.eqb_sym formatTimestamp_stub true
           (snd (observeAll String.eqb acme_globex_acme world0))).
  reflexivity.
Defined.


(** ** GatewayProbe *)

Lemma uptime_counts_follow_logger_witness :
  let w' := snd (logGatewayStatus gateway_up world0) in
  let up := upCount7d String.eqb 100 (gateway_log world0) in
  let up' := upCount7d String.eqb 100 (gateway_log w') in
  let total := totalCount7d 100 (gateway_log world0) in
  let total' := totalCount7d 100 (gateway_log w') in
  (total' = total \/ total' = total + 1) /\
  0 <= up' - up <= total' - total /\
  (up' = up + 1 <->
   pool world0 = true /\ probe gateway_up = Ok true /\
   insert_status_ok gateway_up = true /\
   within7d 100 (insert_status_time gateway_up) = true).
Proof.
  exact (uptime_counts_follow_logger String.eqb gateway_up 100 world0 eq_refl eq_refl).
Defined.

Lemma logger_records_what_route_reports_witness :
  exists code status added,
    fst (gatewayStatusRoute (probe gateway_up) world0) = Ok (code, status) /\
    gateway_log (snd (gatewayStatusRoute (probe gateway_up) world0)) = gateway_log world0 /\
    (status = "up" <-> probe gateway_up = Ok true) /\
    (code = 500 <-> exists err, probe gateway_up = Throw err) /\
    gateway_log (snd (logGatewayStatus gateway_up world0)) = gateway_log world0 ++ added /\
    (List.length added <= 1)%nat /\
    Forall (fun r => GatewayLog.status r = status) added.
Proof.
  exact (logger_records_what_route_reports gateway_up world0 world0 eq_refl eq_refl).
Defined.

(** The fallback insert logs "down" for a gateway that answered, when the
    insert of "up" is rejected. *)
Example answered_gateway_logged_down :
  gateway_log (snd (logGatewayStatus (mkGatewayEnv (Ok true) false 60 true 61) world0)) =
  [GatewayLog.mk "down" 61].
Proof. reflexivity. Qed.

(** ** MetricsAggregator *)

Lemma getMetricsWithRetry_backoff_witness :
  let m := getMetricsWithRetry (fun i => settle (third_time_lucky i)) 3 in
  fst (m world0) = Ok (Some 7%nat) /\
  events_of m world0 = [Timeout 1000; Timeout 2000] /\
  only_history world0 (snd (m world0)).
Proof.
  apply (getMetricsWithRetry_backoff nat third_time_lucky 3 2 world0).
  - lia.
  - intros i Hi. destruct i as [|[|i]]; [exists ProbeError; reflexivity..|lia].
  - left. exists 7%nat. reflexivity.
Defined.

Lemma no_pool_no_snapshot_witness :
  let e := probes_up (env_ipApi_up t0) (t0 + 100) true in
  let w' := snd (monitoringTick 30000 30000 String.eqb toFixed2_stub e world_no_pool) in
  fst (monitoringTick 30000 30000 String.eqb toFixed2_stub e world_no_pool) = Ok tt /\
  currentMetrics w' = None /\ pool w' = false /\
  swap w' = swap world_no_pool /\ gateway_log w' = gateway_log world_no_pool /\
  forall client isOpen, events_of (pushTick client isOpen) w' = [].
Proof.
  exact (no_pool_no_snapshot 30000 30000 String.eqb toFixed2_stub
           (probes_up (env_ipApi_up t0) (t0 + 100) true) world_no_pool eq_refl).
Defined.

Lemma isp_check_throttled_witness :
  let e := probes_up (env_ipApi_up t0) 100 true in
  swap (snd (getNetworkMetrics 30000 30000 String.eqb toFixed2_stub e world0)) =
    swap world0 /\
  lastIspCheck (snd (getNetworkMetrics 30000 30000 String.eqb toFixed2_stub e world0)) =
    lastIspCheck world0.
Proof.
  exact (isp_check_throttled 30000 30000 String.eqb toFixed2_stub
           (probes_up (env_ipApi_up t0) 100 true) world0 eq_refl).
Defined.

Lemma swap_writes_are_spaced_witness :
  30000 <= check_now (probes_up (env_ipApi_up (t0 + 40000)) (t0 + 40100) true) -
           check_now (probes_up (env_all_down t0) (t0 + 100) true).
Proof.
  apply (swap_writes_are_spaced 30000 30000 String.eqb toFixed2_stub
           (probes_up (env_all_down t0) (t0 + 100) true)
           (probes_up (env_ipApi_up (t0 + 40000)) (t0 + 40100) true) world0).
  - vm_compute. discriminate.
  - vm_compute. discriminate.
Defined.

Lemma no_blank_identity_logged_witness :
  Swap.isp (Swap.mk "Acme" "1.2.3.4" (t0 + 100) 1) <> "" /\
  Swap.ip (Swap.mk "Acme" "1.2.3.4" (t0 + 100) 1) <> "".
Proof.
  apply (no_blank_identity_logged 30000 30000 String.eqb toFixed2_stub
           (probes_up (env_ipApi_up t0) (t0 + 100) true) world_globex).
  - intros r [<-|[]]. split; discriminate.
  - vm_compute. right. left. reflexivity.
Defined.

(** ** Dashboard *)

Lemma formatThaiTime_reorders_witness :
  formatThaiTime "2023-11-15 05:13:20" = Ok "15/11/2023 05:13:20".
Proof.
  exact (formatThaiTime_reorders "2023" "11" "15" "05" "13" "20"
           eq_refl eq_refl eq_refl eq_refl eq_refl eq_refl
           eq_refl eq_refl eq_refl eq_refl eq_refl eq_refl).
Defined.

Lemma histories_hold_30_points_witness :
  (List.length (latencyHistory (onMessages parseFloat_stub two_messages dashboard0)) <= 30)%nat /\
  (List.length (cpuHistory (onMessages parseFloat_stub two_messages dashboard0)) <= 30)%nat /\
  (List.length (memoryHistory (onMessages parseFloat_stub two_messages dashboard0)) <= 30)%nat.
Proof.
  apply (histories_hold_30_points parseFloat_stub two_messages dashboard0); cbn; lia.
Defined.

Lemma one_refresh_per_address_witness :
  let d' := onMessages parseFloat_stub two_messages dashboard0 in
  lastIpRef d' = Some "5.6.7.8" /\
  fetches d' = fetches dashboard0 ++ [FetchSwapLogs; FetchActiveIsps].
Proof.
  apply (one_refresh_per_address parseFloat_stub two_messages "5.6.7.8" dashboard0).
  - reflexivity.
  - repeat constructor.
  - discriminate.
Defined.

(** ** Start-up and the requests of a sample *)

Lemma startServer_never_restarts_witness :
  let w' := snd (startServer 30000 30000 String.eqb toFixed2_stub
                   start_no_store world_no_pool) in
  fst (startServer 30000 30000 String.eqb toFixed2_stub start_no_store world_no_pool) =
    Ok (LogGatewayEvery 60000) /\
  currentMetrics w' = None /\ swap w' = swap world_no_pool.
Proof.
  destruct (startServer_never_restarts 30000 30000 String.eqb toFixed2_stub
              start_no_store world_no_pool) as [Hret [_ [_ Hnone]]].
  split; [exact Hret|]. exact (Hnone eq_refl eq_refl).
Defined.

Lemma one_sample_five_requests_witness :
  events_of (getPublicIpInfo 30000 (env_ipApi_up (t0 + 1000))) (world_cached t0) = [] /\
  (requests (events_of (getNetworkMetrics 30000 30000 String.eqb toFixed2_stub
                          (probes_up (env_all_down t0) (t0 + 100) true))
               world0) <= 5)%nat.
Proof.
  destruct (one_sample_five_requests 30000 30000 String.eqb toFixed2_stub
              (probes_up (env_all_down t0) (t0 + 100) true)
              (env_ipApi_up (t0 + 1000)) (world_cached t0)) as [_ [Hfresh _]].
  destruct (one_sample_five_requests 30000 30000 String.eqb toFixed2_stub
              (probes_up (env_all_down t0) (t0 + 100) true)
              (env_ipApi_up (t0 + 1000)) world0) as [_ [_ [Hsample _]]].
  split; [exact (Hfresh eq_refl)|exact Hsample].
Defined.

(** With every provider down the sample sends four requests: the second
    request of the last client is not sent when its first is rejected. *)
Example all_down_sends_four :
  requests (events_of (getNetworkMetrics 30000 30000 String.eqb toFixed2_stub
                         (probes_up (env_all_down t0) (t0 + 100) true))
              world0) = 4%nat.
Proof. vm_compute. reflexivity. Qed.

Lemma updateHistory_keeps_newest_witness :
  exists kept,
    updateHistory [History.mk "05:13:15" (12 # 1)%Q] (13 # 1)%Q "05:13:20" 1 =
    kept ++ [History.mk "05:13:20" (13 # 1)%Q].
Proof.
  destruct (updateHistory_keeps_newest [History.mk "05:13:15" (12 # 1)%Q] (13 # 1)%Q
              "05:13:20" 1) as [_ [_ Hlast]].
  apply Hlast. lia.
Defined.
